(** * Chat-analytics bot: cache keys, cache store, search and statistics

    A shallow embedding of the search / statistics / caching core of the
    Telegram chat-analytics bot:

    - [RedisService] (cache store and cache-key derivation),
    - [Message] and [User] (the queries sent to the message store, with the
      SQL they contain written out over an in-memory table model),
    - the read-through orchestration of [handlers/stats.ts]
      ([getStatsData], [getUserStatsData], [handleUsersList],
      [getSearchResults], [handleSearchCommand]).

    JavaScript strings are sequences of UTF-16 code units ([list N]);
    JavaScript numbers that hold identifiers, counts, pages and timestamps
    are integers ([Z]).  Promises that reject and statements that throw are
    an explicit outcome ([Ok] / [Throw]) threaded with the state of the
    outside world (store, cache backend, clock, console). *)

From Stdlib Require Import ZArith NArith List Bool Lia String Ascii.
From Stdlib Require Import DecimalString DecimalZ Sorting.Sorted Permutation.
From stdpp Require Import gmap list sorting.
Import ListNotations.
Open Scope Z_scope.
Set Warnings "-register-all".

(** ** JavaScript strings and numbers *)

(** A string is the list of its UTF-16 code units. *)
Abbreviation jsstring := (list N).

(** ASCII literals of the source, as code units. *)
Definition lit (s : string) : jsstring :=
  List.map N_of_ascii (list_ascii_of_string s).
Arguments lit : simpl never.

Definition jsstring_eqb (a b : jsstring) : bool :=
  bool_decide (a = b).

(** [Number.prototype.toString] on an integer-valued number (identifiers,
    pages): the decimal digits, with a leading minus sign for negatives.
    (Exponent notation starts at 1e21, far above any identifier.) *)
Fixpoint uint_units (d : Decimal.uint) : jsstring :=
  match d with
  | Decimal.Nil => []
  | Decimal.D0 d => 48%N :: uint_units d
  | Decimal.D1 d => 49%N :: uint_units d
  | Decimal.D2 d => 50%N :: uint_units d
  | Decimal.D3 d => 51%N :: uint_units d
  | Decimal.D4 d => 52%N :: uint_units d
  | Decimal.D5 d => 53%N :: uint_units d
  | Decimal.D6 d => 54%N :: uint_units d
  | Decimal.D7 d => 55%N :: uint_units d
  | Decimal.D8 d => 56%N :: uint_units d
  | Decimal.D9 d => 57%N :: uint_units d
  end.

Definition Number_toString (z : Z) : jsstring :=
  match Z.to_int z with
  | Decimal.Pos d => uint_units d
  | Decimal.Neg d => 45%N :: uint_units d
  end.

Definition in_range (lo hi c : N) : bool := ((lo <=? c) && (c <=? hi))%N.

(** A case folding for Latin and Cyrillic letters (the alphabets the
    cache keys name), used to run the model on examples. *)
Definition simple_upper (c : N) : N :=
  if in_range 97 122 c || in_range 1072 1103 c then (c - 32)%N else c.

(** White space of [String.prototype.trim] and of the class [\s]:
    WhiteSpace and LineTerminator code units. *)
Definition is_whitespace (c : N) : bool :=
  in_range 9 13 c || (c =? 32)%N || (c =? 160)%N || (c =? 5760)%N
  || in_range 8192 8202 c || (c =? 8232)%N || (c =? 8233)%N
  || (c =? 8239)%N || (c =? 8287)%N || (c =? 12288)%N || (c =? 65279)%N.

Fixpoint trimStart (s : jsstring) : jsstring :=
  match s with
  | c :: s' => if is_whitespace c then trimStart s' else s
  | [] => []
  end.

Definition trim (s : jsstring) : jsstring :=
  rev (trimStart (rev (trimStart s))).

(** [s.split(sep)] for a one-unit separator: the pieces between the
    separators, empty pieces included. *)
Fixpoint split_on (sep : N) (s : jsstring) : list jsstring :=
  match s with
  | [] => [[]]
  | c :: s' =>
      if (c =? sep)%N then [] :: split_on sep s'
      else match split_on sep s' with
           | p :: ps => (c :: p) :: ps
           | [] => [[c]]
           end
  end.

(** [pieces.join(sep)]. *)
Fixpoint join (sep : jsstring) (pieces : list jsstring) : jsstring :=
  match pieces with
  | [] => []
  | [p] => p
  | p :: ps => p ++ sep ++ join sep ps
  end.

(** [s.split(/\s+/)]: the pieces between maximal runs of white space
    (a leading or trailing run leaves an empty piece). [in_run] says that
    the unit before the current one was white space. *)
Fixpoint split_ws_from (in_run : bool) (s : jsstring) : list jsstring :=
  match s with
  | [] => [[]]
  | c :: s' =>
      if is_whitespace c then
        if in_run then split_ws_from true s'
        else [] :: split_ws_from true s'
      else match split_ws_from false s' with
           | p :: ps => (c :: p) :: ps
           | [] => [[c]]
           end
  end.

Definition split_ws (s : jsstring) : list jsstring := split_ws_from false s.

(** *** Code points

    A code point above U+FFFF takes two units, a lead surrogate and a
    trail surrogate. *)

Definition is_lead_surrogate (c : N) : bool := in_range 55296 56319 c.
Definition is_trail_surrogate (c : N) : bool := in_range 56320 57343 c.

(** A string of code units in which every surrogate has its pair. *)
Fixpoint well_formed (s : jsstring) : bool :=
  match s with
  | [] => true
  | c :: s' =>
      if is_trail_surrogate c then false
      else if is_lead_surrogate c then
        match s' with
        | d :: s'' => is_trail_surrogate d && well_formed s''
        | [] => false
        end
      else (c <? 65536)%N && well_formed s'
  end.

(** [String.prototype.toWellFormed]: a surrogate without its pair becomes
    U+FFFD.  It is also what the UTF-8 encoder of the platform writes for
    such a unit. *)
Fixpoint toWellFormed (s : jsstring) : jsstring :=
  match s with
  | [] => []
  | c :: s' =>
      if is_trail_surrogate c then 65533%N :: toWellFormed s'
      else if is_lead_surrogate c then
        match s' with
        | d :: s'' =>
            if is_trail_surrogate d then c :: d :: toWellFormed s''
            else 65533%N :: toWellFormed s'
        | [] => [65533%N]
        end
      else c :: toWellFormed s'
  end.

(** The code points of a string, each with its one or two units. *)
Fixpoint code_points (s : jsstring) : list jsstring :=
  match s with
  | [] => []
  | c :: s' =>
      match s' with
      | d :: s'' =>
          if is_lead_surrogate c && is_trail_surrogate d
          then [c; d] :: code_points s''
          else [c] :: code_points s'
      | [] => [[c]]
      end
  end.

(** [Number.isSafeInteger]: the integers a number holds exactly, so that
    [toString] writes their digits and [parseInt] reads them back. *)
Definition safe_integer (z : Z) : bool := Z.abs z <? 2 ^ 53.

(** ** Cache-key derivation ([RedisService], services/redis.ts) *)

Definition createStatsCacheKey (chatId : Z) (period : jsstring) : jsstring :=
  lit "stats:" ++ Number_toString chatId ++ lit ":" ++ period.

Definition createUserStatsCacheKey (chatId userId : Z) (period : jsstring)
  : jsstring :=
  lit "user_stats:" ++ Number_toString chatId ++ lit ":"
    ++ Number_toString userId ++ lit ":" ++ period.

Definition createUsersListCacheKey (chatId : Z) : jsstring :=
  lit "users_list:" ++ Number_toString chatId.

(** The units kept by the class [[^a-zA-Z0-9\u0430-\u044F\u0410-\u042F]]
    of [createSearchCacheKey]: Latin letters, digits and the two Cyrillic
    ranges (small and capital letters). *)
Definition key_unit (c : N) : bool :=
  in_range 97 122 c || in_range 65 90 c || in_range 48 57 c
  || in_range 1072 1103 c || in_range 1040 1071 c.

Definition normalizeQuery (query : jsstring) : jsstring :=
  take 50 (List.map (fun c => if key_unit c then c else 95%N) query).

Definition createSearchCacheKey (chatId : Z) (query : jsstring) (page : Z)
  : jsstring :=
  lit "search:" ++ Number_toString chatId ++ lit ":"
    ++ normalizeQuery query ++ lit ":" ++ Number_toString page.

(** ** Regular expressions

    Two engines read the user's pattern: the ECMAScript [RegExp] of the
    bot process ([highlightText]) and the regular-expression operator [~]
    of the message store ([searchMessages], [countSearchResults]).  Both
    are modelled over the pattern language they share: literals, [.],
    bracket classes with ranges, the escapes [\d \w \s \D \W \S] and
    escaped punctuation, capturing groups, alternation, the anchors
    [^ $] and the greedy quantifiers [* + ?].  A pattern outside this
    language is not compiled ([None]). *)

Inductive regex :=
| REmpty
| RChar (c : N)
| RAny
| RClass (neg : bool) (ranges : list (N * N))
| RBol
| REol
| RSeq (r1 r2 : regex)
| RAlt (r1 r2 : regex)
| RStar (r : regex)
| RGroup (n : nat) (r : regex).

(** SyntaxCharacter: [^ $ \ . * + ? ( ) [ ] { } |]. *)
Definition is_syntax_char (c : N) : bool :=
  existsb (N.eqb c) [94; 36; 92; 46; 42; 43; 63; 40; 41; 91; 93; 123; 125; 124]%N.

Definition is_alnum (c : N) : bool :=
  in_range 97 122 c || in_range 65 90 c || in_range 48 57 c.

Definition digit_ranges : list (N * N) := [(48, 57)]%N.
Definition word_ranges : list (N * N) :=
  [(97, 122); (65, 90); (48, 57); (95, 95)]%N.
Definition space_ranges : list (N * N) :=
  [(9, 13); (32, 32); (160, 160); (5760, 5760); (8192, 8202); (8232, 8233);
   (8239, 8239); (8287, 8287); (12288, 12288); (65279, 65279)]%N.

(** The atom an escape [\x] stands for, outside brackets. *)
Definition escape_atom (x : N) : option regex :=
  if (x =? 100)%N then Some (RClass false digit_ranges)
  else if (x =? 119)%N then Some (RClass false word_ranges)
  else if (x =? 115)%N then Some (RClass false space_ranges)
  else if (x =? 68)%N then Some (RClass true digit_ranges)
  else if (x =? 87)%N then Some (RClass true word_ranges)
  else if (x =? 83)%N then Some (RClass true space_ranges)
  else if is_alnum x then None
  else Some (RChar x).

(** The ranges an escape [\x] stands for, inside brackets. *)
Definition escape_ranges (x : N) : option (list (N * N)) :=
  if (x =? 100)%N then Some digit_ranges
  else if (x =? 119)%N then Some word_ranges
  else if (x =? 115)%N then Some space_ranges
  else if is_alnum x then None
  else Some [(x, x)].

(** The items of a bracket class, up to and including the closing [']']. *)
Fixpoint parse_class (s : jsstring) : option (list (N * N) * jsstring) :=
  match s with
  | [] => None
  | c :: rest =>
      if (c =? 93)%N then Some ([], rest)
      else if (c =? 91)%N then None
      else if (c =? 92)%N then
        match rest with
        | x :: rest' =>
            match escape_ranges x, parse_class rest' with
            | Some rs, Some (items, s') => Some (rs ++ items, s')
            | _, _ => None
            end
        | [] => None
        end
      else
        match rest with
        | m :: d :: rest' =>
            if (m =? 45)%N && negb (d =? 93)%N then
              if (d =? 92)%N || (d =? 91)%N || (d <? c)%N then None
              else match parse_class rest' with
                   | Some (items, s') => Some ((c, d) :: items, s')
                   | None => None
                   end
            else match parse_class rest with
                 | Some (items, s') => Some ((c, c) :: items, s')
                 | None => None
                 end
        | _ => match parse_class rest with
               | Some (items, s') => Some ((c, c) :: items, s')
               | None => None
               end
        end
  end.

(** A quantifier after an atom. *)
Definition quantified (atom : regex) (s : jsstring) : regex * jsstring :=
  match s with
  | q :: s' =>
      if (q =? 42)%N then (RStar atom, s')
      else if (q =? 43)%N then (RSeq atom (RStar atom), s')
      else if (q =? 63)%N then (RAlt atom REmpty, s')
      else (atom, s)
  | [] => (atom, s)
  end.

(** Recursive descent: disjunction, alternative, term.  [g] counts the
    groups opened so far; every call spends one unit of [fuel]. *)
Fixpoint parse_alt (fuel : nat) (g : nat) (s : jsstring)
  : option (regex * nat * jsstring) :=
  match fuel with
  | O => None
  | S f =>
      match parse_seq f g s with
      | Some (r1, g1, s1) =>
          match s1 with
          | c :: s2 =>
              if (c =? 124)%N then
                match parse_alt f g1 s2 with
                | Some (r2, g2, s3) => Some (RAlt r1 r2, g2, s3)
                | None => None
                end
              else Some (r1, g1, s1)
          | [] => Some (r1, g1, s1)
          end
      | None => None
      end
  end
with parse_seq (fuel : nat) (g : nat) (s : jsstring)
  : option (regex * nat * jsstring) :=
  match fuel with
  | O => None
  | S f =>
      match s with
      | [] => Some (REmpty, g, s)
      | c :: _ =>
          if (c =? 124)%N || (c =? 41)%N then Some (REmpty, g, s)
          else
            match parse_term f g s with
            | Some (t, g1, s1) =>
                match parse_seq f g1 s1 with
                | Some (r, g2, s2) => Some (RSeq t r, g2, s2)
                | None => None
                end
            | None => None
            end
      end
  end
with parse_term (fuel : nat) (g : nat) (s : jsstring)
  : option (regex * nat * jsstring) :=
  match fuel with
  | O => None
  | S f =>
      match s with
      | [] => None
      | c :: s1 =>
          if (c =? 40)%N then
            match s1 with
            | q :: _ =>
                if (q =? 63)%N then None
                else
                  match parse_alt f (S g) s1 with
                  | Some (r, g1, s2) =>
                      match s2 with
                      | e :: s3 =>
                          if (e =? 41)%N then
                            let (a, s4) := quantified (RGroup (S g) r) s3 in
                            Some (a, g1, s4)
                          else None
                      | [] => None
                      end
                  | None => None
                  end
            | [] => None
            end
          else if (c =? 91)%N then
            let (neg, body) :=
              match s1 with
              | n :: s2 => if (n =? 94)%N then (true, s2) else (false, s1)
              | [] => (false, s1)
              end in
            match body with
            | b :: _ =>
                if (b =? 93)%N then None
                else match parse_class body with
                     | Some (items, s3) =>
                         let (a, s4) := quantified (RClass neg items) s3 in
                         Some (a, g, s4)
                     | None => None
                     end
            | [] => None
            end
          else if (c =? 92)%N then
            match s1 with
            | x :: s2 =>
                match escape_atom x with
                | Some atom =>
                    let (a, s3) := quantified atom s2 in Some (a, g, s3)
                | None => None
                end
            | [] => None
            end
          else if (c =? 46)%N then
            let (a, s2) := quantified RAny s1 in Some (a, g, s2)
          else if (c =? 94)%N then Some (RBol, g, s1)
          else if (c =? 36)%N then Some (REol, g, s1)
          else if (c =? 93)%N then
            let (a, s2) := quantified (RChar c) s1 in Some (a, g, s2)
          else if is_syntax_char c then None
          else
            let (a, s2) := quantified (RChar c) s1 in Some (a, g, s2)
      end
  end.

(** Compiling a whole pattern; the fuel covers three calls per unit. *)
Definition parse_fuel (pattern : jsstring) : nat :=
  (4 * List.length pattern + 4)%nat.

Definition compile (pattern : jsstring) : option regex :=
  match parse_alt (parse_fuel pattern) 0 pattern with
  | Some (r, _, []) => Some r
  | _ => None
  end.

(** *** Matching

    An engine is a pattern language plus two switches: how two units are
    compared ([fold], the identity for a case-sensitive engine) and whether
    [.] matches a line terminator. *)
Record flavour := {
  fold : N -> N;
  dot_newline : bool
}.

Definition is_line_terminator (c : N) : bool :=
  (c =? 10)%N || (c =? 13)%N || (c =? 8232)%N || (c =? 8233)%N.

Definition N_range (lo hi : N) : list N :=
  List.map N.of_nat (seq (N.to_nat lo) (S (N.to_nat hi) - N.to_nat lo)).

(** A unit belongs to a class when some member of the class folds to the
    same unit. *)
Definition class_member (fl : flavour) (ranges : list (N * N)) (c : N) : bool :=
  existsb (fun '(lo, hi) =>
             existsb (fun a => (fold fl a =? fold fl c)%N) (N_range lo hi))
          ranges.

(** A matcher state: at the start of the input, the input left, the
    captures so far (latest first). *)
Definition mstate : Type := bool * jsstring * list (nat * jsstring).

(** All the ways [r] matches a prefix of the input, in the order a
    backtracking engine tries them. *)
Fixpoint rmatch (fl : flavour) (r : regex) (st : mstate) {struct r}
  : list mstate :=
  let '(bol, s, caps) := st in
  match r with
  | REmpty => [st]
  | RChar c =>
      match s with
      | d :: s' => if (fold fl d =? fold fl c)%N then [(false, s', caps)] else []
      | [] => []
      end
  | RAny =>
      match s with
      | d :: s' =>
          if dot_newline fl || negb (is_line_terminator d)
          then [(false, s', caps)] else []
      | [] => []
      end
  | RClass neg ranges =>
      match s with
      | d :: s' =>
          if xorb neg (class_member fl ranges d) then [(false, s', caps)] else []
      | [] => []
      end
  | RBol => if bol then [st] else []
  | REol => match s with [] => [st] | _ :: _ => [] end
  | RSeq r1 r2 => flat_map (rmatch fl r2) (rmatch fl r1 st)
  | RAlt r1 r2 => rmatch fl r1 st ++ rmatch fl r2 st
  | RStar r1 =>
      (fix loop (fuel : nat) (st0 : mstate) {struct fuel} : list mstate :=
         match fuel with
         | O => [st0]
         | S f =>
             flat_map (fun st1 : mstate =>
                         if (List.length (snd (fst st1))
                             <? List.length (snd (fst st0)))%nat
                         then loop f st1 else [])
                      (rmatch fl r1 st0)
               ++ [st0]
         end) (S (List.length s)) st
  | RGroup n r1 =>
      List.map (fun st1 : mstate =>
                  let '(b1, s1, caps1) := st1 in
                  (b1, s1,
                   (n, take (List.length s - List.length s1)%nat s) :: caps1))
               (rmatch fl r1 st)
  end.

(** The match found at the current position, if any: the matched units
    and the captures. *)
Definition exec_at (fl : flavour) (r : regex) (bol : bool) (s : jsstring)
  : option (jsstring * list (nat * jsstring)) :=
  match rmatch fl r (bol, s, []) with
  | (_, s1, caps) :: _ => Some (take (List.length s - List.length s1)%nat s, caps)
  | [] => None
  end.

(** Does [r] match somewhere in [s]? *)
Fixpoint search_from (fl : flavour) (r : regex) (bol : bool) (s : jsstring)
  : bool :=
  match exec_at fl r bol s with
  | Some _ => true
  | None => match s with
            | _ :: s' => search_from fl r false s'
            | [] => false
            end
  end.

(** *** Replacement

    A replacement text is read for the patterns [$&] (the match), [$1]..[$9]
    (a capture) and [$$]. *)
Inductive piece :=
| PUnit (c : N)
| PWhole
| PGroup (n : nat).

Fixpoint parse_template (t : jsstring) : list piece :=
  match t with
  | [] => []
  | c :: t' =>
      if (c =? 36)%N then
        match t' with
        | d :: t'' =>
            if (d =? 38)%N then PWhole :: parse_template t''
            else if (d =? 36)%N then PUnit 36 :: parse_template t''
            else if in_range 49 57 d
                 then PGroup (N.to_nat (d - 48)) :: parse_template t''
                 else PUnit c :: parse_template t'
        | [] => [PUnit c]
        end
      else PUnit c :: parse_template t'
  end.

Fixpoint lookup_capture (n : nat) (caps : list (nat * jsstring)) : jsstring :=
  match caps with
  | [] => []
  | (k, v) :: caps' => if (k =? n)%nat then v else lookup_capture n caps'
  end.

Fixpoint group_count (r : regex) : nat :=
  match r with
  | RSeq r1 r2 | RAlt r1 r2 => Nat.max (group_count r1) (group_count r2)
  | RStar r1 => group_count r1
  | RGroup n r1 => Nat.max n (group_count r1)
  | _ => 0%nat
  end.

(** [$n] beyond the groups of the pattern stands for itself. *)
Definition expand (groups : nat) (tmpl : list piece) (m : jsstring)
    (caps : list (nat * jsstring)) : jsstring :=
  flat_map (fun p => match p with
                     | PUnit c => [c]
                     | PWhole => m
                     | PGroup n =>
                         if (n <=? groups)%nat then lookup_capture n caps
                         else [36%N; (48 + N.of_nat n)%N]
                     end) tmpl.

(** [text.replace(re, replacement)] for a global [re]: the matches are
    sought left to right, each search starting where the previous match
    ended (one unit further after an empty match).  [skip] counts the
    units of the previous match still to pass. *)
Fixpoint replace_from (fl : flavour) (r : regex) (tmpl : list piece)
    (bol : bool) (skip : nat) (s : jsstring) {struct s} : jsstring :=
  match s with
  | [] =>
      match skip, exec_at fl r bol [] with
      | O, Some (m, caps) => expand (group_count r) tmpl m caps
      | _, _ => []
      end
  | c :: s' =>
      match skip with
      | S k => replace_from fl r tmpl false k s'
      | O =>
          match exec_at fl r bol s with
          | Some (m, caps) =>
              expand (group_count r) tmpl m caps ++
              match m with
              | [] => c :: replace_from fl r tmpl false 0 s'
              | _ :: m' => replace_from fl r tmpl false (List.length m') s'
              end
          | None => c :: replace_from fl r tmpl false 0 s'
          end
      end
  end.

Definition replace_all (fl : flavour) (r : regex) (replacement : jsstring)
    (text : jsstring) : jsstring :=
  replace_from fl r (parse_template replacement) true 0 text.

(** ** The pattern operator ILIKE of the store *)

Inductive like_token :=
| LAny
| LOne
| LUnit (c : N).

(** [%] is any run of units, [_] any one unit, [\] takes the next unit
    literally; a pattern may not end in a lone escape. *)
Fixpoint like_tokens (p : jsstring) : option (list like_token) :=
  match p with
  | [] => Some []
  | c :: p' =>
      if (c =? 92)%N then
        match p' with
        | d :: p'' => option_map (cons (LUnit d)) (like_tokens p'')
        | [] => None
        end
      else if (c =? 37)%N then option_map (cons LAny) (like_tokens p')
      else if (c =? 95)%N then option_map (cons LOne) (like_tokens p')
      else option_map (cons (LUnit c)) (like_tokens p')
  end.

Fixpoint like_match (fd : N -> N) (p : list like_token) (s : jsstring)
  {struct p} : bool :=
  match p with
  | [] => match s with [] => true | _ :: _ => false end
  | LAny :: p' =>
      (fix try (t : jsstring) : bool :=
         like_match fd p' t
         || match t with
            | [] => false
            | _ :: t' => try t'
            end) s
  | LOne :: p' =>
      match s with
      | _ :: s' => like_match fd p' s'
      | [] => false
      end
  | LUnit c :: p' =>
      match s with
      | d :: s' => (fd d =? fd c)%N && like_match fd p' s'
      | [] => false
      end
  end.

(** ** JavaScript values and JSON *)

Inductive value :=
| VNull
| VBool (b : bool)
| VNum (z : Z)
| VStr (s : jsstring)
| VDate (t : Z)
| VIso (t : Z)
| VArr (items : list value)
| VObj (fields : list (jsstring * value)).

(** [VDate t] is a [Date] object, [VIso t] the string [toISOString] gives
    for it: what a [Date] becomes in JSON, and stays after parsing. *)
Fixpoint toJSON (v : value) : value :=
  match v with
  | VDate t => VIso t
  | VArr items => VArr (List.map toJSON items)
  | VObj fields => VObj (List.map (fun kv => (fst kv, toJSON (snd kv))) fields)
  | _ => v
  end.

(** A JSON text, represented by the value it denotes.  The backend is
    taken to hold only texts that [JSON.stringify] wrote: they parse, and
    none is the empty string, so a text read from the cache is truthy. *)
Inductive json_text :=
| Json (v : value).

Definition JSON_stringify (v : value) : json_text := Json (toJSON v).
Definition JSON_parse (t : json_text) : value := let 'Json v := t in v.

Fixpoint get_field (k : jsstring) (fields : list (jsstring * value))
  : option value :=
  match fields with
  | [] => None
  | (k', v) :: fields' =>
      if jsstring_eqb k' k then Some v else get_field k fields'
  end.

(** Assignment to a property: an own property keeps its place, a new one
    goes last. *)
Fixpoint set_field (k : jsstring) (v : value) (fields : list (jsstring * value))
  : list (jsstring * value) :=
  match fields with
  | [] => [(k, v)]
  | (k', v') :: fields' =>
      if jsstring_eqb k' k then (k, v) :: fields'
      else (k', v') :: set_field k v fields'
  end.

Definition field (k : string) (v : value) : option value :=
  match v with
  | VObj fields => get_field (lit k) fields
  | _ => None
  end.

Definition opt_str (o : option jsstring) : value :=
  match o with
  | Some s => VStr s
  | None => VNull
  end.

Definition opt_date (o : option Z) : value :=
  match o with
  | Some t => VDate t
  | None => VNull
  end.

(** ** The outside world *)

Record UserData := {
  u_id : Z;
  username : option jsstring;
  first_name : option jsstring;
  last_name : option jsstring;
  u_created_at : Z
}.

Record MessageData := {
  m_id : Z;
  user_id : Z;
  chat_id : Z;
  text : jsstring;
  created_at : Z
}.

(** What the bot sent to the chat.  The text of a page of results is not
    rendered; its keyboard is [searchKeyboard] of the result. *)
Inductive reply :=
| GroupsOnly
| Usage
| Searching
| NothingFound (query : jsstring)
| ResultPage (result : value)
| SearchFailed.

(** Instants are milliseconds since the epoch.  The cache backend keeps,
    per key, a text and the instant it expires. *)
Record World := {
  users : list UserData;
  messages : list MessageData;
  redis_store : gmap (list N) (json_text * Z);
  redis_up : bool;
  now : Z;
  console : list jsstring;
  sent : list reply
}.

Inductive error :=
| BackendError
| InvalidRegularExpression
| InvalidLikePattern
| NegativeLimit
| SyntaxError
| TypeError
| URIError
| UserNotFound
| CharacterNotInRepertoire
| StringDataRightTruncation
| UniqueViolation
| ForeignKeyViolation.

Inductive outcome (A : Type) :=
| Ok (a : A)
| Throw (e : error).
Arguments Ok {A} a.
Arguments Throw {A} e.

(** An [async] function: a computation on the world that returns or throws. *)
Definition M (A : Type) : Type := World -> outcome A * World.

Definition ret {A} (a : A) : M A := fun w => (Ok a, w).

Definition throw {A} (e : error) : M A := fun w => (Throw e, w).

Definition bind {A B} (m : M A) (k : A -> M B) : M B :=
  fun w => match m w with
           | (Ok a, w') => k a w'
           | (Throw e, w') => (Throw e, w')
           end.

Definition try_catch {A} (m : M A) (handler : error -> M A) : M A :=
  fun w => match m w with
           | (Ok a, w') => (Ok a, w')
           | (Throw e, w') => handler e w'
           end.

Definition lift {A} (o : outcome A) : M A := fun w => (o, w).

Notation "x <- m ;; k" := (bind m (fun x => k))
  (at level 100, m at next level, right associativity).
Notation "m ;;; k" := (bind m (fun _ => k))
  (at level 100, right associativity).

Definition console_error (msg : string) : M unit :=
  fun w => (Ok tt,
            {| users := users w; messages := messages w;
               redis_store := redis_store w; redis_up := redis_up w;
               now := now w; console := console w ++ [lit msg];
               sent := sent w |}).

Definition console_log (msg : jsstring) : M unit :=
  fun w => (Ok tt,
            {| users := users w; messages := messages w;
               redis_store := redis_store w; redis_up := redis_up w;
               now := now w; console := console w ++ [msg];
               sent := sent w |}).

Definition ctx_reply (r : reply) : M unit :=
  fun w => (Ok tt,
            {| users := users w; messages := messages w;
               redis_store := redis_store w; redis_up := redis_up w;
               now := now w; console := console w;
               sent := sent w ++ [r] |}).

Definition with_store (w : World) (s : gmap (list N) (json_text * Z)) : World :=
  {| users := users w; messages := messages w;
     redis_store := s; redis_up := redis_up w;
     now := now w; console := console w; sent := sent w |}.

(** ** Text on its way to the store

    The driver writes a string parameter in UTF-8, in which a surrogate
    without its pair goes as U+FFFD; the store refuses a text that holds
    U+0000 (SQLSTATE 22021). *)
Definition text_parameter (s : jsstring) : outcome jsstring :=
  let t := toWellFormed s in
  if existsb (N.eqb 0) t then Throw CharacterNotInRepertoire else Ok t.

(** A value assigned to a column [VARCHAR(n)]: at most [n] characters
    (code points); a longer value is refused (SQLSTATE 22001), unless
    what exceeds is spaces, which are cut. *)
Definition varchar (n : nat) (s : jsstring) : outcome jsstring :=
  let characters := code_points s in
  if forallb (fun c => jsstring_eqb c [32%N]) (drop n characters)
  then Ok (concat (take n characters))
  else Throw StringDataRightTruncation.

(** A parameter that may be [undefined], sent as NULL. *)
Definition optional {A B} (f : A -> outcome B) (o : option A)
  : outcome (option B) :=
  match o with
  | Some a => match f a with
              | Ok b => Ok (Some b)
              | Throw e => Throw e
              end
  | None => Ok None
  end.

(** A text that reaches the store as the program holds it. *)
Definition plain_text (s : jsstring) : bool :=
  well_formed s && negb (existsb (N.eqb 0) s).

(** ** The cache backend (the redis client) *)

(** What the backend holds under a key at the current instant. *)
Definition live_entry (w : World) (key : jsstring) : option json_text :=
  match redis_store w !! key with
  | Some (t, expires) => if now w <? expires then Some t else None
  | None => None
  end.

Definition client_get (key : jsstring) : M (option json_text) :=
  fun w => if redis_up w then (Ok (live_entry w key), w)
           else (Throw BackendError, w).

(** SETEX refuses an expiry that is not positive. *)
Definition client_setEx (key : jsstring) (ttlSeconds : Z) (v : json_text)
  : M unit :=
  fun w => if redis_up w && (0 <? ttlSeconds)
           then (Ok tt,
                 with_store w (<[key := (v, now w + 1000 * ttlSeconds)]>
                                 (redis_store w)))
           else (Throw BackendError, w).

Definition client_del (key : jsstring) : M unit :=
  fun w => if redis_up w
           then (Ok tt, with_store w (delete key (redis_store w)))
           else (Throw BackendError, w).

(** ** Cache store ([RedisService]) *)

Definition RedisService_get (key : jsstring) : M (option json_text) :=
  try_catch (client_get key)
            (fun _ => console_error "Redis GET error:" ;;; ret None).

Definition RedisService_set (key : jsstring) (v : json_text) (ttlSeconds : Z)
  : M unit :=
  try_catch (client_setEx key ttlSeconds v)
            (fun _ => console_error "Redis SET error:").

Definition RedisService_delete (key : jsstring) : M unit :=
  try_catch (client_del key)
            (fun _ => console_error "Redis DELETE error:").

(** ** Occurrences of a term in a text *)

(** [w] is at the head of [s], up to the folding [fd]. *)
Fixpoint prefix_fold (fd : N -> N) (w s : jsstring) : bool :=
  match w, s with
  | [], _ => true
  | c :: w', d :: s' => (fd d =? fd c)%N && prefix_fold fd w' s'
  | _ :: _, [] => false
  end.

(** [w] occurs somewhere in [s], up to the folding [fd]. *)
Fixpoint occurs_fold (fd : N -> N) (w s : jsstring) : bool :=
  prefix_fold fd w s
  || match s with
     | [] => false
     | _ :: s' => occurs_fold fd w s'
     end.

(** ** Example data

    The chat of the scenario: chat 100 with "hello world" (user 1, instant
    1), "Hello again" (user 1, instant 2) and "bye" (user 2, instant 3);
    and a busier chat 7 with seven greetings. *)

Definition demo_user (id : Z) (name : string) : UserData :=
  {| u_id := id; username := Some (lit name); first_name := None;
     last_name := None; u_created_at := 0 |}.

Definition demo_message (id user chat : Z) (txt : string) (at_ : Z)
  : MessageData :=
  {| m_id := id; user_id := user; chat_id := chat; text := lit txt;
     created_at := at_ |}.

Definition demo_world : World :=
  {| users := [demo_user 1 "ann"; demo_user 2 "bob"];
     messages := [demo_message 1 1 100 "hello world" 1;
                  demo_message 2 1 100 "Hello again" 2;
                  demo_message 3 2 100 "bye" 3;
                  demo_message 4 2 7 "hi one" 4;
                  demo_message 5 1 7 "hi two" 5;
                  demo_message 6 2 7 "hi three" 6;
                  demo_message 7 1 7 "hi four" 7;
                  demo_message 8 2 7 "hi five" 8;
                  demo_message 9 1 7 "hi six" 9;
                  demo_message 10 2 7 "hi seven" 10];
     redis_store := ∅; redis_up := true; now := 1000;
     console := []; sent := [] |}.

(** The same world with the backend unreachable. *)
Definition demo_world_offline : World :=
  {| users := users demo_world; messages := messages demo_world;
     redis_store := ∅; redis_up := false; now := 1000;
     console := []; sent := [] |}.

(** The same world with a user list already cached for chat 100. *)
Definition demo_world_cached : World :=
  with_store demo_world
    (<[createUsersListCacheKey 100
       := (Json (VArr [VObj [(lit "user_id", VNum 1);
                             (lit "message_count", VNum 2)]]), 5000)]> ∅).

(** The condition the store evaluates for the literal query "hi". *)
Definition hi_condition : jsstring -> bool :=
  like_match simple_upper [LAny; LUnit 104; LUnit 105; LAny].

Section Bot.

(** The two case foldings of the system: [Canonicalize] is the one the
    [i] flag of an ECMAScript [RegExp] applies to each unit, [pg_fold] the
    one [ILIKE] applies in the store.  Nothing is assumed about either. *)
Variable Canonicalize : N -> N.
Variable pg_fold : N -> N.

(** [new RegExp(p, 'gi')]. *)
Definition js_gi : flavour := {| fold := Canonicalize; dot_newline := false |}.

(** The operator [~] of the store matches with regard to case (its
    case-insensitive sibling is [~*]); its [.] matches any unit. *)
Definition pg_tilde : flavour := {| fold := fun c => c; dot_newline := true |}.

(** ** Message model (models/Message.ts) *)

Definition startsWith_slash (s : jsstring) : bool :=
  match s with
  | c :: _ => (c =? 47)%N
  | [] => false
  end.

Definition endsWith_slash (s : jsstring) : bool :=
  match rev s with
  | c :: _ => (c =? 47)%N
  | [] => false
  end.

(** [s.slice(1, -1)]. *)
Definition slice_1_m1 (s : jsstring) : jsstring :=
  take (List.length s - 2)%nat (drop 1%nat s).

Definition isRegexQuery (searchQuery : jsstring) : bool :=
  startsWith_slash searchQuery && endsWith_slash searchQuery
  && (2 <? List.length searchQuery)%nat.

(** The units of the class [[.*+?^${}()|[\]\\]]. *)
Definition escaped_unit (c : N) : bool :=
  existsb (N.eqb c)
          [46; 42; 43; 63; 94; 36; 123; 125; 40; 41; 124; 91; 93; 92]%N.

Definition escapeRegExp (s : jsstring) : jsstring :=
  flat_map (fun c => if escaped_unit c then [92%N; c] else [c]) s.

(** One step of the [forEach] of [highlightText]; [new RegExp] throws on a
    pattern that does not compile. *)
Definition highlightWord (highlightedText : outcome jsstring) (word : jsstring)
  : outcome jsstring :=
  match highlightedText with
  | Ok t =>
      match compile (lit "(" ++ escapeRegExp word ++ lit ")") with
      | Some re => Ok (replace_all js_gi re (lit "**$1**") t)
      | None => Throw SyntaxError
      end
  | Throw e => Throw e
  end.

Definition highlightText (txt searchQuery : jsstring) (isRegex : bool)
  : outcome jsstring :=
  if isRegex then
    match compile (slice_1_m1 searchQuery) with
    | Some re => Ok (replace_all js_gi re (lit "**$&**") txt)
    | None => Ok txt
    end
  else
    let words :=
      List.filter (fun word => (0 <? List.length word)%nat)
                  (split_ws searchQuery) in
    fold_left highlightWord words (Ok txt).

(** [ORDER BY created_at DESC]; rows with equal instants keep table order. *)
Fixpoint insert_desc (m : MessageData) (l : list MessageData)
  : list MessageData :=
  match l with
  | [] => [m]
  | x :: l' =>
      if created_at x <=? created_at m then m :: l
      else x :: insert_desc m l'
  end.

Definition order_by_created_desc (l : list MessageData) : list MessageData :=
  fold_right insert_desc [] l.

(** The condition on [text] a search query puts in the WHERE clause:
    [text ~ $2] with the enclosed pattern, or [text ILIKE $2] with the
    query between two [%].  The store rejects a statement whose pattern it
    cannot compile. *)
Definition searchCondition (searchQuery : jsstring)
  : outcome (jsstring -> bool) :=
  if isRegexQuery searchQuery then
    match compile (slice_1_m1 searchQuery) with
    | Some re => Ok (search_from pg_tilde re true)
    | None => Throw InvalidRegularExpression
    end
  else
    match like_tokens (lit "%" ++ searchQuery ++ lit "%") with
    | Some toks => Ok (like_match pg_fold toks)
    | None => Throw InvalidLikePattern
    end.

Record SearchRow := {
  r_id : Z;
  r_user_id : Z;
  r_username : option jsstring;
  r_first_name : option jsstring;
  r_last_name : option jsstring;
  r_text : jsstring;
  r_created_at : Z;
  highlighted_text : jsstring
}.

(** [FROM messages m JOIN users u ON m.user_id = u.id]: one row per user
    with the author's id; [highlighted_text] is filled in afterwards. *)
Definition join_users (us : list UserData) (m : MessageData) : list SearchRow :=
  List.map (fun u => {| r_id := m_id m; r_user_id := user_id m;
                        r_username := username u;
                        r_first_name := first_name u;
                        r_last_name := last_name u;
                        r_text := text m; r_created_at := created_at m;
                        highlighted_text := [] |})
           (List.filter (fun u => u_id u =? user_id m) us).

(** The messages of a chat that satisfy a condition, most recent first. *)
Definition matching (w : World) (chatId : Z) (cond : jsstring -> bool)
  : list MessageData :=
  order_by_created_desc
    (List.filter (fun m => (chat_id m =? chatId) && cond (text m))
                 (messages w)).

(** [LIMIT $3 OFFSET $4]: the store rejects negative bounds. *)
Definition limit_offset {A} (limit offset : Z) (rows : list A)
  : outcome (list A) :=
  if (limit <? 0) || (offset <? 0) then Throw NegativeLimit
  else Ok (take (Z.to_nat limit) (drop (Z.to_nat offset) rows)).

Fixpoint mapM_outcome {A B} (f : A -> outcome B) (l : list A)
  : outcome (list B) :=
  match l with
  | [] => Ok []
  | a :: l' =>
      match f a with
      | Ok b => match mapM_outcome f l' with
                | Ok bs => Ok (b :: bs)
                | Throw e => Throw e
                end
      | Throw e => Throw e
      end
  end.

Definition with_highlight (searchQuery : jsstring) (isRegex : bool)
    (row : SearchRow) : outcome SearchRow :=
  match highlightText (r_text row) searchQuery isRegex with
  | Ok h => Ok {| r_id := r_id row; r_user_id := r_user_id row;
                  r_username := r_username row;
                  r_first_name := r_first_name row;
                  r_last_name := r_last_name row;
                  r_text := r_text row; r_created_at := r_created_at row;
                  highlighted_text := h |}
  | Throw e => Throw e
  end.

Definition Message_searchMessages (chatId : Z) (searchQuery : jsstring)
    (limit offset : Z) : M (list SearchRow) :=
  fun w =>
    let isRegex := isRegexQuery searchQuery in
    match searchCondition searchQuery with
    | Throw e => (Throw e, w)
    | Ok cond =>
        match limit_offset limit offset
                (flat_map (join_users (users w)) (matching w chatId cond)) with
        | Throw e => (Throw e, w)
        | Ok rows => (mapM_outcome (with_highlight searchQuery isRegex) rows, w)
        end
    end.

Definition Message_countSearchResults (chatId : Z) (searchQuery : jsstring)
  : M Z :=
  fun w =>
    match searchCondition searchQuery with
    | Throw e => (Throw e, w)
    | Ok cond =>
        (Ok (Z.of_nat (List.length
               (List.filter (fun m => (chat_id m =? chatId) && cond (text m))
                            (messages w)))), w)
    end.

Definition day_ms : Z := 86400000.

(** [AND created_at >= CURRENT_TIMESTAMP - INTERVAL '1 day' * $2], added
    to the statement when [daysLimit] is truthy (given and not zero). *)
Definition dateFilter (w : World) (daysLimit : option Z) (m : MessageData)
  : bool :=
  match daysLimit with
  | Some d => if d =? 0 then true else now w - day_ms * d <=? created_at m
  | None => true
  end.

Record TopUser := {
  t_user_id : Z;
  t_username : option jsstring;
  t_first_name : option jsstring;
  t_last_name : option jsstring;
  message_count : Z
}.

Fixpoint insert_by_count (t : TopUser) (l : list TopUser) : list TopUser :=
  match l with
  | [] => [t]
  | x :: l' =>
      if message_count x <=? message_count t then t :: l
      else x :: insert_by_count t l'
  end.

(** Per author of the chat, the number of messages, largest first. *)
Definition Message_getUserStats (chatId : Z) (daysLimit : option Z)
  : M (list TopUser) :=
  fun w =>
    let count u :=
      Z.of_nat (List.length
        (List.filter (fun m => (user_id m =? u_id u) && (chat_id m =? chatId)
                               && dateFilter w daysLimit m) (messages w))) in
    (Ok (fold_right insert_by_count []
           (List.map (fun u => {| t_user_id := u_id u; t_username := username u;
                                  t_first_name := first_name u;
                                  t_last_name := last_name u;
                                  message_count := count u |})
                     (List.filter (fun u => 0 <? count u) (users w)))), w).

Definition Message_getTopUsers (chatId : Z) (limit : nat)
    (daysLimit : option Z) : M (list TopUser) :=
  stats <- Message_getUserStats chatId daysLimit ;;
  ret (take limit stats).

Definition Message_getTotalCount (chatId : Z) (daysLimit : option Z) : M Z :=
  fun w =>
    (Ok (Z.of_nat (List.length
           (List.filter (fun m => (chat_id m =? chatId)
                                  && dateFilter w daysLimit m) (messages w)))),
     w).

Definition Message_getRecentMessages (userId : Z) (limit : Z)
  : M (list MessageData) :=
  fun w =>
    match limit_offset limit 0
            (order_by_created_desc
               (List.filter (fun m => user_id m =? userId) (messages w))) with
    | Ok rows => (Ok (rev rows), w)
    | Throw e => (Throw e, w)
    end.

(** ** User model (models/User.ts) and the function [get_user_stats] of
    the schema *)

Definition User_findById (id : Z) : M (option UserData) :=
  fun w => (Ok (head (List.filter (fun u => u_id u =? id) (users w))), w).

Record StatsRow := {
  s_message_count : Z;
  first_message : option Z;
  last_message : option Z
}.

(** [MIN(created_at)] and [MAX(created_at)]: NULL over no rows. *)
Definition min_created (l : list MessageData) : option Z :=
  match l with
  | [] => None
  | m :: l' => Some (fold_left Z.min (List.map created_at l') (created_at m))
  end.

Definition max_created (l : list MessageData) : option Z :=
  match l with
  | [] => None
  | m :: l' => Some (fold_left Z.max (List.map created_at l') (created_at m))
  end.

(** The rows of the user that the WHERE clause of [get_user_stats] keeps:
    [days_limit IS NULL OR created_at >= CURRENT_TIMESTAMP - INTERVAL
    '1 day' * days_limit]. *)
Definition user_rows (w : World) (user_id_param : Z) (days_limit : option Z)
  : list MessageData :=
  List.filter (fun m => (user_id m =? user_id_param)
                        && match days_limit with
                           | None => true
                           | Some d => now w - day_ms * d <=? created_at m
                           end)
              (messages w).

(** An aggregate without GROUP BY: always exactly one row. *)
Definition get_user_stats (w : World) (user_id_param : Z)
    (days_limit : option Z) : list StatsRow :=
  let rows := user_rows w user_id_param days_limit in
  [ {| s_message_count := Z.of_nat (List.length rows);
       first_message := min_created rows;
       last_message := max_created rows |} ].

(** [daysLimit || null]: a zero limit is sent as NULL. *)
Definition or_null (daysLimit : option Z) : option Z :=
  match daysLimit with
  | Some d => if d =? 0 then None else Some d
  | None => None
  end.

Definition User_getStats (userId : Z) (daysLimit : option Z)
  : M (option StatsRow) :=
  fun w => (Ok (head (get_user_stats w userId (or_null daysLimit))), w).

(** ** Statistics and search handlers (handlers/stats.ts) *)

Inductive StatsPeriod :=
| all
| today
| week
| month.

Definition period_string (p : StatsPeriod) : jsstring :=
  match p with
  | all => lit "all"
  | today => lit "today"
  | week => lit "week"
  | month => lit "month"
  end.

Definition getDaysLimit (period : StatsPeriod) : option Z :=
  match period with
  | today => Some 1
  | week => Some 7
  | month => Some 30
  | all => None
  end.

Definition TopUser_value (t : TopUser) : value :=
  VObj [(lit "user_id", VNum (t_user_id t));
        (lit "username", opt_str (t_username t));
        (lit "first_name", opt_str (t_first_name t));
        (lit "last_name", opt_str (t_last_name t));
        (lit "message_count", VNum (message_count t))].

Definition UserData_value (u : UserData) : value :=
  VObj [(lit "id", VNum (u_id u));
        (lit "username", opt_str (username u));
        (lit "first_name", opt_str (first_name u));
        (lit "last_name", opt_str (last_name u));
        (lit "created_at", VDate (u_created_at u))].

Definition MessageData_value (m : MessageData) : value :=
  VObj [(lit "id", VNum (m_id m));
        (lit "user_id", VNum (user_id m));
        (lit "chat_id", VNum (chat_id m));
        (lit "text", VStr (text m));
        (lit "created_at", VDate (created_at m))].

Definition StatsRow_value (s : option StatsRow) : value :=
  match s with
  | Some s => VObj [(lit "message_count", VNum (s_message_count s));
                    (lit "first_message", opt_date (first_message s));
                    (lit "last_message", opt_date (last_message s))]
  | None => VNull
  end.

Definition SearchRow_value (r : SearchRow) : value :=
  VObj [(lit "id", VNum (r_id r));
        (lit "user_id", VNum (r_user_id r));
        (lit "username", opt_str (r_username r));
        (lit "first_name", opt_str (r_first_name r));
        (lit "last_name", opt_str (r_last_name r));
        (lit "text", VStr (r_text r));
        (lit "created_at", VDate (r_created_at r));
        (lit "highlighted_text", VStr (highlighted_text r))].

Record StatsData := {
  period : StatsPeriod;
  totalMessages : Z;
  topUsers : list TopUser;
  cached : bool
}.

Definition StatsData_value (d : StatsData) : value :=
  VObj [(lit "period", VStr (period_string (period d)));
        (lit "totalMessages", VNum (totalMessages d));
        (lit "topUsers", VArr (List.map TopUser_value (topUsers d)));
        (lit "cached", VBool (cached d))].

Record SearchResult := {
  sr_query : jsstring;
  totalResults : Z;
  results : list SearchRow;
  page : Z;
  totalPages : Z;
  sr_cached : bool
}.

Definition SearchResult_value (r : SearchResult) : value :=
  VObj [(lit "query", VStr (sr_query r));
        (lit "totalResults", VNum (totalResults r));
        (lit "results", VArr (List.map SearchRow_value (results r)));
        (lit "page", VNum (page r));
        (lit "totalPages", VNum (totalPages r));
        (lit "cached", VBool (sr_cached r))].

(** [parsedData.cached = true] in strict mode: an object takes the
    property; an array takes it outside its elements; [null] and
    primitives throw. *)
Definition assign_cached (parsedData : value) : outcome value :=
  match parsedData with
  | VObj fields => Ok (VObj (set_field (lit "cached") (VBool true) fields))
  | VArr items => Ok (VArr items)
  | _ => Throw TypeError
  end.

Definition getStatsData (chatId : Z) (period : StatsPeriod) : M value :=
  let cacheKey := createStatsCacheKey chatId (period_string period) in
  cachedData <- RedisService_get cacheKey ;;
  match cachedData with
  | Some t => lift (assign_cached (JSON_parse t))
  | None =>
      let daysLimit := getDaysLimit period in
      topUsers <- Message_getTopUsers chatId 10 daysLimit ;;
      totalMessages <- Message_getTotalCount chatId daysLimit ;;
      let statsData := StatsData_value
            {| period := period; totalMessages := totalMessages;
               topUsers := topUsers; cached := false |} in
      RedisService_set cacheKey (JSON_stringify statsData) 1200 ;;;
      ret statsData
  end.

(** The first lines of [handleUsersList]: the list of users the rest of
    the handler renders. *)
Definition handleUsersList_users (chatId : Z) : M value :=
  let cacheKey := createUsersListCacheKey chatId in
  cachedUsers <- RedisService_get cacheKey ;;
  match cachedUsers with
  | Some t => ret (JSON_parse t)
  | None =>
      users <- Message_getUserStats chatId None ;;
      let users := VArr (List.map TopUser_value users) in
      RedisService_set cacheKey (JSON_stringify users) 600 ;;;
      ret users
  end.

Definition getUserStatsData (chatId userId : Z) (period : StatsPeriod)
  : M value :=
  let cacheKey := createUserStatsCacheKey chatId userId (period_string period) in
  cachedData <- RedisService_get cacheKey ;;
  match cachedData with
  | Some t => lift (assign_cached (JSON_parse t))
  | None =>
      user <- User_findById userId ;;
      match user with
      | None => throw UserNotFound
      | Some user =>
          let daysLimit := getDaysLimit period in
          stats <- User_getStats userId daysLimit ;;
          recentMessages <- Message_getRecentMessages userId 5 ;;
          let data :=
            VObj [(lit "user", UserData_value user);
                  (lit "stats", StatsRow_value stats);
                  (lit "recentMessages",
                   VArr (List.map MessageData_value recentMessages));
                  (lit "cached", VBool false)] in
          RedisService_set cacheKey (JSON_stringify data) 600 ;;;
          ret data
      end
  end.

(** [Math.ceil(a / b)] on integers, [b] positive. *)
Definition ceil_div (a b : Z) : Z := - ((- a) / b).

Definition resultsPerPage : Z := 5.

Definition getSearchResults (chatId : Z) (query : jsstring) (page : Z)
  : M value :=
  let cacheKey := createSearchCacheKey chatId query page in
  cachedData <- RedisService_get cacheKey ;;
  match cachedData with
  | Some t => lift (assign_cached (JSON_parse t))
  | None =>
      let offset := page * resultsPerPage in
      results <- Message_searchMessages chatId query resultsPerPage offset ;;
      totalResults <- Message_countSearchResults chatId query ;;
      let totalPages := ceil_div totalResults resultsPerPage in
      let searchResult := SearchResult_value
            {| sr_query := query; totalResults := totalResults;
               results := results; page := page; totalPages := totalPages;
               sr_cached := false |} in
      RedisService_set cacheKey (JSON_stringify searchResult) 600 ;;;
      ret searchResult
  end.

(** *** The keyboard of a page of results *)

(** The texts of the buttons: the fixed ones by name, the computed ones
    by their units. *)
Inductive label :=
| Text (s : jsstring)
| PeriodLabel (p : StatsPeriod) (current : bool)
| UsersLabel
| BackLabel
| ForwardLabel
| BackToStatsLabel
| BackToListLabel
| NewSearchLabel.

Record Button := {
  b_text : label;
  callback_data : jsstring
}.

(** *** [encodeURIComponent] *)

(** The units left as they are: letters, digits and [- _ . ! ~ * ' ( )]. *)
Definition is_uri_unreserved (c : N) : bool :=
  in_range 65 90 c || in_range 97 122 c || in_range 48 57 c
  || (c =? 45)%N || (c =? 95)%N || (c =? 46)%N || (c =? 33)%N
  || (c =? 126)%N || (c =? 42)%N || (c =? 39)%N || (c =? 40)%N
  || (c =? 41)%N.

Definition hex_unit (d : N) : N := (if d <? 10 then 48 + d else 55 + d)%N.

(** An octet as [%XX]. *)
Definition percent (b : N) : jsstring :=
  [37%N; hex_unit (b / 16); hex_unit (b mod 16)].

(** The octets of a code point in UTF-8. *)
Definition utf8 (cp : N) : list N :=
  (if cp <? 128 then [cp]
   else if cp <? 2048 then [192 + cp / 64; 128 + cp mod 64]
   else if cp <? 65536
        then [224 + cp / 4096; 128 + (cp / 64) mod 64; 128 + cp mod 64]
   else [240 + cp / 262144; 128 + (cp / 4096) mod 64;
         128 + (cp / 64) mod 64; 128 + cp mod 64])%N.

(** [None] stands for the URIError thrown at a surrogate without its
    pair. *)
Fixpoint encodeURIComponent (s : jsstring) : option jsstring :=
  match s with
  | [] => Some []
  | c :: s' =>
      if is_uri_unreserved c then option_map (cons c) (encodeURIComponent s')
      else if is_trail_surrogate c then None
      else if is_lead_surrogate c then
        match s' with
        | d :: s'' =>
            if is_trail_surrogate d then
              option_map
                (app (flat_map percent
                        (utf8 (65536 + (c - 55296) * 1024 + (d - 56320))%N)))
                (encodeURIComponent s'')
            else None
        | [] => None
        end
      else option_map (app (flat_map percent (utf8 c)))
                      (encodeURIComponent s')
  end.

(** [createSearchKeyboard]; the query is encoded only where a button
    carries it. *)
Definition search_page_button (text : label) (page : Z) (query : jsstring)
  : option (list Button) :=
  match encodeURIComponent query with
  | Some e =>
      Some [ {| b_text := text;
                callback_data :=
                  lit "search_page:" ++ Number_toString page ++ lit ":" ++ e |} ]
  | None => None
  end.

Definition createSearchKeyboard (page totalPages : Z) (query : jsstring)
  : option (list (list Button)) :=
  match (if 0 <? page then search_page_button BackLabel (page - 1) query
         else Some []) with
  | None => None
  | Some back =>
      match (if page <? totalPages - 1
             then search_page_button ForwardLabel (page + 1) query
             else Some []) with
      | None => None
      | Some forward =>
          let paginationRow :=
            back
            ++ [ {| b_text := Text (Number_toString (page + 1) ++ lit "/"
                                    ++ Number_toString totalPages);
                    callback_data := lit "noop" |} ]
            ++ forward in
          Some ((if 1 <? Z.of_nat (List.length paginationRow)
                 then [paginationRow] else [])
                ++ [[ {| b_text := NewSearchLabel;
                         callback_data := lit "search_new" |} ]])
      end
  end.

(** [createSearchKeyboard(searchResult)] reads the page, the number of
    pages and the query of the result, as [getSearchResults] gives them;
    [encodeURIComponent] throws a URIError. *)
Definition searchKeyboard (searchResult : value)
  : outcome (list (list Button)) :=
  match field "page" searchResult, field "totalPages" searchResult,
        field "query" searchResult with
  | Some (VNum page), Some (VNum totalPages), Some (VStr query) =>
      match createSearchKeyboard page totalPages query with
      | Some keyboard => Ok keyboard
      | None => Throw URIError
      end
  | _, _, _ => Throw TypeError
  end.

Inductive chat_type :=
| private_chat
| group
| supergroup
| channel.

Record Context := {
  chat : option (chat_type * Z);
  message_text : option jsstring
}.

(** [formatSearchMessage] calls [toLocaleDateString] on the [created_at]
    of every result: a [Date] has the method, a string does not. *)
Definition formatSearchMessage (searchResult : value) : outcome reply :=
  match field "results" searchResult with
  | Some (VArr rows) =>
      if forallb (fun row => match field "created_at" row with
                             | Some (VDate _) => true
                             | _ => false
                             end) rows
      then Ok (ResultPage searchResult)
      else Throw TypeError
  | _ => Throw TypeError
  end.

Definition is_group (c : option (chat_type * Z)) : option Z :=
  match c with
  | Some (group, id) | Some (supergroup, id) => Some id
  | _ => None
  end.

Definition handleSearchCommand (ctx : Context) : M unit :=
  try_catch
    (match is_group (chat ctx) with
     | None => ctx_reply GroupsOnly
     | Some chatId =>
         let args :=
           match message_text ctx with
           | Some t => tl (split_on 32 t)
           | None => []
           end in
         let query := trim (join (lit " ") args) in
         match query with
         | [] => ctx_reply Usage
         | _ :: _ =>
             ctx_reply Searching ;;;
             searchResult <- getSearchResults chatId query 0 ;;
             match field "totalResults" searchResult with
             | Some (VNum 0) => ctx_reply (NothingFound query)
             | _ =>
                 messageText <- lift (formatSearchMessage searchResult) ;;
                 keyboard <- lift (searchKeyboard searchResult) ;;
                 ctx_reply messageText
             end
         end
     end)
    (fun _ => console_error "Error in /search command:" ;;;
              ctx_reply SearchFailed).

(** ** Notions used to state the properties *)

(** The two orders on messages by creation instant. *)
Definition newer_first (a b : MessageData) : Prop :=
  created_at b <= created_at a.

Definition older_first (a b : MessageData) : Prop :=
  created_at a <= created_at b.

(** The world [ms] milliseconds later. *)
Definition later (ms : Z) (w : World) : World :=
  {| users := users w; messages := messages w;
     redis_store := redis_store w; redis_up := redis_up w;
     now := now w + ms; console := console w; sent := sent w |}.

(** The schema: [users.id] is a primary key and [messages.user_id]
    references it, so every message has exactly one author row. *)
Definition references_users (w : World) : bool :=
  forallb (fun m =>
             Nat.eqb (List.length
                        (List.filter (fun u => u_id u =? user_id m) (users w)))
                     1)
          (messages w).

(** A read of [key] through the cache store finds nothing: the backend is
    unreachable, or holds no live entry. *)
Definition cache_miss (w : World) (key : jsstring) : bool :=
  negb (redis_up w)
  || match live_entry w key with
     | None => true
     | Some _ => false
     end.

(** The highlighted rendering of a text for a query. *)
Definition highlighted (searchQuery txt : jsstring) : jsstring :=
  match highlightText txt searchQuery (isRegexQuery searchQuery) with
  | Ok h => h
  | Throw _ => txt
  end.

Definition set_highlight (searchQuery : jsstring) (row : SearchRow) : SearchRow :=
  {| r_id := r_id row; r_user_id := r_user_id row;
     r_username := r_username row; r_first_name := r_first_name row;
     r_last_name := r_last_name row; r_text := r_text row;
     r_created_at := r_created_at row;
     highlighted_text := highlighted searchQuery (r_text row) |}.

(** The full ranked match set of a query: every matching message of the
    chat with its author, most recent first, highlighted. *)
Definition ranked_results (w : World) (chatId : Z) (searchQuery : jsstring)
    (cond : jsstring -> bool) : list SearchRow :=
  List.map (set_highlight searchQuery)
           (flat_map (join_users (users w)) (matching w chatId cond)).

(** The page [p] of a ranked list. *)
Definition page_slice {A} (p : Z) (l : list A) : list A :=
  take 5%nat (drop (Z.to_nat (p * 5)) l).


(** The page numbers [0 .. n-1]. *)
Definition page_numbers (n : Z) : list Z :=
  List.map Z.of_nat (seq 0 (Z.to_nat n)).

(** The pattern that matches the units of [w] one after the other. *)
Definition lits (w : jsstring) : regex :=
  fold_right (fun c r => RSeq (RChar c) r) REmpty w.

(** Occurrences up to the case folding of the [RegExp] engine. *)
Abbreviation prefix_ci := (prefix_fold Canonicalize).
Abbreviation occurs_ci := (occurs_fold Canonicalize).




(** The messages of a user inside the window the caller asked for: no
    window when [daysLimit] is absent or zero. *)
Definition in_window (w : World) (daysLimit : option Z) (m : MessageData)
  : bool :=
  match daysLimit with
  | None => true
  | Some d => (d =? 0) || (now w - day_ms * d <=? created_at m)
  end.

Definition user_messages (w : World) (userId : Z) (daysLimit : option Z)
  : list MessageData :=
  List.filter (fun m => (user_id m =? userId) && in_window w daysLimit m)
              (messages w).


(** The query the [/search] command reads from its message: what follows
    the first space, trimmed. *)
Definition command_query (ctx : Context) : jsstring :=
  trim (join (lit " ")
             (match message_text ctx with
              | Some t => tl (split_on 32 t)
              | None => []
              end)).

(** The ids of the rows a search returned, in order. *)
Definition ids_found (r : outcome (list SearchRow) * World) : outcome (list Z) :=
  match fst r with
  | Ok rows => Ok (List.map r_id rows)
  | Throw e => Throw e
  end.

Definition demo_command (chatId : Z) (txt : string) : Context :=
  {| chat := Some (group, chatId); message_text := Some (lit txt) |}.

(** Does [needle] occur in [hay], unit for unit? *)
Definition contains (needle hay : jsstring) : bool :=
  occurs_fold (fun c => c) needle hay.

(** ** Writes to the store

    The statements of [User] and [Message] that change the tables.  The
    identifiers of messages come from the sequence of the SERIAL column,
    kept beside the world. *)

Definition with_users (w : World) (us : list UserData) : World :=
  {| users := us; messages := messages w;
     redis_store := redis_store w; redis_up := redis_up w;
     now := now w; console := console w; sent := sent w |}.

Definition with_messages (w : World) (ms : list MessageData) : World :=
  {| users := users w; messages := ms;
     redis_store := redis_store w; redis_up := redis_up w;
     now := now w; console := console w; sent := sent w |}.

(** The argument of [createOrUpdate]: a user without [created_at]. *)
Record UserInput := {
  i_id : Z;
  i_username : option jsstring;
  i_first_name : option jsstring;
  i_last_name : option jsstring
}.

(** The row [ON CONFLICT (id) DO UPDATE SET] leaves: the three names of
    the input, the creation instant of the row that was there. *)
Definition upsert_row (userData : UserInput) (u : UserData) : UserData :=
  if u_id u =? i_id userData then
    {| u_id := u_id u; username := i_username userData;
       first_name := i_first_name userData;
       last_name := i_last_name userData;
       u_created_at := u_created_at u |}
  else u.

(** The three names as the statement carries them: each is a text
    parameter, then a value for a column [VARCHAR(255)]. *)
Definition names_sent (username first_name last_name : option jsstring)
  : outcome (option jsstring * option jsstring * option jsstring) :=
  match optional text_parameter username,
        optional text_parameter first_name,
        optional text_parameter last_name with
  | Ok u, Ok f, Ok l =>
      match optional (varchar 255) u, optional (varchar 255) f,
            optional (varchar 255) l with
      | Ok u, Ok f, Ok l => Ok (u, f, l)
      | Throw e, _, _ | Ok _, Throw e, _ | Ok _, Ok _, Throw e => Throw e
      end
  | Throw e, _, _ | Ok _, Throw e, _ | Ok _, Ok _, Throw e => Throw e
  end.

(** A name that reaches its column as the program holds it. *)
Definition fits (n : nat) (name : option jsstring) : bool :=
  match name with
  | Some s => plain_text s && (List.length (code_points s) <=? n)%nat
  | None => true
  end.

(** What the statement does to the table once its values are accepted:
    the row with the identifier is rewritten, or a new row goes last. *)
Definition users_upsert (excluded : UserInput) : M UserData :=
  fun w =>
    match List.filter (fun u => u_id u =? i_id excluded) (users w) with
    | old :: _ =>
        (Ok (upsert_row excluded old),
         with_users w (List.map (upsert_row excluded) (users w)))
    | [] =>
        let row := {| u_id := i_id excluded; username := i_username excluded;
                      first_name := i_first_name excluded;
                      last_name := i_last_name excluded;
                      u_created_at := now w |} in
        (Ok row, with_users w (users w ++ [row]))
    end.

(** [INSERT INTO users ... ON CONFLICT (id) DO UPDATE ... RETURNING]. *)
Definition User_createOrUpdate (userData : UserInput) : M UserData :=
  names <- lift (names_sent (i_username userData) (i_first_name userData)
                            (i_last_name userData)) ;;
  let '(u, f, l) := names in
  users_upsert {| i_id := i_id userData; i_username := u;
                  i_first_name := f; i_last_name := l |}.

(** The argument of [update]: for each name, [None] when the property is
    undefined, the new value otherwise. *)
Record UserUpdates := {
  upd_username : option jsstring;
  upd_first_name : option jsstring;
  upd_last_name : option jsstring
}.

Definition no_updates (updates : UserUpdates) : bool :=
  match upd_username updates, upd_first_name updates, upd_last_name updates with
  | None, None, None => true
  | _, _, _ => false
  end.

(** The row [UPDATE users SET ...] leaves: the fields listed, changed. *)
Definition updated_row (updates : UserUpdates) (u : UserData) : UserData :=
  {| u_id := u_id u;
     username := match upd_username updates with
                 | Some n => Some n
                 | None => username u
                 end;
     first_name := match upd_first_name updates with
                   | Some n => Some n
                   | None => first_name u
                   end;
     last_name := match upd_last_name updates with
                  | Some n => Some n
                  | None => last_name u
                  end;
     u_created_at := u_created_at u |}.

(** [UPDATE users SET ... WHERE id = ... RETURNING]; the values given
    are sent as those of [createOrUpdate] are. *)
Definition User_update (id : Z) (updates : UserUpdates) : M (option UserData) :=
  if no_updates updates then User_findById id
  else
    names <- lift (names_sent (upd_username updates) (upd_first_name updates)
                              (upd_last_name updates)) ;;
    let '(u, f, l) := names in
    let set := {| upd_username := u; upd_first_name := f;
                  upd_last_name := l |} in
    fun w =>
      (Ok (head (List.map (updated_row set)
                   (List.filter (fun u => u_id u =? id) (users w)))),
       with_users w
         (List.map (fun u => if u_id u =? id then updated_row set u else u)
                   (users w))).

(** [DELETE FROM users WHERE id = $1]; the messages of the user go with
    it ([ON DELETE CASCADE]).  The answer is [rowCount > 0]. *)
Definition User_delete (id : Z) : M bool :=
  fun w =>
    let gone := List.filter (fun u => u_id u =? id) (users w) in
    (Ok (0 <? Z.of_nat (List.length gone)),
     with_messages
       (with_users w (List.filter (fun u => negb (u_id u =? id)) (users w)))
       (match gone with
        | [] => messages w
        | _ :: _ => List.filter (fun m => negb (user_id m =? id)) (messages w)
        end)).

Definition Message_findById (id : Z) : M (option MessageData) :=
  fun w => (Ok (head (List.filter (fun m => m_id m =? id) (messages w))), w).

Definition Message_findByUserId (userId limit offset : Z)
  : M (list MessageData) :=
  fun w =>
    (limit_offset limit offset
       (order_by_created_desc
          (List.filter (fun m => user_id m =? userId) (messages w))), w).

Definition Message_findByChatId (chatId limit offset : Z)
  : M (list MessageData) :=
  fun w =>
    (limit_offset limit offset
       (order_by_created_desc
          (List.filter (fun m => chat_id m =? chatId) (messages w))), w).

(** [created_at BETWEEN $2 AND $3]: both ends included. *)
Definition Message_findByDateRange (chatId startDate endDate : Z)
  : M (list MessageData) :=
  fun w =>
    (Ok (order_by_created_desc
           (List.filter (fun m => (chat_id m =? chatId)
                                  && (startDate <=? created_at m)
                                  && (created_at m <=? endDate))
                        (messages w))), w).

Definition Message_delete (id : Z) : M bool :=
  fun w =>
    (Ok (0 <? Z.of_nat (List.length
                          (List.filter (fun m => m_id m =? id) (messages w)))),
     with_messages w (List.filter (fun m => negb (m_id m =? id)) (messages w))).

Definition Message_deleteByUserId (userId : Z) : M Z :=
  fun w =>
    (Ok (Z.of_nat (List.length
                     (List.filter (fun m => user_id m =? userId) (messages w)))),
     with_messages w
       (List.filter (fun m => negb (user_id m =? userId)) (messages w))).

(** The tables with the sequence that numbers the messages. *)
Record Database := {
  db_world : World;
  messages_id_seq : Z
}.

Record CreateMessageData := {
  c_user_id : Z;
  c_chat_id : Z;
  c_text : jsstring
}.

(** [INSERT INTO messages (user_id, chat_id, text) ... RETURNING]: a
    text the store cannot take stops the statement before it runs;
    otherwise the identifier is the next value of the sequence (spent even
    when the row is refused), the instant is the current one, and the row
    is refused when its identifier is taken (messages_pkey) or its author
    is not in [users] (messages_user_id_fkey). *)
Definition Message_create (messageData : CreateMessageData) (db : Database)
  : outcome MessageData * Database :=
  match text_parameter (c_text messageData) with
  | Throw e => (Throw e, db)
  | Ok sent_text =>
      let w := db_world db in
      let id := messages_id_seq db + 1 in
      let row := {| m_id := id; user_id := c_user_id messageData;
                    chat_id := c_chat_id messageData;
                    text := sent_text; created_at := now w |} in
      if existsb (fun m => m_id m =? id) (messages w) then
        (Throw UniqueViolation, {| db_world := w; messages_id_seq := id |})
      else if existsb (fun u => u_id u =? c_user_id messageData) (users w) then
        (Ok row, {| db_world := with_messages w (messages w ++ [row]);
                    messages_id_seq := id |})
      else
        (Throw ForeignKeyViolation,
         {| db_world := w; messages_id_seq := id |})
  end.

(** ** Saving the messages of a chat (index.ts) *)

(** A text message as the bot receives it. *)
Record TextMessage := {
  from_id : Z;
  from_username : option jsstring;
  from_first_name : jsstring;
  from_last_name : option jsstring;
  msg_chat : chat_type * Z;
  msg_text : jsstring
}.

Inductive notice :=
| WorksInGroupsOnly.

(** The two lines the handler writes with [console.log]: who wrote where
    (the name is [user.username || user.first_name]), and the first fifty
    units of the text saved. *)
Definition processing_line (message : TextMessage) (chatId : Z) : jsstring :=
  [55357; 56541; 32]%N ++ lit "Processing message from user "
    ++ Number_toString (from_id message) ++ lit " ("
    ++ match from_username message with
       | Some (c :: n) => c :: n
       | _ => from_first_name message
       end
    ++ lit ") in chat " ++ Number_toString chatId.

Definition saved_line (message : TextMessage) : jsstring :=
  [9989; 32]%N ++ lit "Message saved: " ++ take 50%nat (msg_text message)
    ++ lit "...".

(** A computation on the world, run on the tables of a database. *)
Definition on_world {A} (m : M A) (db : Database) : outcome A * Database :=
  let '(r, w) := m (db_world db) in
  (r, {| db_world := w; messages_id_seq := messages_id_seq db |}).

(** The handler of [bot.on('text')]: in a group, the author is saved or
    updated, then the message is saved; the handler logs what it does,
    and a failure of either statement is caught and written to the
    console.  (The connection pool writes a line of its own when it opens
    a connection; that line is not part of the handler.) *)
Definition on_text (message : TextMessage) (db : Database)
  : option notice * Database :=
  match msg_chat message with
  | (group, chatId) | (supergroup, chatId) =>
      let failed (db : Database) :=
        (None,
         snd (on_world (console_error "Error processing message:") db)) in
      let db0 := snd (on_world (console_log (processing_line message chatId))
                               db) in
      match on_world
              (User_createOrUpdate
                 {| i_id := from_id message;
                    i_username := from_username message;
                    i_first_name := Some (from_first_name message);
                    i_last_name := from_last_name message |}) db0 with
      | (Ok _, db1) =>
          match Message_create
                  {| c_user_id := from_id message; c_chat_id := chatId;
                     c_text := msg_text message |} db1 with
          | (Ok _, db2) =>
              (None, snd (on_world (console_log (saved_line message)) db2))
          | (Throw _, db2) => failed db2
          end
      | (Throw _, db1) => failed db1
      end
  | _ => (Some WorksInGroupsOnly, db)
  end.

(** The constraints of the schema on the tables: [users.id] and
    [messages.id] are keys, every message has its author in [users], and
    the sequence has passed every identifier in use. *)
Fixpoint distinct (l : list Z) : bool :=
  match l with
  | [] => true
  | x :: l' => negb (existsb (Z.eqb x) l') && distinct l'
  end.

Definition store_ok (db : Database) : bool :=
  let w := db_world db in
  distinct (List.map u_id (users w))
  && distinct (List.map m_id (messages w))
  && forallb (fun m => existsb (fun u => u_id u =? user_id m) (users w))
             (messages w)
  && forallb (fun m => m_id m <=? messages_id_seq db) (messages w).

Definition demo_db : Database :=
  {| db_world := demo_world; messages_id_seq := 10 |}.

(** The order of the statistics: by number of messages, largest first. *)
Definition more_active (a b : TopUser) : Prop :=
  message_count b <= message_count a.

(** The messages a list of statistics accounts for. *)
Definition counted (stats : list TopUser) : Z :=
  fold_right Z.add 0 (List.map message_count stats).

(** ** Names, keyboards and callback data of the handlers *)

(** [x || ''] on a name of a row. *)
Definition or_empty (s : option jsstring) : jsstring :=
  match s with
  | Some s => s
  | None => []
  end.

(** The nine units of the name shown for a user without names. *)
Definition no_name : jsstring :=
  [1041; 1077; 1079; 32; 1080; 1084; 1077; 1085; 1080]%N.

(** [username || `${first_name || ''} ${last_name || ''}`.trim()
    || no_name], as [formatStatsMessage], [handleUsersList],
    [handleUserStats] and [formatSearchMessage] all write it. *)
Definition displayName (username first_name last_name : option jsstring)
  : jsstring :=
  match username with
  | Some (c :: n) => c :: n
  | _ =>
      match trim (or_empty first_name ++ lit " " ++ or_empty last_name) with
      | c :: n => c :: n
      | [] => no_name
      end
  end.

(** [name.length > 30 ? name.substring(0, 27) + '...' : name]. *)
Definition buttonName (name : jsstring) : jsstring :=
  if 30 <? Z.of_nat (List.length name) then take 27%nat name ++ lit "..."
  else name.

(** [parseInt(s)] without a radix: leading white space, a sign, the
    prefix [0x] for base sixteen, then the longest run of digits; [None]
    stands for NaN.  The result is the integer the digits denote: it is
    the number the source holds when it is a [safe_integer], beyond which
    a number is rounded. *)
Definition digit_value (radix : Z) (c : N) : option Z :=
  let v := if in_range 48 57 c then Some (Z.of_N c - 48)
           else if in_range 97 122 c then Some (Z.of_N c - 87)
           else if in_range 65 90 c then Some (Z.of_N c - 55)
           else None in
  match v with
  | Some v => if v <? radix then Some v else None
  | None => None
  end.

Fixpoint digits_acc (radix acc : Z) (s : jsstring) : Z :=
  match s with
  | [] => acc
  | c :: s' =>
      match digit_value radix c with
      | Some v => digits_acc radix (radix * acc + v) s'
      | None => acc
      end
  end.

Definition parseInt (s : jsstring) : option Z :=
  let s := trimStart s in
  let '(sign, s) := match s with
                    | 45%N :: r => (-1, r)
                    | 43%N :: r => (1, r)
                    | _ => (1, s)
                    end in
  let '(radix, s) := match s with
                     | 48%N :: 120%N :: r | 48%N :: 88%N :: r => (16, r)
                     | _ => (10, s)
                     end in
  match s with
  | c :: _ =>
      match digit_value radix c with
      | Some _ => Some (sign * digits_acc radix 0 s)
      | None => None
      end
  | [] => None
  end.

(** [parseInt] of an element of an array that may be missing. *)
Definition parseInt_opt (s : option jsstring) : option Z :=
  match s with
  | Some s => parseInt s
  | None => None
  end.

Definition startsWith (searchString s : jsstring) : bool :=
  jsstring_eqb (take (List.length searchString) s) searchString.

(** [array.slice(start, end)]. *)
Definition js_slice {A} (start end_ : Z) (l : list A) : list A :=
  let len := Z.of_nat (List.length l) in
  let from := if start <? 0 then Z.max (len + start) 0 else Z.min start len in
  let to := if end_ <? 0 then Z.max (len + end_) 0 else Z.min end_ len in
  take (Z.to_nat (to - from)) (drop (Z.to_nat from) l).

(** [createStatsKeyboard]: the five buttons, two to a row. *)
Definition createStatsKeyboard (currentPeriod : StatsPeriod)
  : list (list Button) :=
  let periods :=
    [ {| b_text := PeriodLabel all false; callback_data := lit "stats:all" |};
      {| b_text := PeriodLabel today false;
         callback_data := lit "stats:today" |};
      {| b_text := PeriodLabel week false;
         callback_data := lit "stats:week" |};
      {| b_text := PeriodLabel month false;
         callback_data := lit "stats:month" |};
      {| b_text := UsersLabel; callback_data := lit "stats:users" |} ] in
  List.map (fun i => js_slice i (i + 2) periods) [0; 2; 4].

Definition usersPerPage : Z := 5.

(** The keyboard of [handleUsersList] for the rows [users]. *)
Definition handleUsersList_keyboard (users : list TopUser) (page : Z)
  : list (list Button) :=
  match users with
  | [] => [[ {| b_text := BackToStatsLabel; callback_data := lit "stats:all" |} ]]
  | _ :: _ =>
      let len := Z.of_nat (List.length users) in
      let totalPages := ceil_div len usersPerPage in
      let startIndex := page * usersPerPage in
      let endIndex := Z.min (startIndex + usersPerPage) len in
      let currentUsers := js_slice startIndex endIndex users in
      let keyboard :=
        List.map
          (fun user =>
             let name := displayName (t_username user) (t_first_name user)
                                     (t_last_name user) in
             [ {| b_text := Text (buttonName name ++ lit " ("
                                  ++ Number_toString (message_count user)
                                  ++ lit ")");
                  callback_data :=
                    lit "user_stats:" ++ Number_toString (t_user_id user) |} ])
          currentUsers in
      let paginationRow :=
        (if 0 <? page
         then [ {| b_text := BackLabel;
                   callback_data :=
                     lit "users_page:" ++ Number_toString (page - 1) |} ]
         else [])
        ++ [ {| b_text := Text (Number_toString (page + 1) ++ lit "/"
                                ++ Number_toString totalPages);
                callback_data := lit "noop" |} ]
        ++ (if page <? totalPages - 1
            then [ {| b_text := ForwardLabel;
                      callback_data :=
                        lit "users_page:" ++ Number_toString (page + 1) |} ]
            else []) in
      keyboard ++ [paginationRow]
      ++ [[ {| b_text := BackToStatsLabel; callback_data := lit "stats:all" |} ]]
  end.

(** The keyboard of [handleUserStats]. *)
Definition handleUserStats_keyboard (userId : Z) (period : jsstring)
  : list (list Button) :=
  List.map
    (fun p =>
       [ {| b_text := PeriodLabel p (jsstring_eqb (period_string p) period);
            callback_data :=
              lit "user_stats_period:" ++ Number_toString userId
                ++ lit ":" ++ period_string p |} ])
    [all; today; week; month]
  ++ [[ {| b_text := BackToListLabel; callback_data := lit "stats:users" |} ]].

(** What [handleStatsCallback] does with the data of a button in a
    group. *)
Inductive stats_action :=
| ShowStats (period : StatsPeriod)
| ShowUsersList (page : option Z)
| ShowUserStats (userId : option Z) (period : jsstring)
| UnknownCommand.

(** [['all', 'today', 'week', 'month'].includes(period)]. *)
Definition includes_period (s : jsstring) : option StatsPeriod :=
  List.find (fun p => jsstring_eqb (period_string p) s)
            [all; today; week; month].

Definition handleStatsCallback_action (data : jsstring) : stats_action :=
  let pieces := split_on 58 data in
  let stats_action :=
    if startsWith (lit "stats:") data then
      match pieces !! 1%nat with
      | Some action =>
          if jsstring_eqb action (lit "users") then Some (ShowUsersList (Some 0))
          else option_map ShowStats (includes_period action)
      | None => None
      end
    else None in
  match stats_action with
  | Some a => a
  | None =>
      if startsWith (lit "user_stats:") data then
        ShowUserStats (parseInt_opt (pieces !! 1%nat)) (lit "all")
      else if startsWith (lit "user_stats_period:") data then
        ShowUserStats (parseInt_opt (pieces !! 1%nat))
                      (match pieces !! 2%nat with
                       | Some periodStr => periodStr
                       | None => lit "all"
                       end)
      else if startsWith (lit "users_page:") data then
        ShowUsersList (parseInt_opt (pieces !! 1%nat))
      else UnknownCommand
  end.

(** ** [decodeURIComponent] *)

Definition hex_value (c : N) : option N :=
  (if in_range 48 57 c then Some (c - 48)
   else if in_range 65 70 c then Some (c - 55)
   else if in_range 97 102 c then Some (c - 87)
   else None)%N.

(** A string to decode, escape by escape. *)
Inductive uri_item :=
| Unit (c : N)
| Octet (b : N).

Fixpoint uri_items (s : jsstring) : option (list uri_item) :=
  match s with
  | [] => Some []
  | c :: s' =>
      if (c =? 37)%N then
        match s' with
        | h :: l :: s'' =>
            match hex_value h, hex_value l with
            | Some a, Some b =>
                option_map (cons (Octet (16 * a + b)%N)) (uri_items s'')
            | _, _ => None
            end
        | _ => None
        end
      else option_map (cons (Unit c)) (uri_items s')
  end.

(** The units of a code point in UTF-16. *)
Definition utf16 (cp : N) : jsstring :=
  (if cp <? 65536 then [cp]
   else [55296 + (cp - 65536) / 1024; 56320 + (cp - 65536) mod 1024])%N.

Definition is_continuation (b : N) : bool := in_range 128 191 b.

(** The octets must be the UTF-8 encoding of code points: no octet out
    of place, no overlong form, no surrogate, nothing above 10FFFF. *)
Fixpoint decode_items (l : list uri_item) : option jsstring :=
  match l with
  | [] => Some []
  | Unit c :: l' => option_map (cons c) (decode_items l')
  | Octet b :: l' =>
      if (b <? 128)%N then option_map (cons b) (decode_items l')
      else if in_range 194 223 b then
        match l' with
        | Octet b1 :: l'' =>
            if is_continuation b1
            then option_map (cons ((b - 192) * 64 + (b1 - 128))%N)
                            (decode_items l'')
            else None
        | _ => None
        end
      else if in_range 224 239 b then
        match l' with
        | Octet b1 :: Octet b2 :: l'' =>
            let cp := ((b - 224) * 4096 + (b1 - 128) * 64 + (b2 - 128))%N in
            if is_continuation b1 && is_continuation b2
               && (2048 <=? cp)%N && negb (in_range 55296 57343 cp)
            then option_map (cons cp) (decode_items l'')
            else None
        | _ => None
        end
      else if in_range 240 244 b then
        match l' with
        | Octet b1 :: Octet b2 :: Octet b3 :: l'' =>
            let cp := ((b - 240) * 262144 + (b1 - 128) * 4096
                       + (b2 - 128) * 64 + (b3 - 128))%N in
            if is_continuation b1 && is_continuation b2 && is_continuation b3
               && (65536 <=? cp)%N && (cp <=? 1114111)%N
            then option_map (app (utf16 cp)) (decode_items l'')
            else None
        | _ => None
        end
      else None
  end.

Definition decodeURIComponent (s : jsstring) : option jsstring :=
  match uri_items s with
  | Some l => decode_items l
  | None => None
  end.

(** ** The keyboard of the search results and its callback *)

(** What [handleSearchCallback] does with the data of a button in a
    group. *)
Inductive search_action :=
| NewSearch
| ShowSearchPage (page : option Z) (query : jsstring)
| UnknownSearchCommand
| SearchCallbackError.

Definition handleSearchCallback_action (data : jsstring) : search_action :=
  if jsstring_eqb data (lit "search_new") then NewSearch
  else if startsWith (lit "search_page:") data then
    let pieces := split_on 58 data in
    let page := parseInt_opt (pieces !! 1%nat) in
    match decodeURIComponent (match pieces !! 2%nat with
                              | Some encodedQuery => encodedQuery
                              | None => lit "undefined"
                              end) with
    | Some query => ShowSearchPage page query
    | None => SearchCallbackError
    end
  else UnknownSearchCommand.

(** The buttons of a keyboard. *)
Definition buttons (keyboard : list (list Button)) : list Button :=
  concat keyboard.

(** ** The analysis of a user (index.ts, and the two routes of the web
    application) *)

Definition User_findByUsername (name : jsstring) : M (option UserData) :=
  fun w =>
    (Ok (head (List.filter
                 (fun u => match username u with
                           | Some n => jsstring_eqb n name
                           | None => false
                           end) (users w))), w).

(** [a || b || 'Unknown']. *)
Definition name_or_unknown (username first_name : option jsstring)
  : jsstring :=
  match username with
  | Some (c :: n) => c :: n
  | _ =>
      match first_name with
      | Some (c :: n) => c :: n
      | _ => lit "Unknown"
      end
  end.

(** [s.replace(c, '')] for a one-unit pattern: the first occurrence goes. *)
Fixpoint remove_first (c : N) (s : jsstring) : jsstring :=
  match s with
  | [] => []
  | x :: s' => if (x =? c)%N then s' else x :: remove_first c s'
  end.

(** A BIGINT of the store as the driver hands it over: its digits, in a
    string. *)
Definition bigint_value (n : Z) : value := VStr (Number_toString n).

(** What JavaScript takes for true. *)
Definition truthy (v : value) : bool :=
  match v with
  | VNull => false
  | VBool b => b
  | VNum z => negb (z =? 0)
  | VStr s => match s with [] => false | _ :: _ => true end
  | VDate _ | VIso _ | VArr _ | VObj _ => true
  end.

(** [a === b] between primitive values: the same type and the same
    value. *)
Definition strict_equals (a b : value) : bool :=
  match a, b with
  | VNull, VNull => true
  | VBool x, VBool y => Bool.eqb x y
  | VNum x, VNum y => x =? y
  | VStr x, VStr y => jsstring_eqb x y
  | _, _ => false
  end.

(** [message.from] of the message a command replies to. *)
Record Sender := {
  sender_id : Z;
  sender_username : option jsstring;
  sender_first_name : jsstring
}.

Record AnalyzeMessage := {
  an_chat : chat_type * Z;
  an_text : jsstring;
  reply_to_message : option Sender
}.

(** How the command ends.  [Analysis] is the call of
    [geminiService.analyzeUser] with its three arguments; what that
    service answers is outside the program. *)
Inductive analyze_answer :=
| AnalyzeGroupsOnly
| AuthorNotInDatabase
| AnalyzeUsage
| UsernameNotFound (username : jsstring)
| NoMessagesToAnalyze (targetUsername : jsstring)
| TooFewMessages (targetUsername : jsstring)
| Analysis (username : jsstring) (messages : list MessageData)
           (totalMessages : Z)
| AnalyzeFailed.

(** The user the command is about: the author of the message replied
    to, or the user named by the first argument. *)
Definition analyze_target (message : AnalyzeMessage)
  : M (analyze_answer + Z * jsstring) :=
  match reply_to_message message with
  | Some from =>
      user <- User_findById (sender_id from) ;;
      match user with
      | None => ret (inl AuthorNotInDatabase)
      | Some user =>
          ret (inr (sender_id from,
                    name_or_unknown (username user) (first_name user)))
      end
  | None =>
      let args := tl (split_on 32 (an_text message)) in
      match option_map (remove_first 64) (head args) with
      | Some (c :: n) =>
          user <- User_findByUsername (c :: n) ;;
          match user with
          | None => ret (inl (UsernameNotFound (c :: n)))
          | Some user => ret (inr (u_id user, c :: n))
          end
      | _ => ret (inl AnalyzeUsage)
      end
  end.

(** The handler of [bot.command('analyze')].  The count of the
    statistics is a BIGINT, so [stats.message_count === 0] compares a
    string with a number. *)
Definition analyze_command (message : AnalyzeMessage) : M analyze_answer :=
  try_catch
    (match an_chat message with
     | (group, _) | (supergroup, _) =>
         target <- analyze_target message ;;
         match target with
         | inl answer => ret answer
         | inr (targetUserId, targetUsername) =>
             stats <- User_getStats targetUserId None ;;
             match stats with
             | None => ret (NoMessagesToAnalyze targetUsername)
             | Some stats =>
                 if strict_equals (bigint_value (s_message_count stats))
                                  (VNum 0)
                 then ret (NoMessagesToAnalyze targetUsername)
                 else
                   recentMessages <- Message_getRecentMessages targetUserId 50 ;;
                   if Z.of_nat (List.length recentMessages) <? 5
                   then ret (TooFewMessages targetUsername)
                   else ret (Analysis targetUsername recentMessages
                                      (s_message_count stats))
             end
         end
     | _ => ret AnalyzeGroupsOnly
     end)
    (fun _ => console_error "Error in /analyze command:" ;;; ret AnalyzeFailed).

(** A request to the web application: its method and the [username] of
    its body, when that is a string. *)
Record ApiRequest := {
  method : jsstring;
  body_username : option jsstring
}.

(** How a route ends: an answer with a status that is not 200, or the
    call of [geminiService.analyzeUser] with its three arguments. *)
Inductive api_answer :=
| Status (code : Z)
| PagesAnalysis (username : jsstring) (messages : list (jsstring * Z))
                (totalMessages : Z)
| AppAnalysis (username : jsstring) (messages : list MessageData)
              (totalMessages : Z).

(** pages/api/analyze.ts. *)
Definition pages_api_analyze (req : ApiRequest) : M api_answer :=
  if negb (jsstring_eqb (method req) (lit "POST")) then ret (Status 405)
  else
    try_catch
      (match body_username req with
       | Some (c :: n) =>
           let username := c :: n in
           let normalizedUsername :=
             if startsWith (lit "@") username then drop 1%nat username
             else username in
           user <- User_findByUsername normalizedUsername ;;
           match user with
           | None => ret (Status 404)
           | Some user =>
               messages <- Message_getRecentMessages (u_id user) 50 ;;
               match messages with
               | [] => ret (Status 404)
               | _ :: _ =>
                   userStats <- User_getStats (u_id user) None ;;
                   let totalMessages :=
                     match userStats with
                     | Some s =>
                         if truthy (bigint_value (s_message_count s))
                         then s_message_count s
                         else Z.of_nat (List.length messages)
                     | None => Z.of_nat (List.length messages)
                     end in
                   ret (PagesAnalysis normalizedUsername
                          (List.map (fun msg => (text msg, created_at msg))
                                    messages)
                          totalMessages)
               end
           end
       | _ => ret (Status 400)
       end)
      (fun _ => console_error "Error in analyze API:" ;;; ret (Status 500)).

(** app/api/analyze/route.ts. *)
Definition app_api_analyze (username : option jsstring) : M api_answer :=
  try_catch
    (match option_map trim username with
     | Some (c :: n) =>
         let cleanUsername := c :: n in
         user <- User_findByUsername cleanUsername ;;
         match user with
         | None => ret (Status 404)
         | Some user =>
             stats <- User_getStats (u_id user) None ;;
             match stats with
             | None => ret (Status 404)
             | Some stats =>
                 if strict_equals (bigint_value (s_message_count stats))
                                  (VNum 0)
                 then ret (Status 404)
                 else
                   recentMessages <- Message_getRecentMessages (u_id user) 50 ;;
                   if Z.of_nat (List.length recentMessages) <? 5
                   then ret (Status 400)
                   else ret (AppAnalysis cleanUsername recentMessages
                                         (s_message_count stats))
             end
         end
     | _ => ret (Status 400)
     end)
    (fun _ => console_error "Error in /api/analyze:" ;;; ret (Status 500)).

(** ** Showing the statistics of a user ([handleUserStats]) *)

(** [if (d) ... d.toLocaleDateString('ru-RU')]: a date that is set is
    rendered by a method that a [Date] has and a string has not. *)
Definition renders_as_date (d : option value) : bool :=
  match d with
  | Some (VDate _) => true
  | Some v => negb (truthy v)
  | None => true
  end.

Inductive user_stats_answer :=
| UserStatsShown (data : value)
| UserStatsUnavailable
| UserStatsFailed.

(** The text of the statistics is built from [data]; the two dates of
    the statistics are rendered on the way. *)
Definition formatUserStats (data : value) : outcome user_stats_answer :=
  match field "stats" data with
  | Some stats =>
      if truthy stats then
        if renders_as_date (field "first_message" stats)
           && renders_as_date (field "last_message" stats)
        then Ok (UserStatsShown data)
        else Throw TypeError
      else Ok UserStatsUnavailable
  | None => Ok UserStatsUnavailable
  end.

Definition handleUserStats (chatId userId : Z) (period : StatsPeriod)
  : M user_stats_answer :=
  try_catch
    (data <- getUserStatsData chatId userId period ;;
     lift (formatUserStats data))
    (fun _ => console_error "Error getting user stats:" ;;;
              ret UserStatsFailed).

(** * Properties *)

(** ** Cache keys *)

Lemma uint_units_inj (d d' : Decimal.uint) :
  uint_units d = uint_units d' -> d = d'.
Proof.
  revert d'.
  induction d; intros d' H; destruct d'; simpl in H;
    try discriminate; try reflexivity;
    injection H as H; f_equal; auto.
Qed.

Lemma uint_units_digits (d : Decimal.uint) :
  Forall (fun c => in_range 48 57 c = true) (uint_units d).
Proof.
  induction d; simpl; constructor; auto.
Qed.

Lemma Number_toString_inj (a b : Z) :
  Number_toString a = Number_toString b -> a = b.
Proof.
  unfold Number_toString. intros H.
  apply DecimalZ.to_int_inj.
  destruct (Z.to_int a) as [d|d], (Z.to_int b) as [d'|d'].
  - f_equal. now apply uint_units_inj.
  - exfalso. destruct d; simpl in H; discriminate.
  - exfalso. destruct d'; simpl in H; discriminate.
  - f_equal. injection H as H. now apply uint_units_inj.
Qed.

Lemma Number_toString_no_colon (z : Z) : ~ In 58%N (Number_toString z).
Proof.
  unfold Number_toString. intros H.
  assert (D : forall d, ~ In 58%N (uint_units d)).
  { intros d Hd. pose proof (uint_units_digits d) as F.
    rewrite List.Forall_forall in F. specialize (F _ Hd). discriminate. }
  destruct (Z.to_int z); simpl in H.
  - now apply D in H.
  - destruct H as [H|H]; [discriminate | now apply D in H].
Qed.

Lemma normalizeQuery_units (q : jsstring) :
  Forall (fun c => key_unit c = true \/ c = 95%N) (normalizeQuery q).
Proof.
  unfold normalizeQuery.
  apply Forall_take.
  induction q as [|c q IH]; simpl; constructor; auto.
  destruct (key_unit c) eqn:E; auto.
Qed.

Lemma normalizeQuery_no_colon (q : jsstring) : ~ In 58%N (normalizeQuery q).
Proof.
  intros H. pose proof (normalizeQuery_units q) as F.
  rewrite List.Forall_forall in F. destruct (F _ H) as [K|K]; discriminate.
Qed.

(** Two texts cut at their first separator agree piece by piece. *)
Lemma split_at_separator (sep : N) (a a' b b' : jsstring) :
  ~ In sep a -> ~ In sep a' ->
  a ++ sep :: b = a' ++ sep :: b' -> a = a' /\ b = b'.
Proof.
  revert a'. induction a as [|x a IH]; intros [|y a'] Ha Ha' H; simpl in *.
  - injection H as H. auto.
  - injection H as H1 H2. exfalso. apply Ha'. left. congruence.
  - injection H as H1 H2. exfalso. apply Ha. left. congruence.
  - injection H as H1 H2. subst y.
    destruct (IH a') as [E1 E2]; auto.
    split; congruence.
Qed.

Lemma createSearchCacheKey_inj (c1 c2 : Z) (q1 q2 : jsstring) (p1 p2 : Z) :
  createSearchCacheKey c1 q1 p1 = createSearchCacheKey c2 q2 p2 ->
  c1 = c2 /\ normalizeQuery q1 = normalizeQuery q2 /\ p1 = p2.
Proof.
  unfold createSearchCacheKey. intros H.
  apply app_inv_head in H.
  change (lit ":") with [58%N] in H. simpl in H.
  apply split_at_separator in H as [Hc H];
    try apply Number_toString_no_colon.
  apply split_at_separator in H as [Hq Hp];
    try apply normalizeQuery_no_colon.
  repeat split; auto using Number_toString_inj.
Qed.

Lemma normalizeQuery_lookup (q : jsstring) (i : nat) :
  normalizeQuery q !! i =
  if (i <? 50)%nat
  then (fun c => if key_unit c then c else 95%N) <$> q !! i
  else None.
Proof.
  unfold normalizeQuery.
  destruct (i <? 50)%nat eqn:E.
  - apply Nat.ltb_lt in E. rewrite lookup_take_lt by lia.
    now rewrite list_lookup_fmap.
  - apply Nat.ltb_ge in E. now rewrite lookup_take_ge by lia.
Qed.

Lemma app_one {A} (a : A) (l : list A) : [a] ++ l = a :: l.
Proof. reflexivity. Qed.

Lemma split_on_whole (sep : N) (a : jsstring) :
  ~ In sep a -> split_on sep a = [a].
Proof.
  induction a as [|c a IH]; intros H; [reflexivity|].
  simpl. destruct (c =? sep)%N eqn:E.
  - apply N.eqb_eq in E. exfalso. apply H. now left.
  - rewrite IH; [reflexivity|]. intros I. apply H. now right.
Qed.

Lemma split_on_first (sep : N) (a b : jsstring) :
  ~ In sep a -> split_on sep (a ++ sep :: b) = a :: split_on sep b.
Proof.
  induction a as [|c a IH]; intros H; simpl.
  - now rewrite N.eqb_refl.
  - destruct (c =? sep)%N eqn:E.
    + apply N.eqb_eq in E. exfalso. apply H. now left.
    + rewrite IH; [reflexivity|]. intros I. apply H. now right.
Qed.

Lemma period_string_no_colon (p : StatsPeriod) : ~ In 58%N (period_string p).
Proof.
  destruct p; vm_compute; intros H;
    repeat (destruct H as [H|H]; [discriminate H|]); exact H.
Qed.

Lemma prefix_no_colon (s : string) :
  forallb (fun c => negb (c =? 58)%N) (lit s) = true -> ~ In 58%N (lit s).
Proof.
  intros F I. rewrite forallb_forall in F. specialize (F _ I). discriminate.
Qed.

(** C5. Each cache-key function builds the documented text: cut at its
    colons, a key is the prefix, the decimal identifiers and the period, or
    the normalised query and the page.  The normalised query is the query
    with every unit outside the kept alphabet replaced by an underscore,
    cut to its first 50 units.  Stats keys of one chat are equal exactly
    when the periods are, and two search keys are equal exactly when the
    chats, the normalised queries and the pages are. *)
Theorem cache_keys_derivation :
  (forall chatId (per : StatsPeriod),
      createStatsCacheKey chatId (period_string per)
      = lit "stats:" ++ Number_toString chatId ++ lit ":" ++ period_string per
      /\ split_on 58 (createStatsCacheKey chatId (period_string per))
         = [lit "stats"; Number_toString chatId; period_string per])
  /\ (forall chatId userId (per : StatsPeriod),
      createUserStatsCacheKey chatId userId (period_string per)
      = lit "user_stats:" ++ Number_toString chatId ++ lit ":"
          ++ Number_toString userId ++ lit ":" ++ period_string per
      /\ split_on 58 (createUserStatsCacheKey chatId userId (period_string per))
         = [lit "user_stats"; Number_toString chatId; Number_toString userId;
            period_string per])
  /\ (forall chatId,
      createUsersListCacheKey chatId
      = lit "users_list:" ++ Number_toString chatId
      /\ split_on 58 (createUsersListCacheKey chatId)
         = [lit "users_list"; Number_toString chatId])
  /\ (forall chatId query page,
      createSearchCacheKey chatId query page
      = lit "search:" ++ Number_toString chatId ++ lit ":"
          ++ normalizeQuery query ++ lit ":" ++ Number_toString page
      /\ split_on 58 (createSearchCacheKey chatId query page)
         = [lit "search"; Number_toString chatId; normalizeQuery query;
            Number_toString page])
  /\ (forall query : jsstring,
      (List.length (normalizeQuery query) <= 50)%nat
      /\ List.length (normalizeQuery query)
         = Nat.min 50 (List.length query)
      /\ forall i : nat,
          normalizeQuery query !! i =
          if (i <? 50)%nat
          then (fun c => if key_unit c then c else 95%N) <$> query !! i
          else None)
  /\ (forall chatId (p1 p2 : StatsPeriod),
      createStatsCacheKey chatId (period_string p1)
      = createStatsCacheKey chatId (period_string p2) <-> p1 = p2)
  /\ (forall c1 q1 p1 c2 q2 p2,
      createSearchCacheKey c1 q1 p1 = createSearchCacheKey c2 q2 p2
      <-> c1 = c2 /\ normalizeQuery q1 = normalizeQuery q2 /\ p1 = p2).
Proof.
  split; [|split; [|split; [|split; [|split; [|split]]]]].
  - intros chatId per. split; [reflexivity|].
    unfold createStatsCacheKey.
    change (lit "stats:") with (lit "stats" ++ [58%N]).
    change (lit ":") with [58%N]. rewrite <- app_assoc, !app_one.
    rewrite split_on_first by (now apply prefix_no_colon).
    rewrite split_on_first by apply Number_toString_no_colon.
    now rewrite split_on_whole by apply period_string_no_colon.
  - intros chatId userId per. split; [reflexivity|].
    unfold createUserStatsCacheKey.
    change (lit "user_stats:") with (lit "user_stats" ++ [58%N]).
    change (lit ":") with [58%N]. rewrite <- app_assoc, !app_one.
    rewrite split_on_first by (now apply prefix_no_colon).
    rewrite split_on_first by apply Number_toString_no_colon.
    rewrite split_on_first by apply Number_toString_no_colon.
    now rewrite split_on_whole by apply period_string_no_colon.
  - intros chatId. split; [reflexivity|].
    unfold createUsersListCacheKey.
    change (lit "users_list:") with (lit "users_list" ++ [58%N]).
    rewrite <- app_assoc, !app_one.
    rewrite split_on_first by (now apply prefix_no_colon).
    now rewrite split_on_whole by apply Number_toString_no_colon.
  - intros chatId query page. split; [reflexivity|].
    unfold createSearchCacheKey.
    change (lit "search:") with (lit "search" ++ [58%N]).
    change (lit ":") with [58%N]. rewrite <- app_assoc, !app_one.
    rewrite split_on_first by (now apply prefix_no_colon).
    rewrite split_on_first by apply Number_toString_no_colon.
    rewrite split_on_first by apply normalizeQuery_no_colon.
    now rewrite split_on_whole by apply Number_toString_no_colon.
  - intros query. split; [|split].
    + unfold normalizeQuery. rewrite length_take, length_map. lia.
    + unfold normalizeQuery. rewrite length_take, length_map. lia.
    + apply normalizeQuery_lookup.
  - intros chatId p1 p2. split.
    + unfold createStatsCacheKey. intros H.
      do 3 apply app_inv_head in H.
      destruct p1, p2; try reflexivity; discriminate.
    + intros ->. reflexivity.
  - intros c1 q1 p1 c2 q2 p2. split.
    + apply createSearchCacheKey_inj.
    + intros (-> & E & ->). unfold createSearchCacheKey. now rewrite E.
Qed.

(** ** Cache store *)

Lemma RedisService_get_up (key : jsstring) (w : World) :
  redis_up w = true ->
  RedisService_get key w = (Ok (live_entry w key), w).
Proof.
  intros U. unfold RedisService_get, try_catch, client_get. now rewrite U.
Qed.

Lemma RedisService_get_down (key : jsstring) (w : World) :
  redis_up w = false ->
  RedisService_get key w
  = (Ok None, snd (console_error "Redis GET error:" w)).
Proof.
  intros U. unfold RedisService_get, try_catch, client_get. now rewrite U.
Qed.

Lemma RedisService_get_miss (key : jsstring) (w : World) :
  cache_miss w key = true ->
  exists w', RedisService_get key w = (Ok None, w')
             /\ users w' = users w /\ messages w' = messages w
             /\ redis_store w' = redis_store w /\ redis_up w' = redis_up w
             /\ now w' = now w /\ sent w' = sent w.
Proof.
  unfold cache_miss. intros H.
  destruct (redis_up w) eqn:U.
  - rewrite RedisService_get_up by assumption.
    destruct (live_entry w key); [discriminate|].
    exists w. repeat split; auto.
  - rewrite RedisService_get_down by assumption.
    eexists. split; [reflexivity|]. simpl. repeat split; auto.
Qed.

Lemma RedisService_set_Ok (key : jsstring) (t : json_text) (ttl : Z) (w : World) :
  RedisService_set key t ttl w = (Ok tt, snd (RedisService_set key t ttl w)).
Proof.
  unfold RedisService_set, try_catch, client_setEx.
  destruct (redis_up w && (0 <? ttl)); reflexivity.
Qed.

(** A call wrapped in a handler that only logs never throws, whatever the
    call does. *)
Lemma logged_failure_is_swallowed {A} (call : M A) (msg : string) (dflt : A)
    (w : World) :
  exists a w',
    try_catch call (fun _ => console_error msg ;;; ret dflt) w = (Ok a, w').
Proof.
  unfold try_catch, bind, console_error, ret.
  destruct (call w) as [[a|e] w1]; eauto.
Qed.

(** C7. Whatever the backend does, [get], [set] and [delete] of the cache
    store return normally.  When the backend answers, [get] returns the
    live entry (or absence), [set] stores the text with its expiry and
    [delete] removes the key.  When the backend call fails, [get] returns
    absence and [set] and [delete] change nothing in the backend; the
    failure is written to the console and never reaches the caller. *)
Theorem cache_store_isolates_backend_failures
    (key : jsstring) (t : json_text) (ttlSeconds : Z) (w : World) :
  (match client_get key w with
   | (Ok r, w1) => RedisService_get key w = (Ok r, w) /\ r = live_entry w key
   | (Throw _, w1) =>
       exists w2, RedisService_get key w = (Ok None, w2)
                  /\ redis_store w2 = redis_store w
                  /\ console w2 = console w ++ [lit "Redis GET error:"]
   end)
  /\ (match client_setEx key ttlSeconds t w with
      | (Ok _, w1) =>
          RedisService_set key t ttlSeconds w = (Ok tt, w1)
          /\ redis_store w1
             = <[key := (t, now w + 1000 * ttlSeconds)]> (redis_store w)
      | (Throw _, w1) =>
          exists w2, RedisService_set key t ttlSeconds w = (Ok tt, w2)
                     /\ redis_store w2 = redis_store w
                     /\ console w2 = console w ++ [lit "Redis SET error:"]
      end)
  /\ (match client_del key w with
      | (Ok _, w1) =>
          RedisService_delete key w = (Ok tt, w1)
          /\ redis_store w1 = delete key (redis_store w)
      | (Throw _, w1) =>
          exists w2, RedisService_delete key w = (Ok tt, w2)
                     /\ redis_store w2 = redis_store w
                     /\ console w2 = console w ++ [lit "Redis DELETE error:"]
      end)
  /\ (forall e w',
         RedisService_get key w <> (Throw e, w')
         /\ RedisService_set key t ttlSeconds w <> (Throw e, w')
         /\ RedisService_delete key w <> (Throw e, w')).
Proof.
  unfold RedisService_get, RedisService_set, RedisService_delete,
    try_catch, client_get, client_setEx, client_del.
  destruct (redis_up w) eqn:U; simpl;
    destruct (0 <? ttlSeconds) eqn:T; simpl;
    repeat split; try (eexists; repeat split; reflexivity); discriminate.
Qed.

(** ** Ordering by creation time *)

Lemma insert_desc_perm (m : MessageData) (l : list MessageData) :
  insert_desc m l ≡ₚ m :: l.
Proof.
  induction l as [|x l IH]; simpl; [reflexivity|].
  destruct (created_at x <=? created_at m); [reflexivity|].
  rewrite IH. apply perm_swap.
Qed.

Lemma order_by_created_desc_perm (l : list MessageData) :
  order_by_created_desc l ≡ₚ l.
Proof.
  induction l as [|m l IH]; simpl; [reflexivity|].
  rewrite insert_desc_perm. now rewrite IH.
Qed.

Lemma insert_desc_sorted (m : MessageData) (l : list MessageData) :
  StronglySorted newer_first l -> StronglySorted newer_first (insert_desc m l).
Proof.
  induction 1 as [|x l S IH F]; simpl.
  - repeat constructor.
  - destruct (created_at x <=? created_at m) eqn:E.
    + apply Z.leb_le in E. constructor; [now constructor|].
      constructor; [exact E|].
      eapply Forall_impl; [exact F|]. unfold newer_first. simpl. intros; lia.
    + apply Z.leb_gt in E. constructor; [exact IH|].
      rewrite insert_desc_perm. constructor; [|exact F].
      unfold newer_first. lia.
Qed.

Lemma order_by_created_desc_sorted (l : list MessageData) :
  StronglySorted newer_first (order_by_created_desc l).
Proof.
  induction l; simpl; [constructor | now apply insert_desc_sorted].
Qed.

Lemma StronglySorted_rev_flip {A} (R : relation A) (l : list A) :
  StronglySorted R l -> StronglySorted (fun a b => R b a) (rev l).
Proof.
  induction 1 as [|x l S IH F]; simpl; [constructor|].
  apply StronglySorted_app_2; [|exact IH|repeat constructor].
  intros a b Ha Hb. apply list_elem_of_singleton in Hb as ->.
  rewrite Forall_forall in F. apply F.
  apply list_elem_of_In. apply in_rev. now apply list_elem_of_In.
Qed.

(** ** Recent messages of a user *)

(** C10. [getRecentMessages] selects the [limit] most recent messages of
    the user (by descending creation time) and returns that selection
    reversed, oldest first: the rows are in ascending order of creation
    time, there are [min limit count] of them, and every message of the
    user left out is at most as recent as every row returned. *)
Theorem recent_messages_chronological (userId limit : Z) (w : World) :
  0 <= limit ->
  let mine := List.filter (fun m => user_id m =? userId) (messages w) in
  exists rows older : list MessageData,
    Message_getRecentMessages userId limit w = (Ok rows, w)
    /\ rows = rev (take (Z.to_nat limit) (order_by_created_desc mine))
    /\ List.length rows = Nat.min (Z.to_nat limit) (List.length mine)
    /\ StronglySorted older_first rows
    /\ rows ++ older ≡ₚ mine
    /\ forall r o, r ∈ rows -> o ∈ older -> created_at o <= created_at r.
Proof.
  intros L mine.
  exists (rev (take (Z.to_nat limit) (order_by_created_desc mine))),
         (drop (Z.to_nat limit) (order_by_created_desc mine)).
  pose proof (order_by_created_desc_sorted mine) as S.
  rewrite <- (take_drop (Z.to_nat limit) (order_by_created_desc mine)) in S.
  repeat split.
  - unfold Message_getRecentMessages, limit_offset. fold mine.
    replace (limit <? 0) with false by (symmetry; apply Z.ltb_ge; lia).
    simpl. now rewrite drop_0.
  - rewrite length_rev, length_take.
    now rewrite (Permutation_length (order_by_created_desc_perm mine)).
  - apply StronglySorted_app_1_l in S.
    now apply StronglySorted_rev_flip in S.
  - rewrite <- Permutation_rev, take_drop.
    apply order_by_created_desc_perm.
  - intros r o Hr Ho.
    apply list_elem_of_In, in_rev, list_elem_of_In in Hr.
    exact (StronglySorted_app_1_elem_of _ _ _ _ _ S Hr Ho).
Qed.

(** ** Per-user statistics *)

Lemma fold_min_spec (l : list Z) (a : Z) :
  fold_left Z.min l a <= a
  /\ (forall x, In x l -> fold_left Z.min l a <= x)
  /\ (fold_left Z.min l a = a \/ In (fold_left Z.min l a) l).
Proof.
  revert a. induction l as [|y l IH]; intros a; simpl.
  - split; [lia|]. split; [tauto | auto].
  - destruct (IH (Z.min a y)) as (H1 & H2 & H3).
    split; [lia|]. split.
    + intros x [<-|Hx]; [lia | auto].
    + destruct H3 as [H3|H3]; [|auto].
      destruct (Z.min_spec a y) as [[_ E]|[_ E]]; rewrite E in H3;
        [left | right; left]; congruence.
Qed.

Lemma fold_max_spec (l : list Z) (a : Z) :
  a <= fold_left Z.max l a
  /\ (forall x, In x l -> x <= fold_left Z.max l a)
  /\ (fold_left Z.max l a = a \/ In (fold_left Z.max l a) l).
Proof.
  revert a. induction l as [|y l IH]; intros a; simpl.
  - split; [lia|]. split; [tauto | auto].
  - destruct (IH (Z.max a y)) as (H1 & H2 & H3).
    split; [lia|]. split.
    + intros x [<-|Hx]; [lia | auto].
    + destruct H3 as [H3|H3]; [|auto].
      destruct (Z.max_spec a y) as [[_ E]|[_ E]]; rewrite E in H3;
        [right; left | left]; congruence.
Qed.

Lemma min_created_spec (rows : list MessageData) :
  match min_created rows with
  | None => rows = []
  | Some t => (exists m, In m rows /\ created_at m = t)
              /\ forall m, In m rows -> t <= created_at m
  end.
Proof.
  destruct rows as [|m rows]; simpl; [reflexivity|].
  destruct (fold_min_spec (List.map created_at rows) (created_at m))
    as (H1 & H2 & H3).
  split.
  - destruct H3 as [H3|H3].
    + exists m. auto.
    + apply in_map_iff in H3 as (m' & E & I). exists m'. auto.
  - intros m' [<-|I]; [exact H1|]. apply H2. now apply in_map.
Qed.

Lemma max_created_spec (rows : list MessageData) :
  match max_created rows with
  | None => rows = []
  | Some t => (exists m, In m rows /\ created_at m = t)
              /\ forall m, In m rows -> created_at m <= t
  end.
Proof.
  destruct rows as [|m rows]; simpl; [reflexivity|].
  destruct (fold_max_spec (List.map created_at rows) (created_at m))
    as (H1 & H2 & H3).
  split.
  - destruct H3 as [H3|H3].
    + exists m. auto.
    + apply in_map_iff in H3 as (m' & E & I). exists m'. auto.
  - intros m' [<-|I]; [exact H1|]. apply H2. now apply in_map.
Qed.

Lemma user_rows_or_null (w : World) (userId : Z) (daysLimit : option Z) :
  user_rows w userId (or_null daysLimit) = user_messages w userId daysLimit.
Proof.
  unfold user_rows, user_messages. apply filter_ext. intros m.
  destruct daysLimit as [d|]; simpl; [|reflexivity].
  destruct (d =? 0); reflexivity.
Qed.

(** C9 (as amended). [getStats] always returns one row: the number of
    messages of the user inside the window, and the earliest and latest
    creation instants among them, both null when there are none.  The
    window is [created_at >= now - daysLimit days] when [daysLimit] is
    given and not zero; an absent or zero [daysLimit] puts no bound. *)
Theorem user_stats_window (userId : Z) (daysLimit : option Z) (w : World) :
  let rows := user_messages w userId daysLimit in
  (forall m, In m rows <->
             In m (messages w) /\ user_id m = userId
             /\ match daysLimit with
                | Some d => d <> 0 -> now w - day_ms * d <= created_at m
                | None => True
                end)
  /\ exists row,
      User_getStats userId daysLimit w = (Ok (Some row), w)
      /\ s_message_count row = Z.of_nat (List.length rows)
      /\ (rows = [] -> first_message row = None /\ last_message row = None)
      /\ (rows <> [] ->
          exists first last,
            first_message row = Some first /\ last_message row = Some last
            /\ (exists m, In m rows /\ created_at m = first)
            /\ (forall m, In m rows -> first <= created_at m)
            /\ (exists m, In m rows /\ created_at m = last)
            /\ (forall m, In m rows -> created_at m <= last)).
Proof.
  intros rows. split.
  - intros m. unfold rows, user_messages. rewrite filter_In.
    rewrite andb_true_iff, Z.eqb_eq.
    destruct daysLimit as [d|]; simpl; [|tauto].
    rewrite orb_true_iff, Z.eqb_eq, Z.leb_le.
    destruct (Z.eq_dec d 0); intuition lia.
  - unfold User_getStats, get_user_stats.
    rewrite user_rows_or_null. fold rows. simpl.
    eexists. split; [reflexivity|]. simpl.
    pose proof (min_created_spec rows) as Hmin.
    pose proof (max_created_spec rows) as Hmax.
    split; [reflexivity|]. split.
    + intros E. rewrite E. split; reflexivity.
    + intros NE.
      destruct (min_created rows) as [a|]; [|contradiction].
      destruct (max_created rows) as [b|]; [|contradiction].
      exists a, b. tauto.
Qed.

(** ** Escaping and compiling the terms of a literal query *)

Lemma parse_seq_step (f g : nat) (s : jsstring) :
  parse_seq (S f) g s =
  match s with
  | [] => Some (REmpty, g, s)
  | c :: _ =>
      if (c =? 124)%N || (c =? 41)%N then Some (REmpty, g, s)
      else
        match parse_term f g s with
        | Some (t, g1, s1) =>
            match parse_seq f g1 s1 with
            | Some (r, g2, s2) => Some (RSeq t r, g2, s2)
            | None => None
            end
        | None => None
        end
  end.
Proof. reflexivity. Qed.

Lemma escaped_unit_true (c : N) :
  escaped_unit c = true ->
  In c [46; 42; 43; 63; 94; 36; 123; 125; 40; 41; 124; 91; 93; 92]%N.
Proof.
  unfold escaped_unit. intros H.
  apply existsb_exists in H as (x & I & E).
  apply N.eqb_eq in E. now subst x.
Qed.

Lemma escaped_unit_false (c : N) :
  escaped_unit c = false ->
  Forall (fun k => (c =? k)%N = false)
         [46; 42; 43; 63; 94; 36; 123; 125; 40; 41; 124; 91; 93; 92]%N.
Proof.
  unfold escaped_unit. intros H.
  apply List.Forall_forall. intros k I.
  destruct (c =? k)%N eqn:E; [|reflexivity].
  assert (existsb (N.eqb c)
            [46; 42; 43; 63; 94; 36; 123; 125; 40; 41; 124; 91; 93; 92]%N
          = true) by (apply existsb_exists; eauto).
  congruence.
Qed.

Ltac unit_facts H :=
  apply escaped_unit_false in H;
  repeat match type of H with
         | Forall _ (_ :: _) =>
             let E := fresh "E" in
             apply Forall_cons_1 in H as [E H]
         end.

(** After an escaped term, what follows a unit is never a quantifier. *)
Lemma quantified_escaped (a : regex) (w rest : jsstring) :
  quantified a (escapeRegExp w ++ 41%N :: rest)
  = (a, escapeRegExp w ++ 41%N :: rest).
Proof.
  destruct w as [|c w]; [reflexivity|].
  unfold escapeRegExp. simpl.
  destruct (escaped_unit c) eqn:E; [reflexivity|].
  unit_facts E. simpl. now rewrite E1, E2, E3.
Qed.

Lemma parse_term_step (f g : nat) (c : N) (s1 : jsstring) :
  parse_term (S f) g (c :: s1) =
  if (c =? 40)%N then
    match s1 with
    | q :: _ =>
        if (q =? 63)%N then None
        else
          match parse_alt f (S g) s1 with
          | Some (r, g1, s2) =>
              match s2 with
              | e :: s3 =>
                  if (e =? 41)%N then
                    let (a, s4) := quantified (RGroup (S g) r) s3 in
                    Some (a, g1, s4)
                  else None
              | [] => None
              end
          | None => None
          end
    | [] => None
    end
  else if (c =? 91)%N then
    let (neg, body) :=
      match s1 with
      | n :: s2 => if (n =? 94)%N then (true, s2) else (false, s1)
      | [] => (false, s1)
      end in
    match body with
    | b :: _ =>
        if (b =? 93)%N then None
        else match parse_class body with
             | Some (items, s3) =>
                 let (a, s4) := quantified (RClass neg items) s3 in
                 Some (a, g, s4)
             | None => None
             end
    | [] => None
    end
  else if (c =? 92)%N then
    match s1 with
    | x :: s2 =>
        match escape_atom x with
        | Some atom => let (a, s3) := quantified atom s2 in Some (a, g, s3)
        | None => None
        end
    | [] => None
    end
  else if (c =? 46)%N then
    let (a, s2) := quantified RAny s1 in Some (a, g, s2)
  else if (c =? 94)%N then Some (RBol, g, s1)
  else if (c =? 36)%N then Some (REol, g, s1)
  else if (c =? 93)%N then
    let (a, s2) := quantified (RChar c) s1 in Some (a, g, s2)
  else if is_syntax_char c then None
  else let (a, s2) := quantified (RChar c) s1 in Some (a, g, s2).
Proof. reflexivity. Qed.

Lemma parse_term_escaped (c : N) (w rest : jsstring) (f g : nat) :
  parse_term (S f) g (escapeRegExp (c :: w) ++ 41%N :: rest)
  = Some (RChar c, g, escapeRegExp w ++ 41%N :: rest).
Proof.
  unfold escapeRegExp at 1. simpl flat_map. fold (escapeRegExp w).
  rewrite <- app_assoc.
  destruct (escaped_unit c) eqn:E; simpl app; rewrite parse_term_step.
  - apply escaped_unit_true in E.
    assert (A : escape_atom c = Some (RChar c)).
    { simpl in E.
      repeat (destruct E as [<-|E]; [reflexivity|]). contradiction. }
    change (92 =? 40)%N with false. change (92 =? 91)%N with false.
    change (92 =? 92)%N with true. cbv iota.
    rewrite A. now rewrite quantified_escaped.
  - unit_facts E.
    assert (S : is_syntax_char c = false).
    { unfold is_syntax_char. simpl.
      now rewrite E0, E1, E2, E3, E4, E5, E6, E7, E8, E9, E10, E11, E12, E13. }
    rewrite E8, E11, E13, E0, E4, E5, E12, S.
    now rewrite quantified_escaped.
Qed.

Lemma parse_seq_escaped (w rest : jsstring) (f g : nat) :
  (List.length w + 1 < f)%nat ->
  parse_seq f g (escapeRegExp w ++ 41%N :: rest)
  = Some (lits w, g, 41%N :: rest).
Proof.
  revert f. induction w as [|c w IH]; intros f L.
  - destruct f as [|f]; [simpl in L; lia|]. reflexivity.
  - destruct f as [|[|f]]; try (simpl in L; lia).
    rewrite parse_seq_step.
    rewrite parse_term_escaped.
    rewrite IH by (simpl in L; lia).
    assert (H : exists h t, escapeRegExp (c :: w) ++ 41%N :: rest = h :: t
                            /\ ((h =? 124)%N || (h =? 41)%N) = false).
    { unfold escapeRegExp. simpl flat_map.
      destruct (escaped_unit c) eqn:E; simpl.
      - eexists _, _. split; reflexivity.
      - unit_facts E. eexists _, _. split; [reflexivity|].
        now rewrite E9, E10. }
    destruct H as (h & t & -> & ->). reflexivity.
Qed.

Lemma escapeRegExp_length (w : jsstring) :
  (List.length w <= List.length (escapeRegExp w))%nat.
Proof.
  induction w as [|c w IH]; simpl; [lia|].
  rewrite length_app. destruct (escaped_unit c); simpl; lia.
Qed.

Lemma compile_escaped (w : jsstring) :
  compile (lit "(" ++ escapeRegExp w ++ lit ")")
  = Some (RSeq (RGroup 1 (lits w)) REmpty).
Proof.
  unfold compile, parse_fuel.
  change (lit "(" ++ escapeRegExp w ++ lit ")")
    with (40%N :: escapeRegExp w ++ [41%N]).
  assert (F : exists f, (4 * List.length (40%N :: escapeRegExp w ++ [41%N]) + 4
                         = S (S (S (S (S f)))))%nat
                        /\ (List.length w + 1 < f)%nat).
  { pose proof (escapeRegExp_length w).
    exists (4 * List.length (40%N :: escapeRegExp w ++ [41%N]) - 1)%nat.
    simpl List.length. rewrite length_app. simpl. lia. }
  destruct F as (f & -> & L).
  assert (Q : exists q t, escapeRegExp w ++ [41%N] = q :: t
                          /\ (q =? 63)%N = false).
  { destruct w as [|c w]; [eexists _, _; split; reflexivity|].
    unfold escapeRegExp. simpl flat_map.
    destruct (escaped_unit c) eqn:E; simpl.
    - eexists _, _. split; reflexivity.
    - unit_facts E. eexists _, _. split; [reflexivity|]. exact E3. }
  destruct Q as (q & t & Q & Q63).
  change (parse_alt (S (S (S (S (S f))))) 0 (40%N :: escapeRegExp w ++ [41%N]))
    with (match parse_seq (S (S (S (S f)))) 0 (40%N :: escapeRegExp w ++ [41%N])
          with
          | Some (r1, g1, s1) =>
              match s1 with
              | c :: s2 =>
                  if (c =? 124)%N then
                    match parse_alt (S (S (S (S f)))) g1 s2 with
                    | Some (r2, g2, s3) => Some (RAlt r1 r2, g2, s3)
                    | None => None
                    end
                  else Some (r1, g1, s1)
              | [] => Some (r1, g1, s1)
              end
          | None => None
          end).
  rewrite parse_seq_step. cbv beta iota.
  change ((40 =? 124)%N || (40 =? 41)%N) with false. cbv iota.
  rewrite parse_term_step.
  change (40 =? 40)%N with true. cbv iota.
  rewrite Q, Q63, <- Q.
  change (parse_alt (S (S f)) 1 (escapeRegExp w ++ [41%N]))
    with (match parse_seq (S f) 1 (escapeRegExp w ++ [41%N]) with
          | Some (r1, g1, s1) =>
              match s1 with
              | c :: s2 =>
                  if (c =? 124)%N then
                    match parse_alt (S f) g1 s2 with
                    | Some (r2, g2, s3) => Some (RAlt r1 r2, g2, s3)
                    | None => None
                    end
                  else Some (r1, g1, s1)
              | [] => Some (r1, g1, s1)
              end
          | None => None
          end).
  rewrite parse_seq_escaped by lia.
  reflexivity.
Qed.

(** ** Matching and marking a literal term *)












Lemma highlightWord_Ok (t w : jsstring) :
  highlightWord (Ok t) w
  = Ok (replace_all js_gi (RSeq (RGroup 1 (lits w)) REmpty) (lit "**$1**") t).
Proof. unfold highlightWord. now rewrite compile_escaped. Qed.


Lemma highlightWords_Ok (words : list jsstring) (txt : jsstring) :
  exists out, fold_left highlightWord words (Ok txt) = Ok out.
Proof.
  revert txt. induction words as [|w words IH]; intros txt.
  - now exists txt.
  - cbn [fold_left]. rewrite highlightWord_Ok. apply IH.
Qed.

Lemma highlightText_Ok (txt searchQuery : jsstring) (isRegex : bool) :
  exists out, highlightText txt searchQuery isRegex = Ok out.
Proof.
  unfold highlightText. destruct isRegex.
  - destruct (compile (slice_1_m1 searchQuery)); eauto.
  - apply highlightWords_Ok.
Qed.






(** ** The search read path *)

Lemma with_highlight_Ok (searchQuery : jsstring) (row : SearchRow) :
  with_highlight searchQuery (isRegexQuery searchQuery) row
  = Ok (set_highlight searchQuery row).
Proof.
  unfold with_highlight, set_highlight, highlighted.
  destruct (highlightText_Ok (r_text row) searchQuery (isRegexQuery searchQuery))
    as [out ->].
  reflexivity.
Qed.

Lemma mapM_with_highlight (searchQuery : jsstring) (rows : list SearchRow) :
  mapM_outcome (with_highlight searchQuery (isRegexQuery searchQuery)) rows
  = Ok (List.map (set_highlight searchQuery) rows).
Proof.
  induction rows as [|r rows IH]; [reflexivity|].
  simpl. now rewrite with_highlight_Ok, IH.
Qed.

Lemma searchMessages_Ok (w : World) (chatId : Z) (searchQuery : jsstring)
    (cond : jsstring -> bool) (limit offset : Z) :
  searchCondition searchQuery = Ok cond ->
  0 <= limit -> 0 <= offset ->
  Message_searchMessages chatId searchQuery limit offset w
  = (Ok (take (Z.to_nat limit)
           (drop (Z.to_nat offset)
              (ranked_results w chatId searchQuery cond))), w).
Proof.
  intros C L O. unfold Message_searchMessages, limit_offset. rewrite C.
  replace (limit <? 0) with false by (symmetry; apply Z.ltb_ge; lia).
  replace (offset <? 0) with false by (symmetry; apply Z.ltb_ge; lia).
  simpl orb. cbv iota.
  rewrite mapM_with_highlight.
  unfold ranked_results. now rewrite skipn_map, firstn_map.
Qed.

Lemma countSearchResults_Ok (w : World) (chatId : Z) (searchQuery : jsstring)
    (cond : jsstring -> bool) :
  searchCondition searchQuery = Ok cond ->
  Message_countSearchResults chatId searchQuery w
  = (Ok (Z.of_nat (List.length (matching w chatId cond))), w).
Proof.
  intros C. unfold Message_countSearchResults, matching. rewrite C.
  now rewrite (Permutation_length (order_by_created_desc_perm _)).
Qed.




Lemma RedisService_set_world (key : jsstring) (t : json_text) (ttl : Z)
    (w : World) :
  0 < ttl ->
  exists w', RedisService_set key t ttl w = (Ok tt, w')
    /\ users w' = users w /\ messages w' = messages w
    /\ now w' = now w /\ redis_up w' = redis_up w /\ sent w' = sent w
    /\ redis_store w'
       = if redis_up w
         then <[key := (t, now w + 1000 * ttl)]> (redis_store w)
         else redis_store w.
Proof.
  intros T. unfold RedisService_set, try_catch, client_setEx.
  replace (0 <? ttl) with true by (symmetry; apply Z.ltb_lt; lia).
  destruct (redis_up w) eqn:U; simpl; eexists; split; try reflexivity;
    simpl; rewrite ?U; repeat split; reflexivity.
Qed.

Lemma ranked_results_same_store (w w1 : World) (chatId : Z)
    (searchQuery : jsstring) (cond : jsstring -> bool) :
  users w1 = users w -> messages w1 = messages w ->
  ranked_results w1 chatId searchQuery cond
  = ranked_results w chatId searchQuery cond
  /\ matching w1 chatId cond = matching w chatId cond.
Proof.
  intros U Ms. unfold ranked_results, matching. now rewrite U, Ms.
Qed.

(** What a read of a search page computes and stores when the cache has
    nothing under its key. *)
Lemma getSearchResults_miss (w : World) (chatId : Z) (query : jsstring)
    (p : Z) (cond : jsstring -> bool) :
  searchCondition query = Ok cond ->
  0 <= p ->
  cache_miss w (createSearchCacheKey chatId query p) = true ->
  let fresh := SearchResult_value
        {| sr_query := query;
           totalResults := Z.of_nat (List.length (matching w chatId cond));
           results := page_slice p (ranked_results w chatId query cond);
           page := p;
           totalPages :=
             ceil_div (Z.of_nat (List.length (matching w chatId cond))) 5;
           sr_cached := false |} in
  exists w',
    getSearchResults chatId query p w = (Ok fresh, w')
    /\ users w' = users w /\ messages w' = messages w
    /\ now w' = now w /\ redis_up w' = redis_up w /\ sent w' = sent w
    /\ redis_store w'
       = if redis_up w
         then <[createSearchCacheKey chatId query p
                := (JSON_stringify fresh, now w + 1000 * 600)]> (redis_store w)
         else redis_store w.
Proof.
  intros C P Miss fresh.
  destruct (RedisService_get_miss _ _ Miss)
    as (w1 & G & U1 & M1 & S1 & R1 & N1 & T1).
  destruct (ranked_results_same_store w w1 chatId query cond U1 M1) as [RR MM].
  destruct (RedisService_set_world (createSearchCacheKey chatId query p)
              (JSON_stringify fresh) 600 w1 ltac:(lia))
    as (w2 & St & U2 & M2 & N2 & R2 & T2 & S2).
  exists w2. split.
  - unfold getSearchResults, bind. rewrite G.
    rewrite (searchMessages_Ok w1 chatId query cond resultsPerPage
               (p * resultsPerPage) C)
      by (unfold resultsPerPage; lia).
    rewrite (countSearchResults_Ok w1 chatId query cond C).
    rewrite RR, MM. unfold resultsPerPage.
    change (take (Z.to_nat 5)
              (drop (Z.to_nat (p * 5)) (ranked_results w chatId query cond)))
      with (page_slice p (ranked_results w chatId query cond)).
    fold fresh. rewrite St. reflexivity.
  - rewrite U2, M2, N2, R2, T2, S2, U1, M1, N1, R1, T1, S1.
    repeat split; reflexivity.
Qed.


Lemma ceil_div_5 (n : Z) :
  5 * (ceil_div n 5 - 1) < n <= 5 * ceil_div n 5.
Proof.
  unfold ceil_div.
  pose proof (Z.div_mod (- n) 5 ltac:(lia)).
  pose proof (Z.mod_pos_bound (- n) 5 ltac:(lia)).
  lia.
Qed.

Lemma concat_pages {A} (l : list A) (n : nat) :
  concat (List.map (fun i : nat => take 5%nat (drop (5 * i)%nat l)) (seq 0 n))
  = take (5 * n)%nat l.
Proof.
  induction n as [|n IH]; [reflexivity|].
  rewrite seq_S, map_app, concat_app, IH. simpl.
  rewrite app_nil_r, take_take_drop. f_equal. lia.
Qed.

Lemma concat_page_slices {A} (l : list A) :
  concat (List.map (fun p => page_slice p l)
            (page_numbers (ceil_div (Z.of_nat (List.length l)) 5)))
  = l.
Proof.
  unfold page_numbers. rewrite map_map.
  pose proof (ceil_div_5 (Z.of_nat (List.length l))) as C.
  rewrite (map_ext _ (fun i : nat => take 5%nat (drop (5 * i)%nat l))).
  - rewrite concat_pages. apply take_ge. lia.
  - intros i. unfold page_slice. do 2 f_equal. lia.
Qed.







(** ** Read-through caching *)

Lemma get_field_set_field (k : jsstring) (v : value)
    (fields : list (jsstring * value)) :
  get_field k (set_field k v fields) = Some v.
Proof.
  induction fields as [|[k' v'] fields IH]; simpl.
  - unfold jsstring_eqb. now rewrite bool_decide_eq_true_2.
  - destruct (jsstring_eqb k' k) eqn:E; simpl.
    + unfold jsstring_eqb. now rewrite bool_decide_eq_true_2.
    + now rewrite E.
Qed.

Lemma cache_miss_up (w : World) (key : jsstring) :
  redis_up w = true -> cache_miss w key = true -> live_entry w key = None.
Proof.
  unfold cache_miss. intros ->. simpl.
  now destruct (live_entry w key).
Qed.

Lemma limit_offset_first {A} (n : Z) (l : list A) :
  0 <= n -> limit_offset n 0 l = Ok (take (Z.to_nat n) l).
Proof.
  intros H. unfold limit_offset.
  replace (n <? 0) with false by (symmetry; apply Z.ltb_ge; lia).
  reflexivity.
Qed.

(** C3 (as amended). Chat statistics, per-user statistics and search
    pages are read through the cache: when the backend holds a live entry
    under the derived key, the parsed entry is returned with [cached] set
    to true and nothing else happens (no query to the store, no write);
    when it holds none, the result is computed from the store, returned
    with [cached] false and written under the key for 1200 seconds (chat
    statistics) or 600 seconds (per-user statistics, search pages), and a
    failing write does not fail the read.  The user list is read through
    the cache in the same way, for 600 seconds, but it is the bare list:
    it carries no [cached] mark on either path. *)
Theorem read_through_cache (w : World) (chatId userId : Z)
    (per : StatsPeriod) (query : jsstring) (p : Z) :
  (* hits *)
  (redis_up w = true ->
   (forall fields,
      live_entry w (createStatsCacheKey chatId (period_string per))
      = Some (Json (VObj fields)) ->
      getStatsData chatId per w
      = (Ok (VObj (set_field (lit "cached") (VBool true) fields)), w))
   /\ (forall fields,
      live_entry w (createUserStatsCacheKey chatId userId (period_string per))
      = Some (Json (VObj fields)) ->
      getUserStatsData chatId userId per w
      = (Ok (VObj (set_field (lit "cached") (VBool true) fields)), w))
   /\ (forall fields,
      live_entry w (createSearchCacheKey chatId query p)
      = Some (Json (VObj fields)) ->
      getSearchResults chatId query p w
      = (Ok (VObj (set_field (lit "cached") (VBool true) fields)), w))
   /\ (forall v,
      live_entry w (createUsersListCacheKey chatId) = Some (Json v) ->
      handleUsersList_users chatId w = (Ok v, w))
   /\ (forall fields,
      field "cached" (VObj (set_field (lit "cached") (VBool true) fields))
      = Some (VBool true)))
  (* misses *)
  /\ (cache_miss w (createStatsCacheKey chatId (period_string per)) = true ->
      exists tu tm w',
        Message_getTopUsers chatId 10 (getDaysLimit per) w = (Ok tu, w)
        /\ Message_getTotalCount chatId (getDaysLimit per) w = (Ok tm, w)
        /\ let fresh := StatsData_value
                 {| period := per; totalMessages := tm; topUsers := tu;
                    cached := false |} in
           getStatsData chatId per w = (Ok fresh, w')
           /\ field "cached" fresh = Some (VBool false)
           /\ redis_store w'
              = if redis_up w
                then <[createStatsCacheKey chatId (period_string per)
                       := (JSON_stringify fresh, now w + 1000 * 1200)]>
                       (redis_store w)
                else redis_store w)
  /\ (cache_miss w (createUserStatsCacheKey chatId userId (period_string per))
      = true ->
      forall user,
        User_findById userId w = (Ok (Some user), w) ->
        exists stats recent w',
          User_getStats userId (getDaysLimit per) w = (Ok stats, w)
          /\ Message_getRecentMessages userId 5 w = (Ok recent, w)
          /\ let fresh :=
               VObj [(lit "user", UserData_value user);
                     (lit "stats", StatsRow_value stats);
                     (lit "recentMessages",
                      VArr (List.map MessageData_value recent));
                     (lit "cached", VBool false)] in
             getUserStatsData chatId userId per w = (Ok fresh, w')
             /\ field "cached" fresh = Some (VBool false)
             /\ redis_store w'
                = if redis_up w
                  then <[createUserStatsCacheKey chatId userId
                           (period_string per)
                         := (JSON_stringify fresh, now w + 1000 * 600)]>
                         (redis_store w)
                  else redis_store w)
  /\ (cache_miss w (createSearchCacheKey chatId query p) = true ->
      forall cond,
        searchCondition query = Ok cond -> 0 <= p ->
        exists fresh w',
          getSearchResults chatId query p w = (Ok fresh, w')
          /\ field "cached" fresh = Some (VBool false)
          /\ field "results" fresh
             = Some (VArr (List.map SearchRow_value
                             (page_slice p
                                (ranked_results w chatId query cond))))
          /\ redis_store w'
             = if redis_up w
               then <[createSearchCacheKey chatId query p
                      := (JSON_stringify fresh, now w + 1000 * 600)]>
                      (redis_store w)
               else redis_store w)
  /\ (cache_miss w (createUsersListCacheKey chatId) = true ->
      exists us w',
        Message_getUserStats chatId None w = (Ok us, w)
        /\ let fresh := VArr (List.map TopUser_value us) in
           handleUsersList_users chatId w = (Ok fresh, w')
           /\ field "cached" fresh = None
           /\ redis_store w'
              = if redis_up w
                then <[createUsersListCacheKey chatId
                       := (JSON_stringify fresh, now w + 1000 * 600)]>
                       (redis_store w)
                else redis_store w).
Proof.
  split; [|split; [|split; [|split]]].
  - intros U. repeat split.
    + intros fields H. unfold getStatsData, bind.
      now rewrite RedisService_get_up, H.
    + intros fields H. unfold getUserStatsData, bind.
      now rewrite RedisService_get_up, H.
    + intros fields H. unfold getSearchResults, bind.
      now rewrite RedisService_get_up, H.
    + intros v H. unfold handleUsersList_users, bind.
      now rewrite RedisService_get_up, H.
    + intros fields. apply get_field_set_field.
  - intros Miss. destruct (redis_up w) eqn:U;
      do 3 eexists; (split; [reflexivity|]); (split; [reflexivity|]);
      cbv zeta; (split; [|split; [reflexivity|]]).
    + unfold getStatsData, bind.
      rewrite RedisService_get_up, (cache_miss_up w _ U Miss) by assumption.
      unfold Message_getTopUsers, bind, Message_getUserStats,
        Message_getTotalCount, ret.
      rewrite RedisService_set_Ok. reflexivity.
    + unfold RedisService_set, try_catch, client_setEx. now rewrite U.
    + unfold getStatsData, bind.
      rewrite RedisService_get_down by assumption.
      unfold Message_getTopUsers, bind, Message_getUserStats,
        Message_getTotalCount, ret.
      rewrite RedisService_set_Ok. reflexivity.
    + unfold RedisService_set, try_catch, client_setEx. simpl. now rewrite U.
  - intros Miss user F.
    unfold User_findById in F. injection F as F.
    destruct (redis_up w) eqn:U;
      do 3 eexists; (split; [reflexivity|]); (split; [reflexivity|]);
      cbv zeta; (split; [|split; [reflexivity|]]).
    + unfold getUserStatsData, bind.
      rewrite RedisService_get_up, (cache_miss_up w _ U Miss) by assumption.
      unfold User_findById. rewrite F.
      unfold User_getStats, Message_getRecentMessages, ret.
      rewrite limit_offset_first by lia.
      rewrite RedisService_set_Ok. reflexivity.
    + unfold RedisService_set, try_catch, client_setEx. now rewrite U.
    + unfold getUserStatsData, bind.
      rewrite RedisService_get_down by assumption.
      unfold User_findById, console_error. cbn [snd users]. rewrite F.
      unfold User_getStats, Message_getRecentMessages, ret.
      rewrite limit_offset_first by lia.
      rewrite RedisService_set_Ok. reflexivity.
    + unfold RedisService_set, try_catch, client_setEx. simpl. now rewrite U.
  - intros Miss cond C P.
    destruct (getSearchResults_miss w chatId query p cond C P Miss)
      as (w' & G & _ & _ & _ & _ & _ & S).
    do 2 eexists. split; [exact G|]. split; [reflexivity|].
    split; [reflexivity|]. exact S.
  - intros Miss. destruct (redis_up w) eqn:U;
      do 2 eexists; (split; [reflexivity|]);
      cbv zeta; (split; [|split; [reflexivity|]]).
    + unfold handleUsersList_users, bind.
      rewrite RedisService_get_up, (cache_miss_up w _ U Miss) by assumption.
      unfold Message_getUserStats, ret.
      rewrite RedisService_set_Ok. reflexivity.
    + unfold RedisService_set, try_catch, client_setEx. now rewrite U.
    + unfold handleUsersList_users, bind.
      rewrite RedisService_get_down by assumption.
      unfold Message_getUserStats, ret.
      rewrite RedisService_set_Ok. reflexivity.
    + unfold RedisService_set, try_catch, client_setEx. simpl. now rewrite U.
Qed.

(** ** Literal queries in the store *)






(** ** Expiry, and reading a page twice *)

(** An entry is served until its time to live has passed, and not after. *)
Lemma entry_lives_for_its_ttl (key : jsstring) (t : json_text)
    (ttlSeconds ms : Z) (w : World) :
  redis_up w = true -> 0 < ttlSeconds -> 0 <= ms ->
  fst (RedisService_get key
         (later ms (snd (RedisService_set key t ttlSeconds w))))
  = Ok (if ms <? 1000 * ttlSeconds then Some t else None).
Proof.
  intros U T P.
  unfold RedisService_set, try_catch, client_setEx. rewrite U.
  replace (0 <? ttlSeconds) with true by (symmetry; apply Z.ltb_lt; lia).
  simpl. rewrite RedisService_get_up by (simpl; exact U). simpl.
  unfold live_entry. simpl. rewrite lookup_insert_eq.
  destruct (ms <? 1000 * ttlSeconds) eqn:E.
  - apply Z.ltb_lt in E.
    now replace (now w + ms <? now w + 1000 * ttlSeconds) with true
      by (symmetry; apply Z.ltb_lt; lia).
  - apply Z.ltb_ge in E.
    now replace (now w + ms <? now w + 1000 * ttlSeconds) with false
      by (symmetry; apply Z.ltb_ge; lia).
Qed.

(** A page read on a miss is served from the cache at the next read: the
    same object as JSON gives it back (dates as strings), marked cached. *)
Lemma search_page_reread (w : World) (chatId : Z) (query : jsstring) (p : Z)
    (cond : jsstring -> bool) :
  redis_up w = true ->
  searchCondition query = Ok cond ->
  0 <= p ->
  cache_miss w (createSearchCacheKey chatId query p) = true ->
  exists fresh w1,
    getSearchResults chatId query p w = (Ok fresh, w1)
    /\ getSearchResults chatId query p w1
       = (assign_cached (toJSON fresh), w1).
Proof.
  intros U C P Miss.
  destruct (getSearchResults_miss w chatId query p cond C P Miss)
    as (w1 & G & _ & _ & N1 & R1 & _ & S1).
  eexists _, w1. split; [exact G|].
  rewrite U in S1.
  unfold getSearchResults at 1, bind.
  rewrite RedisService_get_up by congruence.
  unfold live_entry. rewrite S1, lookup_insert_eq, N1.
  replace (now w <? now w + 1000 * 600) with true
    by (symmetry; apply Z.ltb_lt; lia).
  reflexivity.
Qed.

(** ** Query classification and the [/search] command *)

Lemma slice_between_slashes (pat : jsstring) :
  slice_1_m1 (47%N :: pat ++ [47%N]) = pat.
Proof.
  unfold slice_1_m1. simpl. rewrite length_app. simpl.
  replace (List.length pat + 1 - 1)%nat with (List.length pat) by lia.
  rewrite drop_0. apply take_app_length.
Qed.

(** X28. A query is read as a regular expression exactly when it is a
    non-empty pattern between two slashes; the pattern is what the two
    engines receive. *)
Lemma isRegexQuery_spec (q : jsstring) :
  isRegexQuery q = true <->
  exists pat, pat <> [] /\ q = 47%N :: pat ++ [47%N].
Proof.
  unfold isRegexQuery, startsWith_slash, endsWith_slash. split.
  - intros H. apply andb_true_iff in H as [H L].
    apply andb_true_iff in H as [S E]. apply Nat.ltb_lt in L.
    destruct q as [|c q]; [discriminate|]. apply N.eqb_eq in S. subst c.
    destruct q as [|d q] using rev_ind; [simpl in L; lia|].
    clear IHq. exists q.
    change (47%N :: q ++ [d]) with ((47%N :: q) ++ [d]) in E.
    rewrite rev_app_distr in E. simpl in E. apply N.eqb_eq in E. subst d.
    split; [|reflexivity].
    intros ->. simpl in L. lia.
  - intros (pat & NE & ->).
    change (47%N :: pat ++ [47%N]) with ((47%N :: pat) ++ [47%N]).
    rewrite rev_app_distr. simpl. rewrite length_app. simpl.
    apply Nat.ltb_lt. destruct pat; [contradiction|]. simpl. lia.
Qed.

(** C8 (as amended). In a group chat, a [/search] command whose query is
    empty after trimming runs no search: the handler answers once, with
    the usage instructions, and touches neither the cache nor the console.
    That answer is not the nothing-found answer of a search without
    matches, and not the failure answer. *)
Theorem blank_query_gets_usage (ctx : Context) (chatId : Z) (w : World) :
  is_group (chat ctx) = Some chatId ->
  command_query ctx = [] ->
  handleSearchCommand ctx w = (Ok tt, snd (ctx_reply Usage w))
  /\ sent (snd (ctx_reply Usage w)) = sent w ++ [Usage]
  /\ redis_store (snd (ctx_reply Usage w)) = redis_store w
  /\ console (snd (ctx_reply Usage w)) = console w
  /\ (forall q, Usage <> NothingFound q)
  /\ Usage <> SearchFailed.
Proof.
  intros G Q. repeat split; try discriminate.
  unfold handleSearchCommand, try_catch. rewrite G.
  fold (command_query ctx). rewrite Q. reflexivity.
Qed.

(** ** Text the store takes as it is *)

Lemma two_units_ind {A} (P : list A -> Prop) :
  P [] -> (forall a, P [a]) ->
  (forall a b l, P l -> P (b :: l) -> P (a :: b :: l)) ->
  forall l, P l.
Proof.
  intros P0 P1 P2 l.
  assert (H : P l /\ forall a, P (a :: l)); [|tauto].
  induction l as [|b l [IH1 IH2]]; [auto|].
  split; [apply IH2|]. intros a. apply P2; auto.
Qed.

Lemma toWellFormed_unit (a : N) (s : jsstring) :
  is_trail_surrogate a = false -> is_lead_surrogate a = false ->
  toWellFormed (a :: s) = a :: toWellFormed s
  /\ well_formed (a :: s) = (a <? 65536)%N && well_formed s.
Proof. intros T L. cbn [toWellFormed well_formed]. now rewrite T, L. Qed.

Lemma toWellFormed_well_formed (s : jsstring) :
  well_formed s = true -> toWellFormed s = s.
Proof.
  induction s as [|a|a b l IHl IHbl] using two_units_ind; [reflexivity|..].
  - cbn [well_formed toWellFormed].
    destruct (is_trail_surrogate a); [discriminate|].
    destruct (is_lead_surrogate a); [discriminate | reflexivity].
  - destruct (is_trail_surrogate a) eqn:T;
      [cbn [well_formed]; rewrite T; discriminate|].
    destruct (is_lead_surrogate a) eqn:L.
    + cbn [well_formed toWellFormed]. rewrite T, L.
      destruct (is_trail_surrogate b); [|discriminate].
      cbn [andb]. intros W. now rewrite IHl.
    + destruct (toWellFormed_unit a (b :: l) T L) as [-> ->].
      intros W. apply andb_true_iff in W as [_ W]. now rewrite IHbl.
Qed.

Lemma text_parameter_plain (s : jsstring) :
  plain_text s = true -> text_parameter s = Ok s.
Proof.
  unfold plain_text, text_parameter. intros H.
  apply andb_true_iff in H as [W Z0]. apply negb_true_iff in Z0.
  cbv zeta. rewrite toWellFormed_well_formed by exact W. now rewrite Z0.
Qed.

Lemma concat_code_points (s : jsstring) : concat (code_points s) = s.
Proof.
  induction s as [|a|a b l IHl IHbl] using two_units_ind; [reflexivity..|].
  change (code_points (a :: b :: l))
    with (if is_lead_surrogate a && is_trail_surrogate b
          then [a; b] :: code_points l
          else [a] :: code_points (b :: l)).
  destruct (is_lead_surrogate a && is_trail_surrogate b); cbn [concat app].
  - now rewrite IHl.
  - now rewrite IHbl.
Qed.

Lemma varchar_fits (n : nat) (s : jsstring) :
  (List.length (code_points s) <= n)%nat -> varchar n s = Ok s.
Proof.
  intros L. unfold varchar. cbv zeta.
  rewrite drop_ge, take_ge by exact L. cbn [forallb].
  now rewrite concat_code_points.
Qed.

Lemma names_sent_fits (u f l : option jsstring) :
  fits 255 u = true -> fits 255 f = true -> fits 255 l = true ->
  names_sent u f l = Ok (u, f, l).
Proof.
  assert (P : forall o, fits 255 o = true ->
                        optional text_parameter o = Ok o
                        /\ optional (varchar 255) o = Ok o).
  { intros [s|]; [|split; reflexivity]. cbn [fits optional]. intros H.
    apply andb_true_iff in H as [T L]. apply Nat.leb_le in L.
    now rewrite text_parameter_plain, varchar_fits. }
  intros U F L. unfold names_sent.
  destruct (P u U) as [-> ->], (P f F) as [-> ->], (P l L) as [-> ->].
  reflexivity.
Qed.

Lemma createOrUpdate_fits (userData : UserInput) :
  fits 255 (i_username userData) = true ->
  fits 255 (i_first_name userData) = true ->
  fits 255 (i_last_name userData) = true ->
  User_createOrUpdate userData = users_upsert userData.
Proof.
  intros U F L. unfold User_createOrUpdate.
  rewrite names_sent_fits by assumption.
  now destruct userData.
Qed.

(** ** The tables under the writes *)

Lemma upsert_row_id (d : UserInput) (u : UserData) :
  u_id (upsert_row d u) = u_id u.
Proof. unfold upsert_row. now destruct (u_id u =? i_id d). Qed.

Lemma upsert_row_other (d : UserInput) (u : UserData) :
  u_id u <> i_id d -> upsert_row d u = u.
Proof.
  intros H. unfold upsert_row.
  destruct (u_id u =? i_id d) eqn:E; [apply Z.eqb_eq in E; contradiction | reflexivity].
Qed.

Lemma upsert_row_match (d : UserInput) (u : UserData) :
  u_id u = i_id d ->
  upsert_row d u
  = {| u_id := i_id d; username := i_username d;
       first_name := i_first_name d; last_name := i_last_name d;
       u_created_at := u_created_at u |}.
Proof. intros H. unfold upsert_row. now rewrite H, Z.eqb_refl. Qed.

Lemma upsert_row_twice (d : UserInput) (u : UserData) :
  upsert_row d (upsert_row d u) = upsert_row d u.
Proof.
  unfold upsert_row.
  destruct (u_id u =? i_id d) eqn:E; cbn [u_id]; now rewrite E.
Qed.

Lemma filter_map_id {A} (f : A -> A) (key : A -> Z) (id : Z) (l : list A) :
  (forall a, key (f a) = key a) ->
  List.filter (fun a => key a =? id) (List.map f l)
  = List.map f (List.filter (fun a => key a =? id) l).
Proof.
  intros K. induction l as [|a l IH]; [reflexivity|].
  cbn [List.map List.filter]. rewrite K.
  destruct (key a =? id); cbn [List.map]; now rewrite IH.
Qed.

Lemma filter_nil_iff {A} (p : A -> bool) (l : list A) :
  List.filter p l = [] <-> forall a, In a l -> p a = false.
Proof.
  induction l as [|a l IH]; cbn [List.filter].
  - split; [intros _ x [] | reflexivity].
  - destruct (p a) eqn:E.
    + split; [discriminate|]. intros H.
      specialize (H a (or_introl eq_refl)). congruence.
    + rewrite IH. split.
      * intros H x [<-|I]; auto.
      * intros H x I. apply H. now right.
Qed.

Lemma map_upsert_absent (d : UserInput) (l : list UserData) :
  (forall u, In u l -> (u_id u =? i_id d) = false) ->
  List.map (upsert_row d) l = l.
Proof.
  intros H. induction l as [|u l IH]; [reflexivity|].
  cbn [List.map]. rewrite IH by (intros; apply H; now right).
  rewrite upsert_row_other; [reflexivity|].
  apply Z.eqb_neq, H. now left.
Qed.

(** The row the statement leaves is the one [findById] reads. *)
Lemma users_upsert_stored (excluded : UserInput) (w : World) :
  exists row w',
    users_upsert excluded w = (Ok row, w')
    /\ User_findById (i_id excluded) w' = (Ok (Some row), w')
    /\ username row = i_username excluded
    /\ first_name row = i_first_name excluded
    /\ last_name row = i_last_name excluded
    /\ messages w' = messages w
    /\ console w' = console w.
Proof.
  unfold users_upsert, User_findById.
  destruct (List.filter (fun u => u_id u =? i_id excluded) (users w))
    as [|old rest] eqn:F.
  - eexists. eexists. split; [reflexivity|].
    cbn [users with_users messages console username first_name last_name].
    rewrite List.filter_app, F. cbn [List.filter u_id].
    rewrite Z.eqb_refl. cbn [app head]. repeat split; auto.
  - assert (Hold : u_id old = i_id excluded).
    { assert (I : In old (List.filter (fun u => u_id u =? i_id excluded)
                                      (users w)))
        by (rewrite F; now left).
      apply List.filter_In in I. now apply Z.eqb_eq. }
    eexists. eexists. split; [reflexivity|].
    cbn [users with_users messages console].
    rewrite (filter_map_id (upsert_row excluded) u_id)
      by apply upsert_row_id.
    rewrite F. cbn [List.map head].
    rewrite !(upsert_row_match _ _ Hold).
    cbn [username first_name last_name]. repeat split; auto.
Qed.

(** X1. [createOrUpdate], for an identifier that is a safe integer and
    names the store takes as they are (no U+0000, no surrogate without
    its pair, at most 255 characters), answers with the row it leaves in
    the table: the row read back by [findById], with the names of the
    input and the creation instant of the row that was there, if any; the
    other users and the messages are as before. *)
Theorem createOrUpdate_then_findById (userData : UserInput) (w : World) :
  safe_integer (i_id userData) = true ->
  fits 255 (i_username userData) = true ->
  fits 255 (i_first_name userData) = true ->
  fits 255 (i_last_name userData) = true ->
  exists row w',
    User_createOrUpdate userData w = (Ok row, w')
    /\ User_findById (i_id userData) w' = (Ok (Some row), w')
    /\ u_id row = i_id userData
    /\ username row = i_username userData
    /\ first_name row = i_first_name userData
    /\ last_name row = i_last_name userData
    /\ u_created_at row
       = match fst (User_findById (i_id userData) w) with
         | Ok (Some old) => u_created_at old
         | _ => now w
         end
    /\ messages w' = messages w
    /\ forall id, id <> i_id userData ->
         fst (User_findById id w') = fst (User_findById id w).
Proof.
  intros _ FU FF FL. rewrite createOrUpdate_fits by assumption.
  unfold users_upsert, User_findById. cbn [fst].
  destruct (List.filter (fun u => u_id u =? i_id userData) (users w))
    as [|old rest] eqn:F.
  - eexists. eexists. split; [reflexivity|].
    cbn [users with_users messages u_id username first_name last_name
         u_created_at head].
    rewrite List.filter_app, F. cbn [List.filter u_id].
    rewrite Z.eqb_refl. cbn [app head].
    repeat split; auto.
    intros id Hid. rewrite List.filter_app. cbn [List.filter u_id].
    destruct (i_id userData =? id) eqn:E;
      [apply Z.eqb_eq in E; congruence|].
    now rewrite app_nil_r.
  - assert (Hold : u_id old = i_id userData).
    { assert (I : In old (List.filter (fun u => u_id u =? i_id userData)
                                      (users w)))
        by (rewrite F; now left).
      apply List.filter_In in I. now apply Z.eqb_eq. }
    eexists. eexists. split; [reflexivity|].
    cbn [users with_users messages].
    rewrite (filter_map_id (upsert_row userData) u_id)
      by apply upsert_row_id.
    rewrite F. cbn [List.map head].
    rewrite !(upsert_row_match _ _ Hold).
    cbn [u_id username first_name last_name u_created_at].
    repeat split; auto.
    intros id Hid.
    rewrite (filter_map_id (upsert_row userData) u_id)
      by apply upsert_row_id.
    f_equal. f_equal.
    apply map_upsert_absent. intros u I.
    apply List.filter_In in I. destruct I as [_ I].
    apply Z.eqb_eq in I. apply Z.eqb_neq. congruence.
Qed.

Lemma users_upsert_twice (excluded : UserInput) (w : World) :
  users_upsert excluded (snd (users_upsert excluded w))
  = users_upsert excluded w.
Proof.
  unfold users_upsert.
  destruct (List.filter (fun u => u_id u =? i_id excluded) (users w))
    as [|old rest] eqn:F; cbn [snd users with_users].
  - rewrite List.filter_app, F. cbn [List.filter u_id app].
    rewrite Z.eqb_refl. cbn [app].
    unfold upsert_row at 1. cbn [u_id username first_name last_name
                                  u_created_at now].
    rewrite Z.eqb_refl. f_equal.
    unfold with_users. cbn [users messages redis_store redis_up now console
                            sent].
    f_equal. rewrite List.map_app. cbn [List.map].
    rewrite map_upsert_absent by (now apply filter_nil_iff).
    unfold upsert_row. cbn [u_id username first_name last_name u_created_at].
    now rewrite Z.eqb_refl.
  - rewrite (filter_map_id (upsert_row excluded) u_id)
      by apply upsert_row_id.
    rewrite F. cbn [List.map]. rewrite upsert_row_twice. f_equal.
    unfold with_users. cbn [users messages redis_store redis_up now console
                            sent].
    f_equal. rewrite List.map_map. apply List.map_ext.
    intros u. apply upsert_row_twice.
Qed.

(** X2. [createOrUpdate] is idempotent: a second call with the same data
    answers with the same row and leaves the tables as the first did. *)
Theorem createOrUpdate_idempotent (userData : UserInput) (w : World) :
  User_createOrUpdate userData (snd (User_createOrUpdate userData w))
  = User_createOrUpdate userData w.
Proof.
  unfold User_createOrUpdate, bind, lift.
  destruct (names_sent (i_username userData) (i_first_name userData)
                       (i_last_name userData)) as [[[u f] l]|e];
    [|reflexivity].
  apply users_upsert_twice.
Qed.

Lemma existsb_eqb_In (x : Z) (l : list Z) :
  existsb (Z.eqb x) l = true <-> In x l.
Proof.
  rewrite existsb_exists. split.
  - intros [y [I E]]. apply Z.eqb_eq in E. now subst.
  - intros I. exists x. split; [assumption | apply Z.eqb_refl].
Qed.

Lemma distinct_NoDup (l : list Z) : distinct l = true <-> List.NoDup l.
Proof.
  induction l as [|x l IH]; cbn [distinct].
  - split; [constructor | reflexivity].
  - rewrite andb_true_iff, negb_true_iff, IH. split.
    + intros [E N]. constructor; [|assumption].
      intros I. apply existsb_eqb_In in I. congruence.
    + intros N. inversion N as [|? ? NI N']; subst. split; [|assumption].
      destruct (existsb (Z.eqb x) l) eqn:E; [|reflexivity].
      apply existsb_eqb_In in E. contradiction.
Qed.

Lemma existsb_key_In {A} (key : A -> Z) (id : Z) (l : list A) :
  existsb (fun a => key a =? id) l = true
  <-> exists a, In a l /\ key a = id.
Proof.
  rewrite existsb_exists. split; intros [a [I E]]; exists a; split; auto;
    now apply Z.eqb_eq.
Qed.

Lemma store_ok_spec (db : Database) :
  store_ok db = true
  <-> List.NoDup (List.map u_id (users (db_world db)))
      /\ List.NoDup (List.map m_id (messages (db_world db)))
      /\ (forall m, In m (messages (db_world db)) ->
                    exists u, In u (users (db_world db))
                              /\ u_id u = user_id m)
      /\ (forall m, In m (messages (db_world db)) ->
                    m_id m <= messages_id_seq db).
Proof.
  unfold store_ok. cbv zeta.
  rewrite !andb_true_iff, !distinct_NoDup, !forallb_forall.
  split.
  - intros [[[U M] R] S]. repeat split; auto.
    + intros m I. now apply existsb_key_In, R.
    + intros m I. now apply Z.leb_le, S.
  - intros [U [M [R S]]]. repeat split; auto.
    + intros m I. now apply existsb_key_In, R.
    + intros m I. now apply Z.leb_le, S.
Qed.

(** With the constraints of the schema, every message has exactly one
    author in [users]. *)
Lemma filter_key_NoDup {A} (key : A -> Z) (l : list A) (a : A) :
  List.NoDup (List.map key l) -> In a l ->
  List.filter (fun x => key x =? key a) l = [a].
Proof.
  induction l as [|x l IH]; intros N I; [destruct I|].
  cbn [List.map] in N. inversion N as [|? ? NI N']; subst.
  cbn [List.filter]. destruct I as [->|I].
  - rewrite Z.eqb_refl. f_equal.
    apply filter_nil_iff. intros y Iy. apply Z.eqb_neq. intros E.
    apply NI. rewrite <- E. now apply List.in_map.
  - destruct (key x =? key a) eqn:E.
    + apply Z.eqb_eq in E. exfalso. apply NI. rewrite E.
      now apply List.in_map.
    + now apply IH.
Qed.

Lemma store_ok_references_users (db : Database) :
  store_ok db = true -> references_users (db_world db) = true.
Proof.
  intros H. apply store_ok_spec in H. destruct H as [U [_ [R _]]].
  unfold references_users. apply forallb_forall. intros m I.
  destruct (R m I) as [u [Iu E]]. rewrite <- E.
  now rewrite (filter_key_NoDup u_id _ u U Iu).
Qed.

(** The constraints depend on the tables and on the sequence only. *)
Lemma store_ok_same_tables (db db' : Database) :
  users (db_world db') = users (db_world db) ->
  messages (db_world db') = messages (db_world db) ->
  messages_id_seq db' = messages_id_seq db ->
  store_ok db' = store_ok db.
Proof. intros U M S. unfold store_ok. cbv zeta. now rewrite U, M, S. Qed.

Lemma users_upsert_store_ok (d : UserInput) (db : Database) :
  store_ok db = true ->
  store_ok {| db_world := snd (users_upsert d (db_world db));
              messages_id_seq := messages_id_seq db |} = true
  /\ existsb (fun u => u_id u =? i_id d)
             (users (snd (users_upsert d (db_world db)))) = true.
Proof.
  intros H. apply store_ok_spec in H. destruct H as [U [M [R S]]].
  rewrite store_ok_spec, existsb_key_In. cbn [db_world messages_id_seq].
  unfold users_upsert.
  destruct (List.filter (fun u => u_id u =? i_id d) (users (db_world db)))
    as [|old rest] eqn:F; cbn [snd users with_users messages].
  - repeat split; auto.
    + rewrite List.map_app. cbn [List.map u_id].
      apply List.NoDup_app; auto.
      * repeat constructor. intros [].
      * intros x I [<-|[]]. apply List.in_map_iff in I.
        destruct I as [u [E I]].
        pose proof (proj1 (filter_nil_iff _ _) F u I) as E'.
        apply Z.eqb_neq in E'. contradiction.
    + intros m I. destruct (R m I) as [u [Iu E]]. exists u.
      split; [apply List.in_or_app; now left | assumption].
    + eexists. split; [apply List.in_or_app; right; now left | reflexivity].
  - assert (Iold : In old (users (db_world db)) /\ u_id old = i_id d).
    { assert (I : In old (List.filter (fun u => u_id u =? i_id d)
                                      (users (db_world db))))
        by (rewrite F; now left).
      apply List.filter_In in I. destruct I as [I E].
      now apply Z.eqb_eq in E. }
    repeat split; auto.
    + rewrite List.map_map.
      erewrite List.map_ext; [exact U|]. intros u. apply upsert_row_id.
    + intros m I. destruct (R m I) as [u [Iu E]].
      exists (upsert_row d u). split; [now apply List.in_map|].
      now rewrite upsert_row_id.
    + exists (upsert_row d old). split; [apply List.in_map; tauto|].
      rewrite upsert_row_id. tauto.
Qed.

(** A row with a text the store takes as it is and an author that is
    known is accepted. *)
Lemma Message_create_accepts (d : CreateMessageData) (db : Database) :
  store_ok db = true ->
  plain_text (c_text d) = true ->
  existsb (fun u => u_id u =? c_user_id d) (users (db_world db)) = true ->
  let row := {| m_id := messages_id_seq db + 1; user_id := c_user_id d;
                chat_id := c_chat_id d; text := c_text d;
                created_at := now (db_world db) |} in
  let db' := {| db_world := with_messages (db_world db)
                              (messages (db_world db) ++ [row]);
                messages_id_seq := messages_id_seq db + 1 |} in
  Message_create d db = (Ok row, db') /\ store_ok db' = true.
Proof.
  intros H T A. apply store_ok_spec in H. destruct H as [U [M [R S]]].
  cbv zeta. unfold Message_create.
  rewrite text_parameter_plain by exact T. cbv zeta.
  assert (E : existsb (fun m => m_id m =? messages_id_seq db + 1)
                      (messages (db_world db)) = false).
  { apply not_true_is_false. intros E.
    apply existsb_exists in E. destruct E as [m [I E]].
    apply Z.eqb_eq in E. specialize (S m I). lia. }
  rewrite E, A. split; [reflexivity|].
  apply store_ok_spec. cbn [db_world messages_id_seq messages users
                            with_messages].
  repeat split; auto.
  - rewrite List.map_app. cbn [List.map m_id].
    apply List.NoDup_app; auto.
    + repeat constructor. intros [].
    + intros x I [<-|[]]. apply List.in_map_iff in I.
      destruct I as [m [Em I]]. specialize (S m I). lia.
  - intros m I. apply List.in_app_or in I. destruct I as [I|[<-|[]]].
    + now apply R.
    + cbn [user_id]. now apply existsb_key_In.
  - intros m I. apply List.in_app_or in I. destruct I as [I|[<-|[]]].
    + specialize (S m I). lia.
    + cbn [m_id]. lia.
Qed.

(** X3. [create] under the constraints of the schema, for identifiers
    that are safe integers, a sequence that has not run out and a text
    the store takes as it is (no U+0000, no surrogate without its pair):
    the identifier of the new row is above every identifier in the table,
    so the row is never refused for its key; it is refused exactly when
    its author is not in [users], and the tables are then as before.  A
    row that is accepted is the last of the table, carries the data given
    and the current instant, and is the one [findById] reads back.  The
    constraints hold afterwards in both cases. *)
Theorem Message_create_respects_schema (d : CreateMessageData)
    (db : Database) :
  store_ok db = true ->
  safe_integer (c_user_id d) = true ->
  safe_integer (c_chat_id d) = true ->
  plain_text (c_text d) = true ->
  messages_id_seq db < 2147483647 ->
  match Message_create d db with
  | (Ok row, db') =>
      existsb (fun u => u_id u =? c_user_id d) (users (db_world db)) = true
      /\ store_ok db' = true
      /\ messages (db_world db') = messages (db_world db) ++ [row]
      /\ users (db_world db') = users (db_world db)
      /\ user_id row = c_user_id d
      /\ chat_id row = c_chat_id d
      /\ text row = c_text d
      /\ created_at row = now (db_world db)
      /\ (forall m, In m (messages (db_world db)) -> m_id m < m_id row)
      /\ Message_findById (m_id row) (db_world db')
         = (Ok (Some row), db_world db')
  | (Throw e, db') =>
      e = ForeignKeyViolation
      /\ existsb (fun u => u_id u =? c_user_id d) (users (db_world db)) = false
      /\ db_world db' = db_world db
      /\ store_ok db' = true
  end.
Proof.
  intros H _ _ T _.
  destruct (existsb (fun u => u_id u =? c_user_id d) (users (db_world db)))
    eqn:A.
  - destruct (Message_create_accepts d db H T A) as [C K]. cbv zeta in C, K.
    rewrite C.
    apply store_ok_spec in H. destruct H as [U [M [R S]]].
    cbn [db_world messages with_messages users user_id chat_id text
         created_at m_id].
    repeat split; auto.
    + intros m I. specialize (S m I). lia.
    + unfold Message_findById. cbn [messages with_messages].
      rewrite List.filter_app.
      rewrite (proj2 (filter_nil_iff _ _)).
      * cbn [List.filter m_id app]. now rewrite Z.eqb_refl.
      * intros m I. apply Z.eqb_neq. specialize (S m I). lia.
  - apply store_ok_spec in H. destruct H as [U [M [R S]]].
    unfold Message_create.
    rewrite text_parameter_plain by exact T. cbv zeta. rewrite A.
    assert (E : existsb (fun m => m_id m =? messages_id_seq db + 1)
                        (messages (db_world db)) = false).
    { apply not_true_is_false. intros E.
      apply existsb_exists in E. destruct E as [m [I E]].
      apply Z.eqb_eq in E. specialize (S m I). lia. }
    rewrite E. cbn [db_world]. repeat split; auto.
    apply store_ok_spec. cbn [db_world messages_id_seq].
    repeat split; auto.
    intros m I. specialize (S m I). lia.
Qed.

Lemma users_upsert_frame (d : UserInput) (w : World) :
  snd (users_upsert d w) = with_users w (users (snd (users_upsert d w))).
Proof.
  unfold users_upsert.
  now destruct (List.filter (fun u => u_id u =? i_id d) (users w)).
Qed.

Lemma is_group_Some (c : chat_type * Z) (chatId : Z) :
  is_group (Some c) = Some chatId ->
  c = (group, chatId) \/ c = (supergroup, chatId).
Proof.
  destruct c as [[| | |] id]; cbn [is_group]; intros E;
    try discriminate; injection E as ->; auto.
Qed.

(** X4. A text message of a group is saved.  With the constraints of the
    schema in force, for identifiers that are safe integers, a sequence
    that has not run out, and names and a text the store takes as they
    are: the handler sends nothing, the message is the new last row of
    [messages] with its author, chat and text, the author is in [users]
    under the names the message carries, the count of the chat grows by
    one, the constraints hold afterwards, and what the handler writes to
    the console starts with the line written before the statements and
    ends with the line written after them. *)
Theorem on_text_saves_the_message (message : TextMessage) (db : Database)
    (chatId : Z) :
  store_ok db = true ->
  is_group (Some (msg_chat message)) = Some chatId ->
  safe_integer (from_id message) = true ->
  safe_integer chatId = true ->
  fits 255 (from_username message) = true ->
  fits 255 (Some (from_first_name message)) = true ->
  fits 255 (from_last_name message) = true ->
  plain_text (msg_text message) = true ->
  messages_id_seq db < 2147483647 ->
  exists row db',
    on_text message db = (None, db')
    /\ store_ok db' = true
    /\ messages (db_world db') = messages (db_world db) ++ [row]
    /\ user_id row = from_id message
    /\ chat_id row = chatId
    /\ text row = msg_text message
    /\ (exists logged,
          console (db_world db') = console (db_world db) ++ logged
          /\ head logged = Some (processing_line message chatId)
          /\ last logged = Some (saved_line message))
    /\ sent (db_world db') = sent (db_world db)
    /\ (exists u,
          User_findById (from_id message) (db_world db')
          = (Ok (Some u), db_world db')
          /\ username u = from_username message
          /\ first_name u = Some (from_first_name message)
          /\ last_name u = from_last_name message)
    /\ fst (Message_getTotalCount chatId None (db_world db'))
       = match fst (Message_getTotalCount chatId None (db_world db)) with
         | Ok n => Ok (n + 1)
         | Throw e => Throw e
         end.
Proof.
  intros H G _ _ FU FF FL T _.
  set (ui := {| i_id := from_id message; i_username := from_username message;
                i_first_name := Some (from_first_name message);
                i_last_name := from_last_name message |}).
  set (cd := {| c_user_id := from_id message; c_chat_id := chatId;
                c_text := msg_text message |}).
  set (db0 := snd (on_world (console_log (processing_line message chatId))
                            db)).
  assert (Body : on_text message db
                 = match on_world (User_createOrUpdate ui) db0 with
                   | (Ok _, db1) =>
                       match Message_create cd db1 with
                       | (Ok _, db2) =>
                           (None,
                            snd (on_world (console_log (saved_line message))
                                          db2))
                       | (Throw _, db2) =>
                           (None,
                            snd (on_world
                                   (console_error "Error processing message:")
                                   db2))
                       end
                   | (Throw _, db1) =>
                       (None,
                        snd (on_world
                               (console_error "Error processing message:")
                               db1))
                   end).
  { unfold on_text.
    destruct (is_group_Some _ _ G) as [-> | ->]; reflexivity. }
  rewrite Body. clear Body.
  assert (H0 : store_ok db0 = true)
    by (rewrite <- H; now apply store_ok_same_tables).
  assert (Fit : User_createOrUpdate ui = users_upsert ui)
    by now apply createOrUpdate_fits.
  rewrite Fit. unfold on_world at 1.
  destruct (users_upsert_stored ui (db_world db0))
    as [urow [w1 [CU [FB [N1 [N2 [N3 [Ms Cs]]]]]]]].
  pose proof (users_upsert_store_ok ui db0 H0) as [K1 A1].
  pose proof (users_upsert_frame ui (db_world db0)) as Fr.
  rewrite CU in K1, A1, Fr. cbn [snd] in K1, A1, Fr. rewrite CU.
  destruct (Message_create_accepts cd _ K1 T A1) as [C K2].
  cbv zeta in C, K2. cbn [db_world messages_id_seq] in C, K2.
  rewrite C.
  eexists. eexists. split; [reflexivity|].
  split; [rewrite <- K2; now apply store_ok_same_tables|].
  cbn [on_world console_log snd db_world messages with_messages user_id
       chat_id text console sent].
  split; [now rewrite Ms|].
  repeat (split; [reflexivity|]).
  split.
  { exists [processing_line message chatId; saved_line message].
    split; [|split; reflexivity].
    rewrite Cs. cbn [db0 on_world console_log snd db_world console].
    now rewrite <- app_assoc. }
  split; [rewrite Fr; reflexivity|].
  split.
  - exists urow. unfold User_findById in *. cbn [users with_messages].
    injection FB as FB. rewrite FB. repeat split; auto.
  - unfold Message_getTotalCount. cbn [fst messages with_messages dateFilter].
    rewrite Ms. change (messages (db_world db0)) with (messages (db_world db)).
    rewrite List.filter_app, List.length_app.
    cbn [List.filter chat_id cd c_chat_id]. rewrite Z.eqb_refl.
    cbn [andb List.length]. f_equal. lia.
Qed.

Lemma filter_all {A} (p : A -> bool) (l : list A) :
  (forall a, In a l -> p a = true) -> List.filter p l = l.
Proof.
  intros H. induction l as [|a l IH]; [reflexivity|].
  cbn [List.filter]. rewrite H by now left.
  f_equal. apply IH. intros; apply H; now right.
Qed.

Lemma NoDup_map_filter {A B} (f : A -> B) (p : A -> bool) (l : list A) :
  List.NoDup (List.map f l) -> List.NoDup (List.map f (List.filter p l)).
Proof.
  induction l as [|a l IH]; intros N; [constructor|].
  cbn [List.map] in N. inversion N as [|? ? NI N']; subst.
  cbn [List.filter]. destruct (p a); [|now apply IH].
  cbn [List.map]. constructor; [|now apply IH].
  intros I. apply NI. apply List.in_map_iff in I.
  destruct I as [x [E I]]. apply List.filter_In in I.
  rewrite <- E. apply List.in_map. tauto.
Qed.

Lemma filter_negb_In {A} (key : A -> Z) (id : Z) (l : list A) (a : A) :
  In a (List.filter (fun x => negb (key x =? id)) l)
  <-> In a l /\ key a <> id.
Proof.
  rewrite List.filter_In, negb_true_iff, Z.eqb_neq. reflexivity.
Qed.

(** X5. [delete] of a user under the constraints of the schema: the
    answer tells whether the user was there; afterwards the user is not
    found, the table of messages holds exactly the messages of the other
    users, the other users are as before, and the constraints hold. *)
Theorem User_delete_cascades (id : Z) (db : Database) :
  store_ok db = true ->
  exists r w',
    User_delete id (db_world db) = (Ok r, w')
    /\ store_ok {| db_world := w'; messages_id_seq := messages_id_seq db |}
       = true
    /\ (r = true
        <-> exists u, fst (User_findById id (db_world db)) = Ok (Some u))
    /\ User_findById id w' = (Ok None, w')
    /\ (forall m, In m (messages w')
                  <-> In m (messages (db_world db)) /\ user_id m <> id)
    /\ (forall u, In u (users w')
                  <-> In u (users (db_world db)) /\ u_id u <> id).
Proof.
  intros H. apply store_ok_spec in H. destruct H as [U [M [R S]]].
  unfold User_delete. cbv zeta.
  assert (Casc :
    match List.filter (fun u => u_id u =? id) (users (db_world db)) with
    | [] => messages (db_world db)
    | _ :: _ => List.filter (fun m => negb (user_id m =? id))
                            (messages (db_world db))
    end
    = List.filter (fun m => negb (user_id m =? id)) (messages (db_world db))).
  { destruct (List.filter (fun u => u_id u =? id) (users (db_world db)))
      eqn:F; [|reflexivity].
    symmetry. apply filter_all. intros m I. apply negb_true_iff, Z.eqb_neq.
    destruct (R m I) as [u [Iu E]].
    pose proof (proj1 (filter_nil_iff _ _) F u Iu) as N.
    apply Z.eqb_neq in N. congruence. }
  rewrite Casc. eexists. eexists. split; [reflexivity|].
  cbn [users messages with_users with_messages].
  split; [|split; [|split; [|split]]].
  - apply store_ok_spec.
    cbn [db_world messages_id_seq users messages with_users with_messages].
    repeat split.
    + now apply NoDup_map_filter.
    + now apply NoDup_map_filter.
    + intros m I. apply filter_negb_In in I. destruct I as [I N].
      destruct (R m I) as [u [Iu E]]. exists u. split; [|assumption].
      apply filter_negb_In. split; [assumption | congruence].
    + intros m I. apply filter_negb_In in I. now apply S.
  - unfold User_findById. cbn [fst].
    destruct (List.filter (fun u => u_id u =? id) (users (db_world db)))
      as [|u l]; cbn [List.length head].
    + split; [discriminate | intros [u E]; discriminate].
    + split; [intros _; now exists u | intros _].
      apply Z.ltb_lt. lia.
  - unfold User_findById. cbn [users with_users with_messages].
    rewrite (proj2 (filter_nil_iff _ _)); [reflexivity|].
    intros u I. apply filter_negb_In in I. now apply Z.eqb_neq.
  - intros m. apply filter_negb_In.
  - intros u. apply filter_negb_In.
Qed.

Lemma filter_filter_negb {A} (key : A -> Z) (id id' : Z) (l : list A) :
  id' <> id ->
  List.filter (fun x => key x =? id')
              (List.filter (fun x => negb (key x =? id)) l)
  = List.filter (fun x => key x =? id') l.
Proof.
  intros N. induction l as [|a l IH]; [reflexivity|].
  cbn [List.filter].
  destruct (key a =? id) eqn:E; cbn [negb List.filter].
  - apply Z.eqb_eq in E.
    destruct (key a =? id') eqn:E'; [apply Z.eqb_eq in E'; congruence|].
    exact IH.
  - destruct (key a =? id'); now rewrite IH.
Qed.

Lemma filter_negb_same {A} (key : A -> Z) (id : Z) (l : list A) :
  List.filter (fun x => key x =? id)
              (List.filter (fun x => negb (key x =? id)) l) = [].
Proof.
  apply filter_nil_iff. intros a I. apply filter_negb_In in I.
  now apply Z.eqb_neq.
Qed.

(** X6. [delete] of a message tells whether the message was there;
    afterwards it is not found, a second [delete] answers false, and
    every other message is read as before. *)
Theorem Message_delete_reports_existence (id : Z) (w : World) :
  exists r w',
    Message_delete id w = (Ok r, w')
    /\ (r = true <-> exists m, fst (Message_findById id w) = Ok (Some m))
    /\ Message_findById id w' = (Ok None, w')
    /\ fst (Message_delete id w') = Ok false
    /\ users w' = users w
    /\ forall id', id' <> id ->
         fst (Message_findById id' w') = fst (Message_findById id' w).
Proof.
  unfold Message_delete, Message_findById.
  eexists. eexists. split; [reflexivity|].
  cbn [fst messages with_messages users].
  rewrite (filter_negb_same m_id).
  repeat split; auto.
  - destruct (List.filter (fun m => m_id m =? id) (messages w)) as [|m l];
      cbn [List.length head]; [discriminate | intros _; now exists m].
  - destruct (List.filter (fun m => m_id m =? id) (messages w)) as [|m l];
      cbn [List.length head]; [intros [m E]; discriminate | intros _].
    apply Z.ltb_lt. lia.
  - intros id' N. now rewrite (filter_filter_negb m_id).
Qed.

Lemma user_rows_all (w : World) (userId : Z) :
  user_rows w userId None
  = List.filter (fun m => user_id m =? userId) (messages w).
Proof.
  unfold user_rows. apply List.filter_ext. intros m. apply andb_true_r.
Qed.

(** X7. [deleteByUserId] answers with the number of messages that
    [getStats] counted for the user over all time; afterwards [getStats]
    counts none and has no first or last message, a second call deletes
    nothing, and the users and the messages of the other users are as
    before. *)
Theorem Message_deleteByUserId_count (userId : Z) (w : World) :
  exists n w',
    Message_deleteByUserId userId w = (Ok n, w')
    /\ (exists s, fst (User_getStats userId None w) = Ok (Some s)
                  /\ s_message_count s = n)
    /\ fst (User_getStats userId None w')
       = Ok (Some {| s_message_count := 0; first_message := None;
                     last_message := None |})
    /\ fst (Message_deleteByUserId userId w') = Ok 0
    /\ users w' = users w
    /\ forall m, In m (messages w')
                 <-> In m (messages w) /\ user_id m <> userId.
Proof.
  unfold Message_deleteByUserId, User_getStats, get_user_stats.
  eexists. eexists. split; [reflexivity|].
  cbn [fst head or_null]. rewrite !user_rows_all.
  cbn [messages with_messages users].
  rewrite (filter_negb_same user_id). cbn [List.length min_created max_created].
  split; [eexists; split; reflexivity|].
  repeat (split; [reflexivity|]).
  intros m. apply filter_negb_In.
Qed.

Lemma updated_row_id (updates : UserUpdates) (u : UserData) :
  u_id (updated_row updates u) = u_id u.
Proof. reflexivity. Qed.

(** X8. [update], for an identifier that is a safe integer and names
    the store takes as they are: with no field given, the answer is what
    [findById] reads and nothing is written; otherwise the user, if
    there, is answered with each given field changed, the others and the
    creation instant kept, and is read back so; a user that is not there
    is answered by null.  The other users and the messages are never
    touched. *)
Theorem User_update_changes_given_fields (id : Z) (updates : UserUpdates)
    (w : World) :
  safe_integer id = true ->
  fits 255 (upd_username updates) = true ->
  fits 255 (upd_first_name updates) = true ->
  fits 255 (upd_last_name updates) = true ->
  exists r w',
    User_update id updates w = (Ok r, w')
    /\ r = match fst (User_findById id w) with
           | Ok (Some u) => Some (updated_row updates u)
           | _ => None
           end
    /\ (no_updates updates = true -> w' = w)
    /\ fst (User_findById id w') = Ok r
    /\ messages w' = messages w
    /\ forall id', id' <> id ->
         fst (User_findById id' w') = fst (User_findById id' w).
Proof.
  intros _ FU FF FL. unfold User_update.
  destruct (no_updates updates) eqn:N.
  - unfold User_findById. eexists. eexists. split; [reflexivity|].
    cbn [fst].
    assert (Same : forall u, updated_row updates u = u).
    { intros [i un fn ln c]. unfold no_updates in N. unfold updated_row.
      destruct (upd_username updates); [discriminate|].
      destruct (upd_first_name updates); [discriminate|].
      destruct (upd_last_name updates); [discriminate|]. reflexivity. }
    repeat split; auto.
    destruct (List.filter (fun u => u_id u =? id) (users w)) as [|u l];
      cbn [head]; [reflexivity | now rewrite Same].
  - unfold bind, lift. rewrite names_sent_fits by assumption.
    replace {| upd_username := upd_username updates;
               upd_first_name := upd_first_name updates;
               upd_last_name := upd_last_name updates |}
      with updates by now destruct updates.
    unfold User_findById. eexists. eexists. split; [reflexivity|].
    cbn [fst users with_users messages].
    assert (Tab : forall id',
      List.filter (fun u => u_id u =? id')
        (List.map (fun u => if u_id u =? id then updated_row updates u else u)
                  (users w))
      = List.map (fun u => if u_id u =? id then updated_row updates u else u)
          (List.filter (fun u => u_id u =? id') (users w))).
    { intros id'. apply (filter_map_id _ u_id). intros u.
      now destruct (u_id u =? id). }
    repeat split; auto.
    + now destruct (List.filter (fun u => u_id u =? id) (users w)).
    + discriminate.
    + rewrite Tab.
      destruct (List.filter (fun u => u_id u =? id) (users w)) as [|u l] eqn:F;
        [reflexivity|].
      cbn [List.map head].
      assert (E : (u_id u =? id) = true).
      { assert (I : In u (List.filter (fun u => u_id u =? id) (users w)))
          by (rewrite F; now left).
        now apply List.filter_In in I. }
      now rewrite E.
    + intros id' Nid. rewrite Tab. f_equal. f_equal.
      erewrite List.map_ext_in; [apply List.map_id|].
      intros u I. apply List.filter_In in I. destruct I as [_ I].
      apply Z.eqb_eq in I.
      destruct (u_id u =? id) eqn:E; [apply Z.eqb_eq in E; congruence|].
      reflexivity.
Qed.

(** ** Reads of the tables *)

Lemma limit_offset_Ok {A} (n o : Z) (l : list A) :
  0 <= n -> 0 <= o ->
  limit_offset n o l = Ok (take (Z.to_nat n) (drop (Z.to_nat o) l)).
Proof.
  intros Hn Ho. unfold limit_offset.
  replace (n <? 0) with false by (symmetry; apply Z.ltb_ge; lia).
  replace (o <? 0) with false by (symmetry; apply Z.ltb_ge; lia).
  reflexivity.
Qed.

Lemma StronglySorted_take_drop {A} (R : relation A) (n o : nat) (l : list A) :
  StronglySorted R l -> StronglySorted R (take n (drop o l)).
Proof.
  intros S.
  rewrite <- (take_drop o l) in S. apply StronglySorted_app_1_r in S.
  rewrite <- (take_drop n (drop o l)) in S.
  now apply StronglySorted_app_1_l in S.
Qed.

Lemma In_take_drop {A} (n o : nat) (l : list A) (a : A) :
  In a (take n (drop o l)) -> In a l.
Proof.
  intros I.
  rewrite <- (take_drop o l). apply List.in_or_app. right.
  rewrite <- (take_drop n (drop o l)). apply List.in_or_app. now left.
Qed.

(** X9. [findByChatId] reads the chat page by page: the rows from
    [offset] on, [limit] of them at most, all of the chat, newest first;
    a page and the page that starts where it ends are together the page
    of their joint size. *)
Theorem findByChatId_pages (chatId n m o : Z) (w : World) :
  0 <= n -> 0 <= m -> 0 <= o ->
  exists a b,
    Message_findByChatId chatId n o w = (Ok a, w)
    /\ Message_findByChatId chatId m (o + n) w = (Ok b, w)
    /\ Message_findByChatId chatId (n + m) o w = (Ok (a ++ b), w)
    /\ Z.of_nat (List.length a) <= n
    /\ StronglySorted newer_first (a ++ b)
    /\ forall x, In x (a ++ b) -> In x (messages w) /\ chat_id x = chatId.
Proof.
  intros Hn Hm Ho. unfold Message_findByChatId.
  rewrite !limit_offset_Ok by lia.
  eexists. eexists. split; [reflexivity|]. split; [reflexivity|].
  rewrite !Z2Nat.inj_add by lia.
  rewrite <- drop_drop, take_take_drop.
  split; [reflexivity|]. split; [|split].
  - rewrite length_take. lia.
  - apply StronglySorted_take_drop, order_by_created_desc_sorted.
  - intros x I. apply In_take_drop in I.
    apply list_elem_of_In in I.
    rewrite order_by_created_desc_perm in I.
    apply list_elem_of_In, List.filter_In in I.
    destruct I as [I E]. now apply Z.eqb_eq in E.
Qed.

(** X10. [findByUserId] and [getRecentMessages] read the same rows: for
    a limit that is not negative, the first page of [findByUserId] holds
    the newest messages of the user, newest first, as many as the limit
    allows, and [getRecentMessages] answers with that page in reverse; a
    page that starts after the last message of the user is empty.  Both
    are refused for a negative limit. *)
Theorem findByUserId_and_recent_messages (userId n : Z) (w : World) :
  let mine := List.filter (fun m => user_id m =? userId) (messages w) in
  (0 <= n ->
   exists rows,
     Message_findByUserId userId n 0 w = (Ok rows, w)
     /\ Message_getRecentMessages userId n w = (Ok (rev rows), w)
     /\ Z.of_nat (List.length rows) = Z.min n (Z.of_nat (List.length mine))
     /\ StronglySorted newer_first rows
     /\ (forall x, In x rows -> In x (messages w) /\ user_id x = userId)
     /\ Message_findByUserId userId n (Z.of_nat (List.length mine)) w
        = (Ok [], w))
  /\ (n < 0 ->
      Message_findByUserId userId n 0 w = (Throw NegativeLimit, w)
      /\ Message_getRecentMessages userId n w = (Throw NegativeLimit, w)).
Proof.
  cbv zeta. unfold Message_findByUserId, Message_getRecentMessages. split.
  - intros Hn. rewrite !limit_offset_Ok by lia.
    eexists. split; [reflexivity|]. split; [reflexivity|].
    rewrite Nat2Z.id. cbn [Z.to_nat]. rewrite drop_0.
    split; [|split; [|split]].
    + rewrite length_take,
        (Permutation_length (order_by_created_desc_perm _)). lia.
    + rewrite <- (drop_0 (order_by_created_desc _)).
      apply StronglySorted_take_drop, order_by_created_desc_sorted.
    + intros x I.
      rewrite <- (drop_0 (order_by_created_desc _)) in I.
      apply In_take_drop in I. apply list_elem_of_In in I.
      rewrite order_by_created_desc_perm in I.
      apply list_elem_of_In, List.filter_In in I.
      destruct I as [I E]. now apply Z.eqb_eq in E.
    + rewrite drop_ge, take_nil; [reflexivity|].
      rewrite (Permutation_length (order_by_created_desc_perm _)). lia.
  - intros Hn. unfold limit_offset.
    replace (n <? 0) with true by (symmetry; apply Z.ltb_lt; lia).
    split; reflexivity.
Qed.

(** X11. [findByDateRange] answers with exactly the messages of the chat
    whose instant lies between the two ends, both included, newest
    first; with the ends in the wrong order it answers with none. *)
Theorem findByDateRange_is_inclusive (chatId startDate endDate : Z)
    (w : World) :
  exists rows,
    Message_findByDateRange chatId startDate endDate w = (Ok rows, w)
    /\ StronglySorted newer_first rows
    /\ (forall x, In x rows
                  <-> In x (messages w) /\ chat_id x = chatId
                      /\ startDate <= created_at x <= endDate)
    /\ List.length rows
       = List.length
           (List.filter (fun x => (chat_id x =? chatId)
                                  && (startDate <=? created_at x)
                                  && (created_at x <=? endDate))
                        (messages w))
    /\ (endDate < startDate -> rows = []).
Proof.
  unfold Message_findByDateRange. eexists. split; [reflexivity|].
  assert (Mem : forall x,
    In x (order_by_created_desc
            (List.filter (fun x => (chat_id x =? chatId)
                                   && (startDate <=? created_at x)
                                   && (created_at x <=? endDate))
                         (messages w)))
    <-> In x (messages w) /\ chat_id x = chatId
        /\ startDate <= created_at x <= endDate).
  { intros x. rewrite <- list_elem_of_In, order_by_created_desc_perm,
      list_elem_of_In, List.filter_In, !andb_true_iff, Z.eqb_eq, !Z.leb_le.
    tauto. }
  split; [apply order_by_created_desc_sorted|].
  split; [exact Mem|]. split.
  - apply Permutation_length, order_by_created_desc_perm.
  - intros Lt. rewrite (proj2 (filter_nil_iff _ _)); [reflexivity|].
    intros x _.
    destruct (startDate <=? created_at x) eqn:E1,
             (created_at x <=? endDate) eqn:E2;
      rewrite ?andb_false_r; try reflexivity.
    apply Z.leb_le in E1, E2. lia.
Qed.

Lemma insert_by_count_perm (t : TopUser) (l : list TopUser) :
  insert_by_count t l ≡ₚ t :: l.
Proof.
  induction l as [|x l IH]; cbn [insert_by_count]; [reflexivity|].
  destruct (message_count x <=? message_count t); [reflexivity|].
  rewrite IH. apply perm_swap.
Qed.

Lemma sort_by_count_perm (l : list TopUser) :
  fold_right insert_by_count [] l ≡ₚ l.
Proof.
  induction l as [|t l IH]; cbn [fold_right]; [reflexivity|].
  rewrite insert_by_count_perm. now rewrite IH.
Qed.

Lemma insert_by_count_sorted (t : TopUser) (l : list TopUser) :
  StronglySorted more_active l ->
  StronglySorted more_active (insert_by_count t l).
Proof.
  induction 1 as [|x l S IH F]; cbn [insert_by_count].
  - repeat constructor.
  - destruct (message_count x <=? message_count t) eqn:E.
    + apply Z.leb_le in E. constructor; [now constructor|].
      constructor; [exact E|].
      eapply Forall_impl; [exact F|]. unfold more_active. intros; lia.
    + apply Z.leb_gt in E. constructor; [exact IH|].
      rewrite insert_by_count_perm. constructor; [|exact F].
      unfold more_active. lia.
Qed.

Lemma sort_by_count_sorted (l : list TopUser) :
  StronglySorted more_active (fold_right insert_by_count [] l).
Proof.
  induction l; cbn [fold_right];
    [constructor | now apply insert_by_count_sorted].
Qed.

Lemma counted_perm (l l' : list TopUser) : l ≡ₚ l' -> counted l = counted l'.
Proof.
  unfold counted. induction 1; cbn [List.map fold_right]; lia.
Qed.

Lemma counted_app (l l' : list TopUser) :
  counted (l ++ l') = counted l + counted l'.
Proof.
  unfold counted. induction l as [|t l IH]; cbn [app List.map fold_right];
    lia.
Qed.

(** The number of messages among [ms] that satisfy [p], by author: each
    message is counted for the one user that wrote it. *)
Lemma count_by_author (us : list UserData) (ms : list MessageData)
    (p : MessageData -> bool) :
  forallb (fun m => Nat.eqb (List.length
                               (List.filter (fun u => u_id u =? user_id m) us))
                            1) ms = true ->
  fold_right Z.add 0
    (List.map (fun u => Z.of_nat (List.length
                 (List.filter (fun m => (user_id m =? u_id u) && p m) ms)))
              us)
  = Z.of_nat (List.length (List.filter p ms)).
Proof.
  induction ms as [|m ms IH]; intros R.
  - cbn [List.filter List.length]. induction us as [|u us IHu];
      cbn [List.map fold_right]; [reflexivity | now rewrite IHu].
  - cbn [forallb] in R. apply andb_true_iff in R. destruct R as [R1 R].
    apply Nat.eqb_eq in R1. specialize (IH R).
    assert (Step : forall us',
      fold_right Z.add 0
        (List.map (fun u => Z.of_nat (List.length
                     (List.filter (fun m => (user_id m =? u_id u) && p m)
                                  (m :: ms)))) us')
      = (if p m
         then Z.of_nat (List.length
                (List.filter (fun u => u_id u =? user_id m) us'))
         else 0)
        + fold_right Z.add 0
            (List.map (fun u => Z.of_nat (List.length
                         (List.filter (fun m => (user_id m =? u_id u) && p m)
                                      ms))) us')).
    { induction us' as [|u us' IHu]; cbn [List.map fold_right].
      - cbn [List.filter List.length]. now destruct (p m).
      - rewrite IHu. cbn [List.filter].
        rewrite (Z.eqb_sym (u_id u) (user_id m)).
        destruct (user_id m =? u_id u), (p m); cbn [andb List.length]; lia. }
    rewrite Step, IH, R1. cbn [List.filter].
    destruct (p m); cbn [List.length]; lia.
Qed.

Lemma counted_positive_rows {A} (mk : A -> TopUser) (l : list A) :
  (forall a, 0 <= message_count (mk a)) ->
  counted (List.map mk (List.filter (fun a => 0 <? message_count (mk a)) l))
  = fold_right Z.add 0 (List.map (fun a => message_count (mk a)) l).
Proof.
  intros Pos. unfold counted.
  induction l as [|a l IH]; [reflexivity|].
  cbn [List.filter List.map fold_right].
  destruct (0 <? message_count (mk a)) eqn:E; cbn [List.map fold_right].
  - now rewrite IH.
  - apply Z.ltb_ge in E. specialize (Pos a). rewrite IH. lia.
Qed.

(** The rows of [getUserStats]: the users with a message in the chat and
    period, made into rows and put in order. *)
Lemma getUserStats_rows (chatId : Z) (daysLimit : option Z) (w : World) :
  let count := fun u : UserData =>
    Z.of_nat (List.length
      (List.filter (fun m => (user_id m =? u_id u) && (chat_id m =? chatId)
                             && dateFilter w daysLimit m) (messages w))) in
  let mk := fun u : UserData =>
    {| t_user_id := u_id u; t_username := username u;
       t_first_name := first_name u; t_last_name := last_name u;
       message_count := count u |} in
  exists stats,
    Message_getUserStats chatId daysLimit w = (Ok stats, w)
    /\ stats ≡ₚ List.map mk (List.filter (fun u => 0 <? count u) (users w))
    /\ StronglySorted more_active stats.
Proof.
  cbv zeta. eexists. split; [reflexivity|].
  split; [apply sort_by_count_perm | apply sort_by_count_sorted].
Qed.

Lemma getUserStats_counted (chatId : Z) (daysLimit : option Z) (w : World) :
  references_users w = true ->
  exists stats,
    Message_getUserStats chatId daysLimit w = (Ok stats, w)
    /\ counted stats
       = Z.of_nat (List.length
           (List.filter (fun m => (chat_id m =? chatId)
                                  && dateFilter w daysLimit m) (messages w)))
    /\ Forall (fun t => 1 <= message_count t) stats
    /\ StronglySorted more_active stats.
Proof.
  intros R.
  destruct (getUserStats_rows chatId daysLimit w) as [stats [E [P S]]].
  cbv zeta in P. exists stats. split; [exact E|].
  set (count := fun u : UserData =>
         Z.of_nat (List.length
           (List.filter (fun m => (user_id m =? u_id u) && (chat_id m =? chatId)
                                  && dateFilter w daysLimit m) (messages w))))
    in *.
  set (mk := fun u : UserData =>
         {| t_user_id := u_id u; t_username := username u;
            t_first_name := first_name u; t_last_name := last_name u;
            message_count := count u |}) in *.
  split; [|split; [|exact S]].
  - rewrite (counted_perm _ _ P).
    rewrite (counted_positive_rows mk) by (intros u; cbn; unfold count; lia).
    cbn [mk message_count]. unfold count.
    rewrite <- (count_by_author (users w) (messages w)
                  (fun m => (chat_id m =? chatId) && dateFilter w daysLimit m)
                  R).
    f_equal. apply List.map_ext. intros u. f_equal. f_equal.
    apply List.filter_ext. intros m. now rewrite andb_assoc.
  - apply List.Forall_forall. intros t I.
    apply list_elem_of_In in I. rewrite P in I.
    apply list_elem_of_In, List.in_map_iff in I.
    destruct I as [u [<- I]]. apply List.filter_In in I.
    destruct I as [_ I]. apply Z.ltb_lt in I. cbn [mk message_count] in *. lia.
Qed.

(** X12. [getUserStats] accounts for every message: when every message
    has its author in [users], the counts of the rows add up to what
    [getTotalCount] answers for the same chat and period.  Every row
    counts at least one message, a user has at most the rows [users]
    has for it, and the rows come largest count first. *)
Theorem getUserStats_accounts_for_every_message (chatId : Z)
    (daysLimit : option Z) (w : World) :
  references_users w = true ->
  exists stats total,
    Message_getUserStats chatId daysLimit w = (Ok stats, w)
    /\ Message_getTotalCount chatId daysLimit w = (Ok total, w)
    /\ counted stats = total
    /\ Forall (fun t => 1 <= message_count t) stats
    /\ StronglySorted more_active stats
    /\ forall t, In t stats ->
         exists u, In u (users w) /\ u_id u = t_user_id t
                   /\ username u = t_username t.
Proof.
  intros R.
  destruct (getUserStats_counted chatId daysLimit w R)
    as [stats [E [C [F S]]]].
  exists stats. eexists. split; [exact E|]. split; [reflexivity|].
  split; [exact C|]. split; [exact F|]. split; [exact S|].
  destruct (getUserStats_rows chatId daysLimit w) as [stats' [E' [P _]]].
  rewrite E in E'. injection E' as <-. cbv zeta in P.
  intros t I. apply list_elem_of_In in I. rewrite P in I.
  apply list_elem_of_In, List.in_map_iff in I.
  destruct I as [u [<- I]]. apply List.filter_In in I.
  exists u. cbn [t_user_id t_username]. tauto.
Qed.

(** X13. [getTopUsers] answers with the first [limit] rows of
    [getUserStats], so with the most active users: no row left out
    counts more messages than a row answered. *)
Theorem getTopUsers_most_active (chatId : Z) (limit : nat)
    (daysLimit : option Z) (w : World) :
  exists top rest,
    Message_getTopUsers chatId limit daysLimit w = (Ok top, w)
    /\ Message_getUserStats chatId daysLimit w = (Ok (top ++ rest), w)
    /\ List.length top = Nat.min limit (List.length (top ++ rest))
    /\ counted top <= counted (top ++ rest)
    /\ forall t t', In t top -> In t' rest ->
         message_count t' <= message_count t.
Proof.
  unfold Message_getTopUsers, bind, ret.
  destruct (Message_getUserStats chatId daysLimit w) as [r w'] eqn:E.
  pose proof E as E0. unfold Message_getUserStats in E. cbv zeta in E.
  injection E as Er Ew. subst w'.
  destruct r as [stats|e]; [|discriminate].
  exists (take limit stats), (drop limit stats).
  rewrite take_drop. split; [reflexivity|]. split; [reflexivity|].
  assert (S : StronglySorted more_active stats).
  { injection Er as <-. apply sort_by_count_sorted. }
  assert (Pos : Forall (fun t => 0 <= message_count t) stats).
  { injection Er as <-. apply List.Forall_forall. intros t I.
    apply list_elem_of_In in I. rewrite sort_by_count_perm in I.
    apply list_elem_of_In, List.in_map_iff in I.
    destruct I as [u [<- I]]. cbn [message_count]. lia. }
  split; [apply length_take|]. split.
  - rewrite <- (take_drop limit stats) at 2. rewrite counted_app.
    assert (P : forall l, Forall (fun t => 0 <= message_count t) l ->
                          0 <= counted l).
    { unfold counted. induction 1; cbn [List.map fold_right]; lia. }
    assert (0 <= counted (drop limit stats)); [|lia].
    apply P. rewrite <- (take_drop limit stats) in Pos.
    now apply Forall_app in Pos.
  - intros t t' I I'. rewrite <- (take_drop limit stats) in S.
    apply (StronglySorted_app_1_elem_of _ _ _ t t' S);
      now apply list_elem_of_In.
Qed.

Lemma filter_length_le {A} (p q : A -> bool) (l : list A) :
  (forall a, p a = true -> q a = true) ->
  (List.length (List.filter p l) <= List.length (List.filter q l))%nat.
Proof.
  intros H. induction l as [|a l IH]; [reflexivity|].
  cbn [List.filter]. destruct (p a) eqn:P.
  - rewrite (H a P). cbn [List.length]. lia.
  - destruct (q a); cbn [List.length]; lia.
Qed.

(** X14. [getTotalCount] grows with the period: a chat has at most as
    many messages in the last [d1] days as in the last [d2] days when
    [d1 <= d2], and at most as many in any number of days as over all
    time; a limit of zero days counts like no limit. *)
Theorem getTotalCount_grows_with_period (chatId d1 d2 : Z) (w : World) :
  0 < d1 <= d2 ->
  exists n1 n2 n,
    Message_getTotalCount chatId (Some d1) w = (Ok n1, w)
    /\ Message_getTotalCount chatId (Some d2) w = (Ok n2, w)
    /\ Message_getTotalCount chatId None w = (Ok n, w)
    /\ Message_getTotalCount chatId (Some 0) w = (Ok n, w)
    /\ 0 <= n1 <= n2 /\ n2 <= n.
Proof.
  intros D. unfold Message_getTotalCount.
  eexists. eexists. eexists.
  split; [reflexivity|]. split; [reflexivity|]. split; [reflexivity|].
  split; [reflexivity|].
  assert (L1 : Nat.le
          (List.length
            (List.filter (fun m => (chat_id m =? chatId)
                                   && dateFilter w (Some d1) m) (messages w)))
          (List.length
            (List.filter (fun m => (chat_id m =? chatId)
                                   && dateFilter w (Some d2) m) (messages w)))).
  { apply filter_length_le. intros m. rewrite !andb_true_iff.
    intros [C F]. split; [assumption|]. unfold dateFilter in *.
    destruct (d1 =? 0) eqn:E1; [apply Z.eqb_eq in E1; lia|].
    destruct (d2 =? 0) eqn:E2; [reflexivity|].
    apply Z.leb_le in F. apply Z.leb_le. unfold day_ms in *. nia. }
  assert (L2 : Nat.le
          (List.length
            (List.filter (fun m => (chat_id m =? chatId)
                                   && dateFilter w (Some d2) m) (messages w)))
          (List.length
            (List.filter (fun m => (chat_id m =? chatId)
                                   && dateFilter w None m) (messages w)))).
  { apply filter_length_le. intros m. rewrite !andb_true_iff.
    intros [C F]. split; [assumption | reflexivity]. }
  lia.
Qed.

(** ** Wildcards in a literal query *)




End Bot.

(** ** Numbers in callback data *)

Lemma digit_cases (c : N) :
  in_range 48 57 c = true ->
  In c [48; 49; 50; 51; 52; 53; 54; 55; 56; 57]%N.
Proof.
  unfold in_range. rewrite andb_true_iff, !N.leb_le. intros [L H].
  cbn [In]. lia.
Qed.

Lemma digit_value_digit (c : N) :
  in_range 48 57 c = true -> digit_value 10 c = Some (Z.of_N c - 48).
Proof.
  intros D. apply digit_cases in D. cbn [In] in D.
  repeat (destruct D as [<-|D]; [reflexivity|]). destruct D.
Qed.

Lemma digits_acc_of_uint_acc (d : Decimal.uint) (acc : positive) :
  digits_acc 10 (Z.pos acc) (uint_units d) = Z.pos (Pos.of_uint_acc d acc).
Proof.
  revert acc. induction d; intros acc; cbn [uint_units Pos.of_uint_acc];
    [reflexivity|..];
    cbn [digits_acc]; rewrite digit_value_digit by reflexivity;
    rewrite <- IHd; f_equal; lia.
Qed.

Lemma digits_acc_of_uint (d : Decimal.uint) :
  digits_acc 10 0 (uint_units d) = Z.of_N (Pos.of_uint d).
Proof.
  induction d; cbn [uint_units Pos.of_uint]; [reflexivity|..];
    cbn [digits_acc]; rewrite digit_value_digit by reflexivity;
    [exact IHd|..]; apply digits_acc_of_uint_acc.
Qed.

(** [parseInt] on a run of decimal digits, with or without a minus sign,
    reads the whole run. *)
Lemma parseInt_digits (s : jsstring) :
  s <> [] ->
  Forall (fun c => in_range 48 57 c = true) s ->
  parseInt s = Some (digits_acc 10 0 s)
  /\ parseInt (45%N :: s) = Some (- digits_acc 10 0 s).
Proof.
  intros NE D. destruct s as [|c s]; [contradiction|].
  inversion D as [|? ? Dc Ds]; subst.
  assert (V : digit_value 10 c = Some (Z.of_N c - 48))
    by now apply digit_value_digit.
  assert (Hex : forall sign : Z,
    (let '(radix, s0) := match c :: s with
                         | 48%N :: 120%N :: r | 48%N :: 88%N :: r => (16, r)
                         | _ => (10, c :: s)
                         end in
     match s0 with
     | c0 :: _ =>
         match digit_value radix c0 with
         | Some _ => Some (sign * digits_acc radix 0 s0)
         | None => None
         end
     | [] => None
     end) = Some (sign * digits_acc 10 0 (c :: s))).
  { intros sign.
    assert (R : match c :: s with
                | 48%N :: 120%N :: r | 48%N :: 88%N :: r => (16, r)
                | _ => (10, c :: s)
                end = (10, c :: s)).
    { apply digit_cases in Dc. cbn [In] in Dc.
      repeat (destruct Dc as [<-|Dc]; [try reflexivity|]); [|destruct Dc].
      destruct s as [|c2 s]; [reflexivity|].
      inversion Ds as [|? ? Dc2 _]; subst.
      apply digit_cases in Dc2. cbn [In] in Dc2.
      repeat (destruct Dc2 as [<-|Dc2]; [reflexivity|]). destruct Dc2. }
    rewrite R. now rewrite V. }
  assert (W : is_whitespace c = false).
  { apply digit_cases in Dc. cbn [In] in Dc.
    repeat (destruct Dc as [<-|Dc]; [reflexivity|]). destruct Dc. }
  split.
  - unfold parseInt. cbn [trimStart]. rewrite W.
    assert (S : match c :: s with
                | 45%N :: r => (-1, r)
                | 43%N :: r => (1, r)
                | _ => (1, c :: s)
                end = (1, c :: s)).
    { apply digit_cases in Dc. cbn [In] in Dc.
      repeat (destruct Dc as [<-|Dc]; [reflexivity|]). destruct Dc. }
    rewrite S. rewrite (Hex 1). f_equal; lia.
  - unfold parseInt. cbn [trimStart].
    change (is_whitespace 45) with false. cbv iota.
    rewrite (Hex (-1)). f_equal; lia.
Qed.

Lemma to_uint_not_Nil (p : positive) : Pos.to_uint p <> Decimal.Nil.
Proof.
  intros E. pose proof (DecimalPos.Unsigned.of_to p) as H.
  rewrite E in H. discriminate.
Qed.

Lemma uint_units_not_nil (d : Decimal.uint) :
  d <> Decimal.Nil -> uint_units d <> [].
Proof. destruct d; [contradiction | discriminate..]. Qed.

(** A number written by [toString] is read back by [parseInt]. *)
Lemma parseInt_Number_toString (z : Z) : parseInt (Number_toString z) = Some z.
Proof.
  unfold Number_toString. destruct z as [|p|p]; cbn [Z.to_int].
  - reflexivity.
  - destruct (parseInt_digits (uint_units (Pos.to_uint p))) as [P _].
    + apply uint_units_not_nil, to_uint_not_Nil.
    + apply uint_units_digits.
    + rewrite P, digits_acc_of_uint, DecimalPos.Unsigned.of_to. reflexivity.
  - destruct (parseInt_digits (uint_units (Pos.to_uint p))) as [_ P].
    + apply uint_units_not_nil, to_uint_not_Nil.
    + apply uint_units_digits.
    + rewrite P, digits_acc_of_uint, DecimalPos.Unsigned.of_to. reflexivity.
Qed.

(** ** What the buttons of the keyboards do *)

Lemma startsWith_app (p s : jsstring) : startsWith p (p ++ s) = true.
Proof.
  unfold startsWith, jsstring_eqb. rewrite take_app_length.
  now apply bool_decide_eq_true.
Qed.

Lemma no_colon_lit_ok : ~ In 58%N (lit "user_stats")
                        /\ ~ In 58%N (lit "user_stats_period")
                        /\ ~ In 58%N (lit "users_page")
                        /\ ~ In 58%N (lit "search_page")
                        /\ ~ In 58%N (lit "stats").
Proof. repeat split; vm_compute; intuition congruence. Qed.

Lemma action_user_stats (z : Z) :
  handleStatsCallback_action (lit "user_stats:" ++ Number_toString z)
  = ShowUserStats (Some z) (lit "all").
Proof.
  unfold handleStatsCallback_action. cbv zeta.
  change (startsWith (lit "stats:") (lit "user_stats:" ++ Number_toString z))
    with false.
  rewrite startsWith_app. cbv iota.
  change (lit "user_stats:") with (lit "user_stats" ++ [58%N]).
  rewrite <- app_assoc, app_one, split_on_first by apply no_colon_lit_ok.
  rewrite split_on_whole by apply Number_toString_no_colon.
  cbn [lookup list_lookup parseInt_opt].
  now rewrite parseInt_Number_toString.
Qed.

Lemma action_users_page (z : Z) :
  handleStatsCallback_action (lit "users_page:" ++ Number_toString z)
  = ShowUsersList (Some z).
Proof.
  unfold handleStatsCallback_action. cbv zeta.
  change (startsWith (lit "stats:") (lit "users_page:" ++ Number_toString z))
    with false.
  change (startsWith (lit "user_stats:")
            (lit "users_page:" ++ Number_toString z)) with false.
  change (startsWith (lit "user_stats_period:")
            (lit "users_page:" ++ Number_toString z)) with false.
  rewrite startsWith_app. cbv iota.
  change (lit "users_page:") with (lit "users_page" ++ [58%N]).
  rewrite <- app_assoc, app_one, split_on_first by apply no_colon_lit_ok.
  rewrite split_on_whole by apply Number_toString_no_colon.
  cbn [lookup list_lookup parseInt_opt].
  now rewrite parseInt_Number_toString.
Qed.

Lemma action_user_stats_period (z : Z) (p : StatsPeriod) :
  handleStatsCallback_action
    (lit "user_stats_period:" ++ Number_toString z ++ lit ":"
       ++ period_string p)
  = ShowUserStats (Some z) (period_string p).
Proof.
  unfold handleStatsCallback_action. cbv zeta.
  change (startsWith (lit "stats:")
            (lit "user_stats_period:" ++ Number_toString z ++ lit ":"
               ++ period_string p)) with false.
  change (startsWith (lit "user_stats:")
            (lit "user_stats_period:" ++ Number_toString z ++ lit ":"
               ++ period_string p)) with false.
  rewrite startsWith_app. cbv iota.
  change (lit "user_stats_period:") with (lit "user_stats_period" ++ [58%N]).
  change (lit ":") with [58%N].
  rewrite <- app_assoc, !app_one, split_on_first by apply no_colon_lit_ok.
  rewrite split_on_first by apply Number_toString_no_colon.
  rewrite split_on_whole by apply period_string_no_colon.
  cbn [lookup list_lookup parseInt_opt].
  now rewrite parseInt_Number_toString.
Qed.

Lemma concat_map_singleton {A B} (f : A -> B) (l : list A) :
  concat (List.map (fun a => [f a]) l) = List.map f l.
Proof. induction l as [|a l IH]; [reflexivity|]. cbn. now rewrite IH. Qed.

Lemma take_min_length {A} (n : nat) (l : list A) :
  take (Nat.min n (List.length l)) l = take n l.
Proof.
  destruct (Nat.le_ge_cases n (List.length l)) as [H|H].
  - now rewrite Nat.min_l.
  - rewrite Nat.min_r by assumption. now rewrite !take_ge by lia.
Qed.

Lemma js_slice_page {A} (page : Z) (l : list A) :
  0 <= page -> page * 5 < Z.of_nat (List.length l) ->
  js_slice (page * 5) (Z.min (page * 5 + 5) (Z.of_nat (List.length l))) l
  = page_slice page l.
Proof.
  intros P L. unfold js_slice, page_slice. cbv zeta.
  replace (page * 5 <? 0) with false by (symmetry; apply Z.ltb_ge; lia).
  replace (Z.min (page * 5 + 5) (Z.of_nat (List.length l)) <? 0) with false
    by (symmetry; apply Z.ltb_ge; lia).
  rewrite (Z.min_l (page * 5)) by lia.
  rewrite <- (take_min_length 5 (drop _ l)). f_equal.
  rewrite length_drop. lia.
Qed.

Lemma page_slice_not_nil {A} (page : Z) (l : list A) :
  0 <= page -> page * 5 < Z.of_nat (List.length l) -> page_slice page l <> [].
Proof.
  intros P L E. apply (f_equal (@List.length A)) in E.
  unfold page_slice in E. rewrite length_take, length_drop in E.
  cbn [List.length] in E. lia.
Qed.

(** X16. The buttons of the list of users, for users whose identifiers
    are safe integers and a page the list has: the page shows up to five
    users, at least one; the button of a user leads
    [handleStatsCallback] to the statistics of that user over all time;
    the back and forward buttons are there exactly when there is a page
    before or after, and lead to it; the page indicator is answered as
    an unknown command; the last button leads back to the statistics of
    the chat.  The pages shown one after the other are the whole
    list. *)
Theorem users_list_buttons (users : list TopUser) (page : Z) :
  users <> [] ->
  Forall (fun t => safe_integer (t_user_id t) = true) users ->
  0 <= page < ceil_div (Z.of_nat (List.length users)) usersPerPage ->
  let totalPages := ceil_div (Z.of_nat (List.length users)) usersPerPage in
  let shown := page_slice page users in
  let offered :=
    List.map (fun b => handleStatsCallback_action (callback_data b))
             (buttons (handleUsersList_keyboard users page)) in
  shown <> []
  /\ offered
     = List.map (fun t => ShowUserStats (Some (t_user_id t)) (lit "all")) shown
       ++ (if 0 <? page then [ShowUsersList (Some (page - 1))] else [])
       ++ [UnknownCommand]
       ++ (if page <? totalPages - 1 then [ShowUsersList (Some (page + 1))]
           else [])
       ++ [ShowStats all]
  /\ (forall q, In (ShowUsersList (Some q)) offered -> 0 <= q < totalPages)
  /\ concat (List.map (fun p => page_slice p users) (page_numbers totalPages))
     = users.
Proof.
  intros NE _ P. cbv zeta. unfold usersPerPage in *.
  pose proof (ceil_div_5 (Z.of_nat (List.length users))) as C.
  assert (L : page * 5 < Z.of_nat (List.length users)) by lia.
  assert (Off :
    List.map (fun b => handleStatsCallback_action (callback_data b))
             (buttons (handleUsersList_keyboard users page))
    = List.map (fun t => ShowUserStats (Some (t_user_id t)) (lit "all"))
               (page_slice page users)
      ++ (if 0 <? page then [ShowUsersList (Some (page - 1))] else [])
      ++ [UnknownCommand]
      ++ (if page <? ceil_div (Z.of_nat (List.length users)) 5 - 1
          then [ShowUsersList (Some (page + 1))] else [])
      ++ [ShowStats all]).
  { assert (K : handleUsersList_keyboard users page
      = List.map
          (fun user =>
             [ {| b_text :=
                    Text (buttonName (displayName (t_username user)
                                        (t_first_name user) (t_last_name user))
                          ++ lit " (" ++ Number_toString (message_count user)
                          ++ lit ")");
                  callback_data :=
                    lit "user_stats:" ++ Number_toString (t_user_id user) |} ])
          (page_slice page users)
        ++ [(if 0 <? page
             then [ {| b_text := BackLabel;
                       callback_data :=
                         lit "users_page:" ++ Number_toString (page - 1) |} ]
             else [])
            ++ [ {| b_text :=
                      Text (Number_toString (page + 1) ++ lit "/"
                            ++ Number_toString
                                 (ceil_div (Z.of_nat (List.length users)) 5));
                    callback_data := lit "noop" |} ]
            ++ (if page <? ceil_div (Z.of_nat (List.length users)) 5 - 1
                then [ {| b_text := ForwardLabel;
                          callback_data :=
                            lit "users_page:" ++ Number_toString (page + 1) |} ]
                else [])]
        ++ [[ {| b_text := BackToStatsLabel;
                 callback_data := lit "stats:all" |} ]]).
    { rewrite <- (js_slice_page page users) by lia.
      destruct users; [contradiction | reflexivity]. }
    rewrite K. unfold buttons.
    rewrite !concat_app, concat_map_singleton. cbn [concat].
    rewrite !app_nil_r, !List.map_app, List.map_map. cbn [callback_data].
    rewrite (List.map_ext _
               (fun t => ShowUserStats (Some (t_user_id t)) (lit "all")))
      by (intros; apply action_user_stats).
    f_equal.
    destruct (0 <? page),
             (page <? ceil_div (Z.of_nat (List.length users)) 5 - 1);
      cbn [List.map app callback_data]; rewrite ?action_users_page;
      reflexivity. }
  split; [now apply page_slice_not_nil; lia|].
  split; [exact Off|]. split.
  - rewrite Off. intros q I.
    rewrite !List.in_app_iff in I. cbn [In] in I.
    destruct I as [I|[I|[[I|[]]|[I|[I|[]]]]]]; try discriminate.
    + apply List.in_map_iff in I. destruct I as [t [E _]]. discriminate.
    + destruct (0 <? page) eqn:E; [|destruct I].
      apply Z.ltb_lt in E. destruct I as [I|[]]. injection I as <-. lia.
    + destruct (page <? ceil_div (Z.of_nat (List.length users)) 5 - 1) eqn:E;
        [|destruct I].
      apply Z.ltb_lt in E. destruct I as [I|[]]. injection I as <-. lia.
  - apply concat_page_slices.
Qed.

(** X17. Every button of the keyboard of the chat statistics and of the
    keyboard of a user's statistics is understood by
    [handleStatsCallback]: a period button of the chat leads to the
    statistics of that period, a period button of a user to the
    statistics of the same user for that period, and the remaining
    button of either keyboard to the first page of the list of users. *)
Theorem stats_buttons_are_understood (currentPeriod : StatsPeriod)
    (userId : Z) (period : jsstring) :
  List.map (fun b => handleStatsCallback_action (callback_data b))
           (buttons (createStatsKeyboard currentPeriod))
  = List.map ShowStats [all; today; week; month] ++ [ShowUsersList (Some 0)]
  /\ List.map (fun b => handleStatsCallback_action (callback_data b))
              (buttons (handleUserStats_keyboard userId period))
     = List.map (fun p => ShowUserStats (Some userId) (period_string p))
                [all; today; week; month]
       ++ [ShowUsersList (Some 0)].
Proof.
  split; [reflexivity|].
  unfold handleUserStats_keyboard, buttons.
  rewrite concat_app, concat_map_singleton. cbn [concat List.map app].
  cbn [callback_data].
  rewrite !action_user_stats_period. reflexivity.
Qed.

(** X18. The name shown for a user is never empty: it is the username
    when there is one, otherwise the first and last name joined and
    trimmed, and the fallback name when nothing is left.  On a button of
    the list of users it takes at most thirty units: a longer name is cut
    to its first twenty-seven units and three dots. *)
Theorem displayName_never_empty (username first_name last_name
    : option jsstring) :
  let name := displayName username first_name last_name in
  name <> []
  /\ (or_empty username <> [] -> name = or_empty username)
  /\ (or_empty username = [] ->
      name = match trim (or_empty first_name ++ lit " "
                         ++ or_empty last_name) with
             | [] => no_name
             | full => full
             end)
  /\ Z.of_nat (List.length (buttonName name)) <= 30
  /\ take 27%nat (buttonName name) = take 27%nat name.
Proof.
  cbv zeta. split; [|split; [|split; [|split]]].
  - unfold displayName. destruct username as [[|c n]|];
      try discriminate;
      destruct (trim _); discriminate.
  - unfold displayName. destruct username as [[|c n]|]; cbn [or_empty];
      intros H; try contradiction; reflexivity.
  - unfold displayName. destruct username as [[|c n]|]; cbn [or_empty];
      intros H; try discriminate;
      now destruct (trim _).
  - unfold buttonName.
    destruct (30 <? Z.of_nat (List.length (displayName username first_name
                                                        last_name))) eqn:E.
    + rewrite length_app, length_take.
      change (List.length (lit "...")) with 3%nat. lia.
    + apply Z.ltb_ge in E. exact E.
  - unfold buttonName.
    destruct (30 <? Z.of_nat (List.length (displayName username first_name
                                                        last_name))) eqn:E;
      [|reflexivity].
    apply Z.ltb_lt in E. rewrite take_app_le by (rewrite length_take; lia).
    rewrite take_take. f_equal.
Qed.

(** ** The query in the data of a button *)

Ltac div_lia := zify; Z.to_euclidean_division_equations; lia.

Lemma in_range_spec (lo hi c : N) :
  in_range lo hi c = true <-> (lo <= c <= hi)%N.
Proof. unfold in_range. rewrite andb_true_iff, !N.leb_le. reflexivity. Qed.

Lemma in_range_false (lo hi c : N) :
  in_range lo hi c = false <-> (c < lo \/ hi < c)%N.
Proof.
  unfold in_range. rewrite andb_false_iff, !N.leb_gt. reflexivity.
Qed.

(** Settles the comparisons of a goal by arithmetic. *)
Ltac settle_tests :=
  unfold is_continuation, in_range;
  repeat match goal with
         | |- context [(?a <? ?b)%N] =>
             first [ replace (a <? b)%N with true
                       by (symmetry; apply N.ltb_lt; div_lia)
                   | replace (a <? b)%N with false
                       by (symmetry; apply N.ltb_ge; div_lia) ]
         | |- context [(?a <=? ?b)%N] =>
             first [ replace (a <=? b)%N with true
                       by (symmetry; apply N.leb_le; div_lia)
                   | replace (a <=? b)%N with false
                       by (symmetry; apply N.leb_gt; div_lia) ]
         end;
  cbn [andb orb negb].

Lemma hex_value_hex_unit (d : N) :
  (d < 16)%N -> hex_value (hex_unit d) = Some d.
Proof.
  intros H. unfold hex_value, hex_unit.
  destruct (d <? 10)%N eqn:E.
  - apply N.ltb_lt in E. settle_tests. f_equal. lia.
  - apply N.ltb_ge in E. settle_tests. f_equal. lia.
Qed.

Lemma hex_unit_no_colon (d : N) : hex_unit d <> 58%N.
Proof.
  unfold hex_unit. destruct (d <? 10)%N eqn:E.
  - apply N.ltb_lt in E. lia.
  - apply N.ltb_ge in E. lia.
Qed.

Lemma uri_items_percent (b : N) (rest : jsstring) :
  (b < 256)%N ->
  uri_items (percent b ++ rest) = option_map (cons (Octet b)) (uri_items rest).
Proof.
  intros H. unfold percent. cbn [app uri_items N.eqb Pos.eqb].
  rewrite !hex_value_hex_unit by div_lia.
  replace (16 * (b / 16) + b mod 16)%N with b by div_lia.
  reflexivity.
Qed.

Lemma uri_items_octets (bs : list N) (rest : jsstring) :
  Forall (fun b => (b < 256)%N) bs ->
  uri_items (flat_map percent bs ++ rest)
  = option_map (app (List.map Octet bs)) (uri_items rest).
Proof.
  induction 1 as [|b bs Hb _ IH]; cbn [flat_map List.map].
  - cbn [app]. now destruct (uri_items rest).
  - rewrite <- app_assoc, uri_items_percent, IH by assumption.
    now destruct (uri_items rest).
Qed.

Lemma octets_no_colon (bs : list N) : ~ In 58%N (flat_map percent bs).
Proof.
  intros I. apply List.in_flat_map in I. destruct I as [b [_ I]].
  unfold percent in I. cbn [In] in I.
  destruct I as [I|[I|[I|[]]]]; [discriminate|..];
    now apply hex_unit_no_colon in I.
Qed.

Lemma utf8_octets (cp : N) :
  (cp <= 1114111)%N -> Forall (fun b => (b < 256)%N) (utf8 cp).
Proof.
  intros H. unfold utf8.
  destruct (cp <? 128)%N eqn:E1; [apply N.ltb_lt in E1|apply N.ltb_ge in E1].
  { repeat constructor. lia. }
  destruct (cp <? 2048)%N eqn:E2; [apply N.ltb_lt in E2|apply N.ltb_ge in E2].
  { repeat constructor; div_lia. }
  destruct (cp <? 65536)%N eqn:E3; [apply N.ltb_lt in E3|apply N.ltb_ge in E3].
  { repeat constructor; div_lia. }
  repeat constructor; div_lia.
Qed.

(** The octets of a code point are read back as its units. *)
Lemma decode_utf8 (cp : N) (rest : list uri_item) :
  (cp <= 1114111)%N -> (cp < 55296 \/ 57343 < cp)%N ->
  decode_items (List.map Octet (utf8 cp) ++ rest)
  = option_map (app (utf16 cp)) (decode_items rest).
Proof.
  intros H S. unfold utf8, utf16.
  destruct (cp <? 128)%N eqn:E1; [apply N.ltb_lt in E1|apply N.ltb_ge in E1].
  { cbn [List.map app decode_items]. settle_tests.
    now destruct (decode_items rest). }
  destruct (cp <? 2048)%N eqn:E2; [apply N.ltb_lt in E2|apply N.ltb_ge in E2].
  { cbn [List.map app decode_items]. settle_tests.
    replace ((192 + cp / 64 - 192) * 64 + (128 + cp mod 64 - 128))%N with cp
      by div_lia.
    now destruct (decode_items rest). }
  destruct (cp <? 65536)%N eqn:E3; [apply N.ltb_lt in E3|apply N.ltb_ge in E3].
  { cbn [List.map app decode_items]. cbv zeta.
    replace ((224 + cp / 4096 - 224) * 4096
             + (128 + (cp / 64) mod 64 - 128) * 64
             + (128 + cp mod 64 - 128))%N with cp by div_lia.
    destruct S; settle_tests; now destruct (decode_items rest). }
  cbn [List.map app decode_items]. cbv zeta.
  replace ((240 + cp / 262144 - 240) * 262144
           + (128 + (cp / 4096) mod 64 - 128) * 4096
           + (128 + (cp / 64) mod 64 - 128) * 64
           + (128 + cp mod 64 - 128))%N with cp by div_lia.
  unfold utf16. settle_tests. now destruct (decode_items rest).
Qed.

Lemma unreserved_spec (c : N) :
  is_uri_unreserved c = true -> (c < 128 /\ c <> 37 /\ c <> 58)%N.
Proof.
  unfold is_uri_unreserved.
  rewrite !orb_true_iff, !in_range_spec, !N.eqb_eq. lia.
Qed.

Lemma encodeURIComponent_step (c : N) (s : jsstring) :
  encodeURIComponent (c :: s)
  = if is_uri_unreserved c then option_map (cons c) (encodeURIComponent s)
    else if is_trail_surrogate c then None
    else if is_lead_surrogate c then
      match s with
      | d :: s'' =>
          if is_trail_surrogate d then
            option_map
              (app (flat_map percent
                      (utf8 (65536 + (c - 55296) * 1024 + (d - 56320))%N)))
              (encodeURIComponent s'')
          else None
      | [] => None
      end
    else option_map (app (flat_map percent (utf8 c))) (encodeURIComponent s).
Proof. reflexivity. Qed.

(** What [encodeURIComponent] writes, [decodeURIComponent] reads back,
    and it holds no colon. *)
Lemma encode_decode_items (s : jsstring) :
  (well_formed s = true ->
   exists e items, encodeURIComponent s = Some e
                   /\ uri_items e = Some items
                   /\ decode_items items = Some s
                   /\ ~ In 58%N e)
  /\ forall c,
       well_formed (c :: s) = true ->
       exists e items, encodeURIComponent (c :: s) = Some e
                       /\ uri_items e = Some items
                       /\ decode_items items = Some (c :: s)
                       /\ ~ In 58%N e.
Proof.
  induction s as [|d s [IH0 IH1]].
  - split.
    + intros _. exists [], []. repeat split; auto.
    + intros c W. cbn [well_formed] in W.
      destruct (is_trail_surrogate c) eqn:T; [discriminate|].
      destruct (is_lead_surrogate c) eqn:L; [discriminate|].
      apply andb_true_iff in W. destruct W as [W _]. apply N.ltb_lt in W.
      apply in_range_false in T, L.
      cbn [encodeURIComponent]. unfold is_trail_surrogate, is_lead_surrogate.
      destruct (is_uri_unreserved c) eqn:U.
      * apply unreserved_spec in U.
        exists [c], [Unit c]. cbn [option_map uri_items decode_items].
        replace (c =? 37)%N with false by (symmetry; apply N.eqb_neq; lia).
        repeat split; auto. cbn [In]. lia.
      * rewrite (proj2 (in_range_false _ _ _) T),
                (proj2 (in_range_false _ _ _) L).
        cbn [option_map]. eexists. eexists. split; [reflexivity|].
        rewrite app_nil_r.
        rewrite <- (app_nil_r (flat_map percent (utf8 c))).
        rewrite uri_items_octets by (apply utf8_octets; lia).
        cbn [uri_items option_map]. split; [reflexivity|].
        rewrite decode_utf8 by lia. cbn [decode_items option_map].
        unfold utf16.
        replace (c <? 65536)%N with true by (symmetry; apply N.ltb_lt; lia).
        split; [reflexivity|]. rewrite app_nil_r. apply octets_no_colon.
  - split; [exact (IH1 d)|].
    intros c W. cbn [well_formed] in W.
    destruct (is_trail_surrogate c) eqn:T; [discriminate|].
    apply in_range_false in T.
    rewrite encodeURIComponent_step.
    unfold is_trail_surrogate, is_lead_surrogate.
    destruct (is_uri_unreserved c) eqn:U.
    + apply unreserved_spec in U.
      destruct (is_lead_surrogate c) eqn:L;
        [apply in_range_spec in L; lia|].
      apply andb_true_iff in W. destruct W as [_ W].
      destruct (IH1 d W) as [e [items [E [I [D N]]]]].
      rewrite E. exists (c :: e), (Unit c :: items).
      cbn [option_map uri_items decode_items].
      replace (c =? 37)%N with false by (symmetry; apply N.eqb_neq; lia).
      rewrite I, D. repeat split; auto.
      cbn [In]. intros [X|X]; [lia | contradiction].
    + rewrite (proj2 (in_range_false _ _ _) T).
      destruct (is_lead_surrogate c) eqn:L.
      * apply andb_true_iff in W. destruct W as [Td W].
        apply in_range_spec in L, Td.
        rewrite (proj2 (in_range_spec _ _ _) L),
                (proj2 (in_range_spec _ _ _) Td).
        destruct (IH0 W) as [e [items [E [I [D N]]]]].
        rewrite E. cbn [option_map]. eexists. eexists.
        split; [reflexivity|].
        rewrite uri_items_octets by (apply utf8_octets; lia).
        rewrite I. cbn [option_map]. split; [reflexivity|].
        rewrite decode_utf8 by lia. rewrite D. cbn [option_map].
        unfold utf16.
        replace (65536 + (c - 55296) * 1024 + (d - 56320) <? 65536)%N
          with false by (symmetry; apply N.ltb_ge; lia).
        replace (55296 + (65536 + (c - 55296) * 1024 + (d - 56320) - 65536)
                         / 1024)%N with c by div_lia.
        replace (56320 + (65536 + (c - 55296) * 1024 + (d - 56320) - 65536)
                         mod 1024)%N with d by div_lia.
        split; [reflexivity|].
        intros X. apply List.in_app_or in X. destruct X as [X|X];
          [now apply octets_no_colon in X | contradiction].
      * apply andb_true_iff in W. destruct W as [Wc W].
        apply N.ltb_lt in Wc. apply in_range_false in L.
        rewrite (proj2 (in_range_false _ _ _) L).
        destruct (IH1 d W) as [e [items [E [I [D N]]]]].
        rewrite E. cbn [option_map]. eexists. eexists.
        split; [reflexivity|].
        rewrite uri_items_octets by (apply utf8_octets; lia).
        rewrite I. cbn [option_map]. split; [reflexivity|].
        rewrite decode_utf8 by lia. rewrite D. cbn [option_map].
        unfold utf16.
        replace (c <? 65536)%N with true by (symmetry; apply N.ltb_lt; lia).
        split; [reflexivity|].
        intros X. apply List.in_app_or in X. destruct X as [X|X];
          [now apply octets_no_colon in X | contradiction].
Qed.

Lemma encodeURIComponent_round_trip (query : jsstring) :
  well_formed query = true ->
  exists e, encodeURIComponent query = Some e
            /\ decodeURIComponent e = Some query
            /\ ~ In 58%N e.
Proof.
  intros W. destruct (proj1 (encode_decode_items query) W)
    as [e [items [E [I [D N]]]]].
  exists e. unfold decodeURIComponent. rewrite I. auto.
Qed.

Lemma action_search_page (p : Z) (query e : jsstring) :
  decodeURIComponent e = Some query -> ~ In 58%N e ->
  handleSearchCallback_action
    (lit "search_page:" ++ Number_toString p ++ lit ":" ++ e)
  = ShowSearchPage (Some p) query.
Proof.
  intros D N. unfold handleSearchCallback_action.
  assert (New : jsstring_eqb
                  (lit "search_page:" ++ Number_toString p ++ lit ":" ++ e)
                  (lit "search_new") = false).
  { apply bool_decide_eq_false. intros E.
    apply (f_equal (take 8%nat)) in E. vm_compute in E. discriminate. }
  rewrite New, startsWith_app. cbv zeta.
  change (lit "search_page:") with (lit "search_page" ++ [58%N]).
  change (lit ":") with [58%N].
  rewrite <- app_assoc, !app_one, split_on_first by apply no_colon_lit_ok.
  rewrite split_on_first by apply Number_toString_no_colon.
  rewrite split_on_whole by assumption.
  cbn [lookup list_lookup parseInt_opt].
  now rewrite parseInt_Number_toString, D.
Qed.

(** X19. The buttons of the keyboard of the search results, for a query
    in which every surrogate has its pair: the keyboard is built; the
    back and forward buttons are there exactly when there is a page
    before or after, and lead [handleSearchCallback] to that page of the
    same query, whatever units the query holds; the page indicator,
    there when one of the two is, is answered as an unknown command; the
    last button starts a new search.  For a page the result has, the
    pages the buttons lead to are pages of the result as well. *)
Theorem search_buttons_round_trip (page totalPages : Z) (query : jsstring) :
  well_formed query = true ->
  exists keyboard,
    createSearchKeyboard page totalPages query = Some keyboard
    /\ List.map (fun b => handleSearchCallback_action (callback_data b))
                (buttons keyboard)
       = (if (0 <? page) || (page <? totalPages - 1)
          then (if 0 <? page then [ShowSearchPage (Some (page - 1)) query]
                else [])
               ++ [UnknownSearchCommand]
               ++ (if page <? totalPages - 1
                   then [ShowSearchPage (Some (page + 1)) query] else [])
          else [])
         ++ [NewSearch]
    /\ (0 <= page < totalPages ->
        forall p q,
          In (ShowSearchPage p q)
             (List.map (fun b => handleSearchCallback_action (callback_data b))
                       (buttons keyboard)) ->
          q = query /\ exists n, p = Some n /\ 0 <= n < totalPages).
Proof.
  intros W.
  destruct (encodeURIComponent_round_trip query W) as [e [E [D N]]].
  pose (back := if 0 <? page
                then [ {| b_text := BackLabel;
                          callback_data :=
                            lit "search_page:" ++ Number_toString (page - 1)
                              ++ lit ":" ++ e |} ]
                else []).
  pose (forward := if page <? totalPages - 1
                   then [ {| b_text := ForwardLabel;
                             callback_data :=
                               lit "search_page:" ++ Number_toString (page + 1)
                                 ++ lit ":" ++ e |} ]
                   else []).
  pose (row := back
               ++ [ {| b_text := Text (Number_toString (page + 1) ++ lit "/"
                                       ++ Number_toString totalPages);
                       callback_data := lit "noop" |} ]
               ++ forward).
  pose (keyboard := (if 1 <? Z.of_nat (List.length row) then [row] else [])
                    ++ [[ {| b_text := NewSearchLabel;
                             callback_data := lit "search_new" |} ]]).
  assert (Kb : createSearchKeyboard page totalPages query = Some keyboard).
  { unfold createSearchKeyboard, search_page_button, keyboard, row, back,
      forward.
    rewrite E. now destruct (0 <? page), (page <? totalPages - 1). }
  assert (Acts :
    List.map (fun b => handleSearchCallback_action (callback_data b))
             (buttons keyboard)
    = (if (0 <? page) || (page <? totalPages - 1)
       then (if 0 <? page then [ShowSearchPage (Some (page - 1)) query]
             else [])
            ++ [UnknownSearchCommand]
            ++ (if page <? totalPages - 1
                then [ShowSearchPage (Some (page + 1)) query] else [])
       else [])
      ++ [NewSearch]).
  { unfold keyboard, row, back, forward.
    destruct (0 <? page), (page <? totalPages - 1);
      cbn [app List.length];
      match goal with
      | |- context [1 <? Z.of_nat ?n] =>
          let b := eval vm_compute in (1 <? Z.of_nat n) in
          change (1 <? Z.of_nat n) with b
      end;
      unfold buttons; cbn [orb app concat List.map callback_data];
      rewrite ?(action_search_page _ query e D N); reflexivity. }
  exists keyboard. split; [exact Kb|]. split; [exact Acts|].
  intros P p q I. rewrite Acts in I.
  destruct (0 <? page) eqn:B, (page <? totalPages - 1) eqn:F;
    cbn [orb app In] in I;
    try apply Z.ltb_lt in B; try apply Z.ltb_lt in F;
    repeat match type of I with
           | _ \/ _ => destruct I as [I|I]
           end;
    try discriminate; try contradiction;
    injection I as <- <-; (split; [reflexivity|]);
    eexists; (split; [reflexivity|]); lia.
Qed.

(** X20. The two callback handlers understand different data.  The
    handler of the statistics, which index.ts registers first, answers
    every button of the keyboard of the search results as an unknown
    command; the handler of the search answers every button of the three
    keyboards of the statistics as an unknown command. *)
Theorem callback_handlers_do_not_overlap :
  (forall page totalPages query keyboard,
      createSearchKeyboard page totalPages query = Some keyboard ->
      Forall (fun b => handleStatsCallback_action (callback_data b)
                       = UnknownCommand) (buttons keyboard))
  /\ (forall users page,
         Forall (fun b => handleSearchCallback_action (callback_data b)
                          = UnknownSearchCommand)
                (buttons (handleUsersList_keyboard users page)))
  /\ (forall userId period,
         Forall (fun b => handleSearchCallback_action (callback_data b)
                          = UnknownSearchCommand)
                (buttons (handleUserStats_keyboard userId period)))
  /\ (forall currentPeriod,
         Forall (fun b => handleSearchCallback_action (callback_data b)
                          = UnknownSearchCommand)
                (buttons (createStatsKeyboard currentPeriod))).
Proof.
  split; [|split; [|split]].
  - intros page totalPages query keyboard.
    unfold createSearchKeyboard, search_page_button.
    destruct (encodeURIComponent query) as [e|];
      destruct (0 <? page), (page <? totalPages - 1);
      intros K; try discriminate; injection K as <-;
      repeat constructor.
  - intros users page. unfold handleUsersList_keyboard.
    destruct users as [|t users]; [repeat constructor|].
    cbv zeta. unfold buttons. rewrite !concat_app, concat_map_singleton.
    rewrite !Forall_app. split; [|split].
    + apply List.Forall_forall. intros b I. apply List.in_map_iff in I.
      destruct I as [u [<- _]]. reflexivity.
    + cbn [concat]. rewrite app_nil_r.
      destruct (0 <? page), (page <? _); repeat constructor.
    + repeat constructor.
  - intros userId period. unfold handleUserStats_keyboard, buttons.
    rewrite concat_app, concat_map_singleton. repeat constructor.
  - intros currentPeriod. repeat constructor.
Qed.

(** ** A search asked twice *)

Lemma formatSearchMessage_fresh (r : SearchResult) :
  formatSearchMessage (SearchResult_value r)
  = Ok (ResultPage (SearchResult_value r)).
Proof.
  unfold formatSearchMessage.
  change (field "results" (SearchResult_value r))
    with (Some (VArr (List.map SearchRow_value (results r)))).
  cbv iota.
  replace (forallb _ (List.map SearchRow_value (results r))) with true;
    [reflexivity|].
  symmetry. apply forallb_forall. intros v I.
  apply List.in_map_iff in I. destruct I as [row [<- _]]. reflexivity.
Qed.

(** A page that went through JSON has its dates as strings: with a row
    in it, it cannot be rendered. *)
Lemma formatSearchMessage_cached (r : SearchResult) :
  results r <> [] ->
  exists v, assign_cached (toJSON (SearchResult_value r)) = Ok v
            /\ field "totalResults" v = Some (VNum (totalResults r))
            /\ formatSearchMessage v = Throw TypeError.
Proof.
  intros NE. eexists. split; [reflexivity|]. split; [reflexivity|].
  unfold formatSearchMessage.
  destruct (results r) as [|row rows] eqn:R; [contradiction|].
  reflexivity.
Qed.

(** The keyboard of a result whose query has every surrogate paired is
    built. *)
Lemma searchKeyboard_built (r : SearchResult) :
  well_formed (sr_query r) = true ->
  exists keyboard, searchKeyboard (SearchResult_value r) = Ok keyboard.
Proof.
  intros W.
  destruct (encodeURIComponent_round_trip (sr_query r) W) as (e & E & _).
  unfold searchKeyboard.
  change (field "page" (SearchResult_value r)) with (Some (VNum (page r))).
  change (field "totalPages" (SearchResult_value r))
    with (Some (VNum (totalPages r))).
  change (field "query" (SearchResult_value r))
    with (Some (VStr (sr_query r))).
  cbv iota. unfold createSearchKeyboard, search_page_button. rewrite E.
  destruct (0 <? page r), (page r <? totalPages r - 1); eexists; reflexivity.
Qed.

(** X21. The same search asked twice.  In a group, with the cache
    reachable and holding nothing for the query, a [/search] command
    with a query that reaches the store as it is (no U+0000, no
    surrogate without its pair) and that finds a message answers with
    the page of results; the same command sent again within the ten
    minutes the page is cached for is answered with the failure message:
    the page comes back from the cache with its dates as strings, and
    rendering it throws. *)
Theorem repeated_search_fails (Canonicalize pg_fold : N -> N)
    (ctx : Context) (chatId : Z) (query : jsstring)
    (cond : jsstring -> bool) (ms : Z) (w : World) :
  is_group (chat ctx) = Some chatId ->
  command_query ctx = query ->
  query <> [] ->
  plain_text query = true ->
  searchCondition pg_fold query = Ok cond ->
  ranked_results Canonicalize w chatId query cond <> [] ->
  redis_up w = true ->
  cache_miss w (createSearchCacheKey chatId query 0) = true ->
  0 <= ms < 1000 * 600 ->
  exists page w1 w2,
    handleSearchCommand Canonicalize pg_fold ctx w = (Ok tt, w1)
    /\ sent w1 = sent w ++ [Searching; ResultPage page]
    /\ handleSearchCommand Canonicalize pg_fold ctx (later ms w1) = (Ok tt, w2)
    /\ sent w2 = sent w1 ++ [Searching; SearchFailed].
Proof.
  intros G Q Qne Plain C NE U Miss T.
  apply andb_true_iff in Plain as [W _].
  assert (Some_match :
            exists p, Z.of_nat (List.length (matching w chatId cond))
                      = Z.pos p).
  { destruct (matching w chatId cond) as [|m l] eqn:E.
    - exfalso. apply NE. unfold ranked_results. now rewrite E.
    - cbn [List.length]. eexists. reflexivity. }
  set (wS := snd (ctx_reply Searching w)).
  assert (MissS : cache_miss wS (createSearchCacheKey chatId query 0) = true)
    by exact Miss.
  destruct (getSearchResults_miss Canonicalize pg_fold wS chatId query 0 cond
              C ltac:(lia) MissS)
    as (w' & G1 & U1 & M1 & N1 & R1 & S1 & St1).
  cbv zeta in G1.
  destruct (ranked_results_same_store Canonicalize w wS chatId query cond
              eq_refl eq_refl) as [RR MM].
  rewrite RR, MM in G1, St1.
  set (fresh := {| sr_query := query;
                   totalResults :=
                     Z.of_nat (List.length (matching w chatId cond));
                   results :=
                     page_slice 0 (ranked_results Canonicalize w chatId query
                                                  cond);
                   page := 0;
                   totalPages :=
                     ceil_div (Z.of_nat (List.length (matching w chatId cond)))
                              5;
                   sr_cached := false |}) in *.
  destruct Some_match as [p Tot].
  change (Z.of_nat (List.length (matching w chatId cond)))
    with (totalResults fresh) in Tot.
  assert (Rows : results fresh <> []).
  { cbn [fresh results]. unfold page_slice. cbn [Z.mul Z.to_nat drop].
    destruct (ranked_results Canonicalize w chatId query cond);
      [contradiction | discriminate]. }
  destruct (searchKeyboard_built fresh W) as [keyboard KB].
  assert (First : handleSearchCommand Canonicalize pg_fold ctx w
                  = (Ok tt, snd (ctx_reply (ResultPage (SearchResult_value
                                                          fresh)) w'))).
  { unfold handleSearchCommand, try_catch. rewrite G.
    fold (command_query ctx). rewrite Q.
    destruct query as [|c q]; [contradiction|].
    unfold bind at 1. cbn [ctx_reply]. fold wS.
    change {| users := users w; messages := messages w;
              redis_store := redis_store w; redis_up := redis_up w;
              now := now w; console := console w;
              sent := sent w ++ [Searching] |} with wS.
    unfold bind at 1. rewrite G1.
    change (field "totalResults" (SearchResult_value fresh))
      with (Some (VNum (totalResults fresh))).
    rewrite Tot. cbv iota.
    unfold bind, lift. rewrite formatSearchMessage_fresh, KB. reflexivity. }
  destruct (formatSearchMessage_cached fresh Rows) as (v & A & TR & FM).
  set (w1 := snd (ctx_reply (ResultPage (SearchResult_value fresh)) w')) in *.
  set (wL := snd (ctx_reply Searching (later ms w1))).
  assert (Hit : getSearchResults Canonicalize pg_fold chatId query 0 wL
                = (Ok v, wL)).
  { unfold getSearchResults, bind.
    rewrite RedisService_get_up
      by (change (redis_up wL) with (redis_up w'); rewrite R1; exact U).
    unfold live_entry.
    change (redis_store wL) with (redis_store w').
    change (now wL) with (now w' + ms).
    rewrite St1. change (redis_up wS) with (redis_up w). rewrite U.
    rewrite lookup_insert_eq, N1.
    change (now wS) with (now w).
    replace (now w + ms <? now w + 1000 * 600) with true
      by (symmetry; apply Z.ltb_lt; lia).
    unfold lift. cbn [JSON_stringify JSON_parse]. now rewrite A. }
  exists (SearchResult_value fresh), w1.
  eexists. split; [exact First|]. split.
  { cbn [w1 ctx_reply snd sent]. rewrite S1. cbn [wS ctx_reply snd sent].
    now rewrite <- app_assoc. }
  split.
  - unfold handleSearchCommand, try_catch. rewrite G.
    fold (command_query ctx). rewrite Q.
    destruct query as [|c q]; [contradiction|].
    unfold bind at 1. cbn [ctx_reply]. 
    change {| users := users (later ms w1); messages := messages (later ms w1);
              redis_store := redis_store (later ms w1);
              redis_up := redis_up (later ms w1);
              now := now (later ms w1); console := console (later ms w1);
              sent := sent (later ms w1) ++ [Searching] |} with wL.
    unfold bind at 1. rewrite Hit, TR, Tot. cbv iota.
    unfold bind, lift. rewrite FM. reflexivity.
  - cbn [ctx_reply console_error bind snd sent later wL].
    now rewrite <- app_assoc.
Qed.

(** ** Statistics read on a miss *)

Lemma getUserStats_same_tables (chatId : Z) (daysLimit : option Z)
    (w w1 : World) :
  users w1 = users w -> messages w1 = messages w -> now w1 = now w ->
  fst (Message_getUserStats chatId daysLimit w1)
  = fst (Message_getUserStats chatId daysLimit w)
  /\ fst (Message_getTotalCount chatId daysLimit w1)
     = fst (Message_getTotalCount chatId daysLimit w).
Proof.
  intros U M N. unfold Message_getUserStats, Message_getTotalCount, dateFilter.
  cbn [fst]. now rewrite U, M, N.
Qed.

(** X22. The statistics of a chat computed on a miss are consistent:
    when every message has its author in [users], the answer carries the
    number of messages [getTotalCount] gives and at most ten rows, the
    most active first, each with at least one message, whose counts add
    up to no more than the total; it is not marked as cached. *)
Theorem getStatsData_fresh_is_consistent (chatId : Z) (period : StatsPeriod)
    (w : World) :
  references_users w = true ->
  cache_miss w (createStatsCacheKey chatId (period_string period)) = true ->
  exists top total w',
    getStatsData chatId period w
    = (Ok (StatsData_value {| period := period; totalMessages := total;
                              topUsers := top; cached := false |}), w')
    /\ Message_getTotalCount chatId (getDaysLimit period) w = (Ok total, w)
    /\ Message_getTopUsers chatId 10 (getDaysLimit period) w = (Ok top, w)
    /\ Z.of_nat (List.length top) <= 10
    /\ counted top <= total
    /\ Forall (fun t => 1 <= message_count t) top
    /\ StronglySorted more_active top.
Proof.
  intros R Miss.
  destruct (RedisService_get_miss _ _ Miss)
    as (w1 & G & U1 & M1 & S1 & R1 & N1 & T1).
  destruct (getUserStats_counted chatId (getDaysLimit period) w R)
    as [stats [E [C [F S]]]].
  destruct (getUserStats_same_tables chatId (getDaysLimit period) w w1
              U1 M1 N1) as [EU ET].
  rewrite E in EU. cbn [fst] in EU.
  set (total := Z.of_nat (List.length
         (List.filter (fun m => (chat_id m =? chatId)
                                && dateFilter w (getDaysLimit period) m)
                      (messages w)))) in *.
  assert (Top1 : Message_getTopUsers chatId 10 (getDaysLimit period) w1
                 = (Ok (take 10 stats), w1)).
  { unfold Message_getTopUsers, bind, ret.
    destruct (Message_getUserStats chatId (getDaysLimit period) w1)
      as [r w2] eqn:E1.
    assert (w2 = w1) by (unfold Message_getUserStats in E1; congruence).
    subst w2. cbn [fst] in EU. now subst r. }
  assert (Tot1 : Message_getTotalCount chatId (getDaysLimit period) w1
                 = (Ok total, w1)).
  { unfold Message_getTotalCount in *. cbn [fst] in ET. now rewrite ET. }
  set (data := StatsData_value {| period := period; totalMessages := total;
                                  topUsers := take 10 stats;
                                  cached := false |}).
  destruct (RedisService_set_world
              (createStatsCacheKey chatId (period_string period))
              (JSON_stringify data) 1200 w1 ltac:(lia))
    as (w2 & St & _).
  exists (take 10 stats), total, w2.
  split.
  { unfold getStatsData, bind. rewrite G, Top1, Tot1. fold data.
    now rewrite St. }
  split; [reflexivity|]. split.
  { unfold Message_getTopUsers, bind, ret. now rewrite E. }
  split; [rewrite length_take; lia|]. split.
  - rewrite <- C. rewrite <- (take_drop 10 stats) at 2. rewrite counted_app.
    assert (P : forall l, Forall (fun t => 1 <= message_count t) l ->
                          0 <= counted l).
    { unfold counted. induction 1; cbn [List.map fold_right]; lia. }
    assert (0 <= counted (drop 10 stats)); [|lia].
    apply P. rewrite <- (take_drop 10 stats) in F.
    now apply Forall_app in F.
  - rewrite <- (take_drop 10 stats) in F, S.
    apply Forall_app in F. apply StronglySorted_app_1_l in S. tauto.
Qed.

(** X23. The statistics of a user that is not in [users], on a miss:
    [getUserStatsData] throws, nothing is written to the cache and
    nothing is sent. *)
Theorem getUserStatsData_unknown_user (chatId userId : Z)
    (period : StatsPeriod) (w : World) :
  cache_miss w (createUserStatsCacheKey chatId userId (period_string period))
  = true ->
  existsb (fun u => u_id u =? userId) (users w) = false ->
  exists w',
    getUserStatsData chatId userId period w = (Throw UserNotFound, w')
    /\ redis_store w' = redis_store w
    /\ sent w' = sent w
    /\ users w' = users w /\ messages w' = messages w.
Proof.
  intros Miss A.
  destruct (RedisService_get_miss _ _ Miss)
    as (w1 & G & U1 & M1 & S1 & R1 & N1 & T1).
  exists w1. split; [|auto].
  unfold getUserStatsData, bind. rewrite G.
  unfold User_findById. rewrite U1.
  rewrite (proj2 (filter_nil_iff _ _)); [reflexivity|].
  intros u I. apply not_true_is_false. intros E.
  assert (X : existsb (fun u => u_id u =? userId) (users w) = true)
    by (apply existsb_exists; now exists u).
  congruence.
Qed.

(** ** The analysis of a user *)

(** What the two reads of the analysis give for a user. *)
Lemma analysis_reads (userId : Z) (w : World) :
  let mine := List.filter (fun m => user_id m =? userId) (messages w) in
  exists stats recent,
    User_getStats userId None w = (Ok (Some stats), w)
    /\ s_message_count stats = Z.of_nat (List.length mine)
    /\ Message_getRecentMessages userId 50 w = (Ok recent, w)
    /\ recent = rev (take 50%nat (order_by_created_desc mine))
    /\ Z.of_nat (List.length recent) = Z.min 50 (Z.of_nat (List.length mine)).
Proof.
  cbv zeta. eexists. eexists.
  split; [reflexivity|]. split.
  { cbn [s_message_count or_null]. now rewrite user_rows_all. }
  split.
  { unfold Message_getRecentMessages. rewrite limit_offset_first by lia.
    reflexivity. }
  split; [reflexivity|].
  rewrite length_rev, length_take.
  rewrite (Permutation_length (order_by_created_desc_perm _)).
  change (Z.to_nat 50) with 50%nat. lia.
Qed.

Lemma remove_first_head (c : N) (s : jsstring) : remove_first c (c :: s) = s.
Proof. cbn [remove_first]. now rewrite N.eqb_refl. Qed.

Lemma Number_toString_not_nil (z : Z) : Number_toString z <> [].
Proof.
  unfold Number_toString. destruct z as [|p|p]; cbn [Z.to_int];
    try discriminate.
  apply uint_units_not_nil, to_uint_not_Nil.
Qed.

Lemma truthy_bigint (n : Z) : truthy (bigint_value n) = true.
Proof.
  unfold bigint_value. cbn [truthy].
  pose proof (Number_toString_not_nil n) as H.
  now destruct (Number_toString n).
Qed.

(** X24. The three ways to ask for the analysis of a user, for a
    username without [@], space or outer white space, that reaches the
    store as it is, asked from the bot as [/analyze @name] in a group,
    from the pages route as [@name] and from the app route as [name].
    None of them fails, and all three look for the same user.  When the
    user has five messages or more, they ask for the same analysis, of
    the same fifty messages at most and the same total.  An unknown user
    is refused by all three.  A user with fewer than five messages is
    told by the bot that the messages are too few, and refused by the app
    route with status 400, also when there is no message at all: the
    count of the statistics is a string, never strictly equal to zero, so
    the answer for a user without messages is not given.  The pages route
    refuses such a user with status 404 when there is no message, and
    analyses a user with one to four messages. *)
Theorem analysis_entry_points_agree (name : jsstring) (chatId : Z)
    (w : World) :
  name <> [] -> ~ In 64%N name -> ~ In 32%N name -> trim name = name ->
  plain_text name = true ->
  exists bot pages app,
    analyze_command {| an_chat := (group, chatId);
                       an_text := lit "/analyze @" ++ name;
                       reply_to_message := None |} w = (Ok bot, w)
    /\ pages_api_analyze {| method := lit "POST";
                            body_username := Some (lit "@" ++ name) |} w
       = (Ok pages, w)
    /\ app_api_analyze (Some name) w = (Ok app, w)
    /\ match bot with
       | Analysis n msgs total =>
           n = name
           /\ app = AppAnalysis name msgs total
           /\ pages = PagesAnalysis name
                        (List.map (fun m => (text m, created_at m)) msgs) total
           /\ 5 <= Z.of_nat (List.length msgs) <= 50
           /\ Z.of_nat (List.length msgs) <= total
       | TooFewMessages n =>
           n = name /\ app = Status 400
           /\ exists u,
                fst (User_findByUsername name w) = Ok (Some u)
                /\ match List.filter (fun m => user_id m =? u_id u)
                                     (messages w) with
                   | [] => pages = Status 404
                   | mine =>
                       (List.length mine < 5)%nat
                       /\ exists msgs,
                            pages = PagesAnalysis name msgs
                                      (Z.of_nat (List.length mine))
                            /\ List.length msgs = List.length mine
                   end
       | UsernameNotFound n =>
           n = name /\ app = Status 404 /\ pages = Status 404
       | _ => False
       end.
Proof.
  intros NE At Sp Tr _.
  assert (Target :
    option_map (remove_first 64)
      (head (tl (split_on 32 (lit "/analyze @" ++ name)))) = Some name).
  { change (lit "/analyze @") with (lit "/analyze" ++ 32%N :: [64%N]).
    rewrite <- app_assoc. cbn [app].
    rewrite split_on_first by (vm_compute; intuition congruence).
    rewrite split_on_whole by (cbn [In]; intros [X|X]; [discriminate|auto]).
    cbn [tl head option_map]. now rewrite remove_first_head. }
  assert (Norm : (if startsWith (lit "@") (lit "@" ++ name)
                  then drop 1%nat (lit "@" ++ name) else lit "@" ++ name)
                 = name).
  { rewrite startsWith_app. reflexivity. }
  unfold analyze_command, pages_api_analyze, app_api_analyze, try_catch,
    analyze_target.
  cbn [an_chat an_text reply_to_message method body_username option_map].
  rewrite Target, Tr.
  change (negb (jsstring_eqb (lit "POST") (lit "POST"))) with false.
  change (lit "@" ++ name) with (64%N :: name) in *.
  cbv iota zeta. rewrite Norm.
  destruct name as [|c n]; [contradiction|].
  set (name := c :: n) in *.
  unfold bind, User_findByUsername, ret. cbv beta. cbn [fst].
  destruct (head (List.filter
                    (fun u => match username u with
                              | Some n0 => jsstring_eqb n0 name
                              | None => false
                              end) (users w))) as [u|]; cbv beta iota.
  2:{ do 3 eexists. repeat (split; [reflexivity|]). cbv beta iota. auto. }
  destruct (analysis_reads (u_id u) w)
    as (stats & recent & GS & Cnt & GR & Rec & Len).
  cbv zeta in *.
  change (fst (Ok (Some u), w)) with (@Ok (option UserData) (Some u)).
  remember (List.filter (fun m => user_id m =? u_id u) (messages w))
    as mine eqn:EM.
  rewrite GS, GR. cbv beta iota.
  change (strict_equals (bigint_value (s_message_count stats)) (VNum 0))
    with false.
  cbv beta iota. rewrite ?GR. cbv beta iota.
  destruct recent as [|m0 rest] eqn:ER.
  - do 3 eexists. repeat (split; [reflexivity|]). cbv beta iota.
    repeat (split; [reflexivity|]).
    exists u. split; [reflexivity|]. rewrite <- EM.
    destruct mine; [reflexivity | cbn [List.length] in Len; lia].
  - rewrite <- ER in *. rewrite GS. cbv beta iota.
    rewrite truthy_bigint.
    destruct (Z.of_nat (List.length recent) <? 5) eqn:L5; cbv beta iota.
    + apply Z.ltb_lt in L5. do 3 eexists. repeat (split; [reflexivity|]).
      cbv beta iota. repeat (split; [reflexivity|]).
      exists u. split; [reflexivity|]. rewrite <- EM.
      assert (Same : List.length recent = List.length mine) by lia.
      destruct mine as [|m1 mine'];
        [rewrite ER in Same; discriminate|].
      split; [lia|]. eexists. split; [now rewrite Cnt|].
      now rewrite length_map.
    + apply Z.ltb_ge in L5. do 3 eexists. repeat (split; [reflexivity|]).
      cbv beta iota. repeat split; auto; lia.
Qed.

(** The user the command is about is a user of the table. *)
Lemma analyze_target_found (message : AnalyzeMessage) (w w1 : World)
    (userId : Z) (name : jsstring) :
  analyze_target message w = (Ok (inr (userId, name)), w1) ->
  w1 = w
  /\ match reply_to_message message with
     | Some from =>
         userId = sender_id from
         /\ exists u, fst (User_findById userId w) = Ok (Some u)
                      /\ name = name_or_unknown (username u) (first_name u)
     | None =>
         exists u, fst (User_findByUsername name w) = Ok (Some u)
                   /\ u_id u = userId
     end.
Proof.
  unfold analyze_target.
  destruct (reply_to_message message) as [from|].
  - unfold bind, User_findById, ret. cbv beta.
    destruct (head (List.filter (fun u => u_id u =? sender_id from)
                                (users w))) as [u|] eqn:E; cbv beta iota;
      intros H; [|discriminate].
    injection H as <- <- <-. split; [reflexivity|]. split; [reflexivity|].
    exists u. cbn [fst]. rewrite E. auto.
  - cbv zeta.
    destruct (option_map (remove_first 64)
                (head (tl (split_on 32 (an_text message)))))
      as [[|c n]|]; try (intros H; discriminate).
    unfold bind, User_findByUsername, ret. cbv beta.
    destruct (head (List.filter
                      (fun u => match username u with
                                | Some n0 => jsstring_eqb n0 (c :: n)
                                | None => false
                                end) (users w))) as [u|] eqn:E;
      cbv beta iota; intros H; [|discriminate].
    injection H as <- <- <-. split; [reflexivity|].
    exists u. cbn [fst]. rewrite E. auto.
Qed.

(** X25. What the bot has analysed.  When the [/analyze] command ends in
    a call of the analysis service, the command came from a group, the
    user is a user of the table (the author of the message replied to,
    named as the table names it, or the user with the username given),
    and the messages passed are what [getRecentMessages] reads for that
    user: five to fifty messages of the user, oldest first, from whatever
    chat they were written in, all of them when the user has fifty or
    fewer; the total passed is the number of all messages of the user.
    Nothing is written. *)
Theorem analysis_is_of_recent_messages (message : AnalyzeMessage)
    (w w' : World) (name : jsstring) (msgs : list MessageData) (total : Z) :
  analyze_command message w = (Ok (Analysis name msgs total), w') ->
  w' = w
  /\ is_group (Some (an_chat message)) <> None
  /\ exists userId,
       Message_getRecentMessages userId 50 w = (Ok msgs, w)
       /\ total = Z.of_nat (List.length
                    (List.filter (fun m => user_id m =? userId) (messages w)))
       /\ 5 <= Z.of_nat (List.length msgs) <= 50
       /\ Z.of_nat (List.length msgs) <= total
       /\ StronglySorted older_first msgs
       /\ (forall m, In m msgs -> In m (messages w) /\ user_id m = userId)
       /\ (total <= 50 ->
           forall m, In m (messages w) -> user_id m = userId -> In m msgs)
       /\ match reply_to_message message with
          | Some from =>
              userId = sender_id from
              /\ exists u, fst (User_findById userId w) = Ok (Some u)
                           /\ name = name_or_unknown (username u)
                                                     (first_name u)
          | None =>
              exists u, fst (User_findByUsername name w) = Ok (Some u)
                        /\ u_id u = userId
          end.
Proof.
  unfold analyze_command, try_catch.
  assert (Body : forall body : M analyze_answer,
    (let (o, w1) := body w in
     match o with
     | Ok a => (Ok a, w1)
     | Throw _ =>
         (console_error "Error in /analyze command:" ;;; ret AnalyzeFailed) w1
     end) = (Ok (Analysis name msgs total), w') ->
    body w = (Ok (Analysis name msgs total), w')).
  { intros body. destruct (body w) as [[a|e] w1]; [auto|].
    unfold bind, console_error, ret. intros H. discriminate. }
  intros H. apply Body in H. clear Body.
  destruct (an_chat message) as [ty cid] eqn:Chat.
  assert (Grp : is_group (Some (ty, cid)) <> None
                /\ (target <- analyze_target message ;;
                    match target with
                    | inl answer => ret answer
                    | inr (targetUserId, targetUsername) =>
                        stats <- User_getStats targetUserId None ;;
                        match stats with
                        | None => ret (NoMessagesToAnalyze targetUsername)
                        | Some stats =>
                            if strict_equals
                                 (bigint_value (s_message_count stats))
                                 (VNum 0)
                            then ret (NoMessagesToAnalyze targetUsername)
                            else
                              recentMessages <-
                                Message_getRecentMessages targetUserId 50 ;;
                              if Z.of_nat (List.length recentMessages) <? 5
                              then ret (TooFewMessages targetUsername)
                              else ret (Analysis targetUsername recentMessages
                                                 (s_message_count stats))
                        end
                    end) w = (Ok (Analysis name msgs total), w')).
  { destruct ty; try (unfold ret in H; discriminate);
      (split; [discriminate | exact H]). }
  clear H. destruct Grp as [Grp H].
  unfold bind at 1 in H.
  destruct (analyze_target message w) as [[[answer|[userId uname]]|e] w1] eqn:AT;
    try discriminate.
  { unfold ret in H. injection H as -> ->.
    exfalso. revert AT. unfold analyze_target.
    destruct (reply_to_message message) as [from|].
    - unfold bind, User_findById, ret. cbv beta.
      destruct (head _); cbv beta iota; discriminate.
    - cbv zeta.
      destruct (option_map _ _) as [[|c n]|]; try discriminate.
      unfold bind, User_findByUsername, ret. cbv beta.
      destruct (head _); cbv beta iota; discriminate. }
  destruct (analyze_target_found _ _ _ _ _ AT) as [-> Who].
  destruct (analysis_reads userId w)
    as (stats & recent & GS & Cnt & GR & Rec & Len).
  cbv zeta in *.
  unfold bind, ret in H. rewrite GS in H.
  change (strict_equals (bigint_value (s_message_count stats)) (VNum 0))
    with false in H.
  cbv beta iota in H. rewrite GR in H.
  destruct (Z.of_nat (List.length recent) <? 5) eqn:L5; [discriminate|].
  apply Z.ltb_ge in L5.
  injection H as <- <- <- <-.
  split; [reflexivity|]. split; [exact Grp|].
  exists userId. split; [exact GR|]. split; [exact Cnt|].
  split; [lia|]. split; [lia|].
  assert (Mem : forall m, In m (order_by_created_desc
                    (List.filter (fun m => user_id m =? userId) (messages w)))
                <-> In m (messages w) /\ user_id m = userId).
  { intros m. rewrite <- list_elem_of_In, order_by_created_desc_perm,
      list_elem_of_In, List.filter_In, Z.eqb_eq. reflexivity. }
  split; [|split; [|split; [|exact Who]]].
  - rewrite Rec. apply StronglySorted_rev_flip.
    rewrite <- (drop_0 (order_by_created_desc _)).
    apply StronglySorted_take_drop, order_by_created_desc_sorted.
  - intros m I. rewrite Rec in I. apply List.in_rev in I.
    apply Mem. rewrite <- (take_drop 50 (order_by_created_desc _)).
    apply List.in_or_app. now left.
  - intros Few m I E. rewrite Rec. apply List.in_rev. rewrite rev_involutive.
    rewrite take_ge.
    + apply Mem. auto.
    + rewrite (Permutation_length (order_by_created_desc_perm _)). lia.
Qed.

(** ** The statistics of a user shown twice *)

Lemma getUserStatsData_miss (chatId userId : Z) (period : StatsPeriod)
    (user : UserData) (w : World) :
  cache_miss w (createUserStatsCacheKey chatId userId (period_string period))
  = true ->
  User_findById userId w = (Ok (Some user), w) ->
  exists recent w',
    let stats := {| s_message_count :=
                      Z.of_nat (List.length
                                  (user_messages w userId (getDaysLimit period)));
                    first_message :=
                      min_created (user_messages w userId (getDaysLimit period));
                    last_message :=
                      max_created (user_messages w userId (getDaysLimit period))
                 |} in
    let fresh := VObj [(lit "user", UserData_value user);
                       (lit "stats", StatsRow_value (Some stats));
                       (lit "recentMessages",
                        VArr (List.map MessageData_value recent));
                       (lit "cached", VBool false)] in
    getUserStatsData chatId userId period w = (Ok fresh, w')
    /\ users w' = users w /\ messages w' = messages w
    /\ now w' = now w /\ redis_up w' = redis_up w
    /\ redis_store w'
       = if redis_up w
         then <[createUserStatsCacheKey chatId userId (period_string period)
                := (JSON_stringify fresh, now w + 1000 * 600)]> (redis_store w)
         else redis_store w.
Proof.
  intros Miss F.
  destruct (RedisService_get_miss _ _ Miss)
    as (w1 & G & U1 & M1 & S1 & R1 & N1 & T1).
  assert (F1 : User_findById userId w1 = (Ok (Some user), w1)).
  { unfold User_findById in *. rewrite U1. congruence. }
  assert (St : User_getStats userId (getDaysLimit period) w1
               = (Ok (Some {| s_message_count :=
                                Z.of_nat (List.length
                                  (user_messages w userId (getDaysLimit period)));
                              first_message :=
                                min_created
                                  (user_messages w userId (getDaysLimit period));
                              last_message :=
                                max_created
                                  (user_messages w userId (getDaysLimit period))
                           |}), w1)).
  { unfold User_getStats, get_user_stats. cbn [head].
    rewrite user_rows_or_null.
    unfold user_messages, in_window. now rewrite M1, N1. }
  assert (Rc : exists recent,
             Message_getRecentMessages userId 5 w1 = (Ok recent, w1)).
  { unfold Message_getRecentMessages. rewrite limit_offset_first by lia.
    eexists. reflexivity. }
  destruct Rc as [recent Rc].
  set (fresh := VObj [(lit "user", UserData_value user);
                      (lit "stats", StatsRow_value (Some
                         {| s_message_count :=
                              Z.of_nat (List.length
                                (user_messages w userId (getDaysLimit period)));
                            first_message :=
                              min_created
                                (user_messages w userId (getDaysLimit period));
                            last_message :=
                              max_created
                                (user_messages w userId (getDaysLimit period))
                         |}));
                      (lit "recentMessages",
                       VArr (List.map MessageData_value recent));
                      (lit "cached", VBool false)]).
  destruct (RedisService_set_world
              (createUserStatsCacheKey chatId userId (period_string period))
              (JSON_stringify fresh) 600 w1 ltac:(lia))
    as (w2 & Set_ & U2 & M2 & N2 & R2 & T2 & S2).
  exists recent, w2. cbv zeta. fold fresh. split.
  - unfold getUserStatsData, bind. rewrite G, F1, St, Rc. fold fresh.
    now rewrite Set_.
  - rewrite U2, M2, N2, R2, S2, U1, M1, N1, R1, S1. auto.
Qed.

(** X26. The statistics of a user shown twice.  With the cache reachable
    and holding nothing for the user and period, the statistics of a
    user of the table are shown, not marked as cached.  Shown again
    within the ten minutes they are cached for, they come back from the
    cache with their dates as strings: for a user with a message in the
    period the answer is the failure notice, since rendering the first
    date throws; for a user without one the statistics are shown, marked
    as cached. *)
Theorem repeated_user_stats (chatId userId : Z) (period : StatsPeriod)
    (user : UserData) (ms : Z) (w : World) :
  redis_up w = true ->
  cache_miss w (createUserStatsCacheKey chatId userId (period_string period))
  = true ->
  User_findById userId w = (Ok (Some user), w) ->
  0 <= ms < 1000 * 600 ->
  exists fresh w1 cached again w2,
    handleUserStats chatId userId period w = (Ok (UserStatsShown fresh), w1)
    /\ field "cached" fresh = Some (VBool false)
    /\ assign_cached (toJSON fresh) = Ok cached
    /\ field "cached" cached = Some (VBool true)
    /\ handleUserStats chatId userId period (later ms w1) = (Ok again, w2)
    /\ again
       = match user_messages w userId (getDaysLimit period) with
         | [] => UserStatsShown cached
         | _ :: _ => UserStatsFailed
         end.
Proof.
  intros U Miss F T.
  destruct (getUserStatsData_miss chatId userId period user w Miss F)
    as (recent & w1 & G & U1 & M1 & N1 & R1 & S1).
  cbv zeta in G, S1. rewrite U in S1.
  remember (user_messages w userId (getDaysLimit period)) as mine eqn:Em.
  set (stats := {| s_message_count := Z.of_nat (List.length mine);
                   first_message := min_created mine;
                   last_message := max_created mine |}) in *.
  set (fresh := VObj [(lit "user", UserData_value user);
                      (lit "stats", StatsRow_value (Some stats));
                      (lit "recentMessages",
                       VArr (List.map MessageData_value recent));
                      (lit "cached", VBool false)]) in *.
  assert (Fmt : formatUserStats fresh = Ok (UserStatsShown fresh)).
  { unfold formatUserStats.
    change (field "stats" fresh) with (Some (StatsRow_value (Some stats))).
    cbn [StatsRow_value truthy].
    change (field "first_message" _)
      with (Some (opt_date (first_message stats))).
    change (field "last_message" _)
      with (Some (opt_date (last_message stats))).
    now destruct (first_message stats), (last_message stats). }
  assert (Hit : getUserStatsData chatId userId period (later ms w1)
                = (assign_cached (toJSON fresh), later ms w1)).
  { unfold getUserStatsData, bind.
    rewrite RedisService_get_up by (cbn [later redis_up]; congruence).
    unfold live_entry. cbn [later redis_store now].
    rewrite S1, lookup_insert_eq, N1.
    replace (now w + ms <? now w + 1000 * 600) with true
      by (symmetry; apply Z.ltb_lt; lia).
    reflexivity. }
  assert (Again : exists cached again w2,
    assign_cached (toJSON fresh) = Ok cached
    /\ field "cached" cached = Some (VBool true)
    /\ handleUserStats chatId userId period (later ms w1) = (Ok again, w2)
    /\ again = match mine with
               | [] => UserStatsShown cached
               | _ :: _ => UserStatsFailed
               end).
  { unfold handleUserStats, try_catch, bind, lift. rewrite Hit.
    subst fresh stats. clear.
    destruct mine as [|m l]; eexists; eexists; eexists;
      (split; [reflexivity|]); (split; [reflexivity|]); split; reflexivity. }
  destruct Again as (cached & again & w2 & C & K & A & E).
  exists fresh, w1, cached, again, w2.
  split.
  { unfold handleUserStats, try_catch, bind, lift. now rewrite G, Fmt. }
  split; [reflexivity|]. auto.
Qed.

(** * The model at work: examples, witnesses and failing inputs *)

(** The scenarios of the test suite and of the design notes. *)
Example key_scenarios :
  createStatsCacheKey 100 (lit "week") = lit "stats:100:week"
  /\ createUserStatsCacheKey 100 42 (lit "month") = lit "user_stats:100:42:month"
  /\ createUsersListCacheKey 123 = lit "users_list:123"
  /\ createSearchCacheKey 123 (lit "hello/world\test?query=value") 1
     = lit "search:123:hello_world_test_query_value:1".
Proof. repeat split; vm_compute; reflexivity. Qed.

(** The normalised query is what the replacement pattern of
    [createSearchCacheKey] gives, run through the engine. *)
Example normalize_by_its_pattern :
  let pattern :=
    [91; 94]%N ++ lit "a-zA-Z0-9"
      ++ [1072; 45; 1103; 1040; 45; 1071; 93]%N in
  let query :=
    lit "Hi, " ++ [1055; 1088; 1080; 1074; 1077; 1090]%N ++ lit "! 42/7" in
  option_map
    (fun re => take 50 (replace_all {| fold := fun c => c;
                                       dot_newline := false |}
                          re (lit "_") query))
    (compile pattern)
  = Some (normalizeQuery query).
Proof. vm_compute. reflexivity. Qed.

Example highlight_scenarios :
  highlightText simple_upper (lit "Hello hello all") (lit "hello") false
  = Ok (lit "**Hello** **hello** all")
  /\ highlightText simple_upper (lit "Hi123 there456") (lit "/\d+/") true
     = Ok (lit "Hi**123** there**456**")
  /\ highlightText simple_upper (lit "Hello world") (lit "/[invalid/") true
     = Ok (lit "Hello world")
  /\ escapeRegExp (lit "hello.world*+?^${}()|[]")
     = lit "hello\.world\*\+\?\^\$\{\}\(\)\|\[\]".
Proof. repeat split; vm_compute; reflexivity. Qed.

Example dispatch_scenarios :
  isRegexQuery (lit "/abc/") = true
  /\ slice_1_m1 (lit "/abc/") = lit "abc"
  /\ isRegexQuery (lit "abc") = false
  /\ isRegexQuery (lit "/abc") = false
  /\ isRegexQuery (lit "//") = false.
Proof. repeat split; vm_compute; reflexivity. Qed.

(** ** Cache keys and cache store on the example data *)

Lemma cache_keys_derivation_witness :
  createStatsCacheKey 100 (period_string week)
  <> createStatsCacheKey 100 (period_string month)
  /\ (createSearchCacheKey 100 (lit "a b") 0
      = createSearchCacheKey 100 (lit "a_b") 0).
Proof.
  destruct cache_keys_derivation as (_ & _ & _ & _ & _ & P & S).
  split.
  - intros E. apply (P 100 week month) in E. discriminate E.
  - apply (S 100 (lit "a b") 0 100 (lit "a_b") 0).
    repeat split; vm_compute; reflexivity.
Defined.

Lemma cache_store_isolates_backend_failures_witness :
  exists w',
    RedisService_get (lit "stats:100:all") demo_world_offline = (Ok None, w')
    /\ console w' = [lit "Redis GET error:"].
Proof.
  destruct (cache_store_isolates_backend_failures
              (lit "stats:100:all") (Json VNull) 600 demo_world_offline)
    as (G & _).
  simpl in G. destruct G as (w2 & G & _ & C).
  exists w2. split; [exact G | exact C].
Defined.

(** ** Statistics on the example data *)

Lemma recent_messages_chronological_witness :
  0 <= 2
  /\ exists rows : list MessageData,
      Message_getRecentMessages 1 2 demo_world = (Ok rows, demo_world)
      /\ List.map m_id rows = [7; 9].
Proof.
  split; [lia|].
  destruct (recent_messages_chronological 1 2 demo_world ltac:(lia))
    as (rows & older & G & E & _).
  exists rows. split; [exact G|]. rewrite E. vm_compute. reflexivity.
Defined.

Lemma user_stats_window_witness :
  exists row,
    User_getStats 2 (Some 7) demo_world = (Ok (Some row), demo_world)
    /\ s_message_count row = 5
    /\ first_message row = Some 3 /\ last_message row = Some 10.
Proof.
  destruct (user_stats_window 2 (Some 7) demo_world)
    as (_ & row & G & C & _ & H).
  exists row. split; [exact G|]. split; [rewrite C; reflexivity|].
  injection G as <-. split; reflexivity.
Defined.

(** C9, failing instance of the claim as stated: with a limit of zero
    days the statistics are not restricted to the messages created from
    now on (there are none); all five messages of the user are counted. *)
Lemma zero_days_limit_is_no_limit :
  List.length
    (List.filter (fun m => (user_id m =? 1)
                           && (now demo_world - day_ms * 0 <=? created_at m))
                 (messages demo_world)) = 0%nat
  /\ User_getStats 1 (Some 0) demo_world
     = (Ok (Some {| s_message_count := 5; first_message := Some 1;
                    last_message := Some 9 |}), demo_world)
  /\ ~ (exists row,
          User_getStats 1 (Some 0) demo_world = (Ok (Some row), demo_world)
          /\ s_message_count row
             = Z.of_nat
                 (List.length
                    (List.filter
                       (fun m => (user_id m =? 1)
                                 && (now demo_world - day_ms * 0
                                     <=? created_at m))
                       (messages demo_world)))).
Proof.
  split; [vm_compute; reflexivity|]. split; [vm_compute; reflexivity|].
  intros (row & G & C). vm_compute in G. injection G as <-.
  vm_compute in C. discriminate C.
Qed.

(** ** Highlighting on the example data *)



(** The terms of a query are marked one after the other, each in the text
    the previous ones left: a later term can be cut by the markers of an
    earlier one, or match the markers themselves. *)
Example highlight_terms_interfere :
  highlightText simple_upper (lit "a ab") (lit "a ab") false
  = Ok (lit "**a** **a**b")
  /\ contains (lit "**ab**") (lit "**a** **a**b") = false
  /\ highlightText simple_upper (lit "hi *") (lit "hi *") false
     = Ok (lit "**********hi********** *****").
Proof. repeat split; vm_compute; reflexivity. Qed.

(** ** Search on the example data *)


(** The scenario of the design notes: "hello" in chat 100. *)
Example search_scenario :
  (exists r w',
     getSearchResults simple_upper simple_upper 100 (lit "hello") 0 demo_world
     = (Ok r, w')
     /\ field "totalResults" r = Some (VNum 2)
     /\ field "totalPages" r = Some (VNum 1)
     /\ field "cached" r = Some (VBool false))
  /\ (exists rows,
       Message_searchMessages simple_upper simple_upper 100 (lit "hello") 5 0
         demo_world = (Ok rows, demo_world)
       /\ List.map (fun r => (r_created_at r, highlighted_text r)) rows
          = [(2, lit "**Hello** again"); (1, lit "**hello** world")]).
Proof.
  split; [do 2 eexists | eexists]; repeat split; vm_compute; reflexivity.
Qed.

(** An entry stored for one second is gone two seconds later. *)
Example ttl_expiry_scenario :
  fst (RedisService_get (lit "k")
         (later 2000 (snd (RedisService_set (lit "k") (Json VNull) 1
                             demo_world))))
  = Ok None
  /\ fst (RedisService_get (lit "k")
            (later 500 (snd (RedisService_set (lit "k") (Json VNull) 1
                               demo_world))))
     = Ok (Some (Json VNull)).
Proof.
  split.
  - now rewrite entry_lives_for_its_ttl.
  - now rewrite entry_lives_for_its_ttl.
Qed.

(** A page served from the cache has its dates as strings; the command
    that renders it calls a [Date] method on them and answers with the
    failure message. *)
Example cached_page_is_not_rendered :
  let ctx := demo_command 100 "/search hello" in
  let w1 := snd (handleSearchCommand simple_upper simple_upper ctx demo_world) in
  let w2 := snd (handleSearchCommand simple_upper simple_upper ctx w1) in
  List.length (sent w1) = 2%nat
  /\ drop 2 (sent w2) = [Searching; SearchFailed].
Proof. split; vm_compute; reflexivity. Qed.

(** Queries with the same normalised form share a cache entry: after a
    read of "a b", a read of "a_b" is answered with the page of "a b". *)
Example colliding_queries_share_a_page :
  exists r1 w1 r2 w2,
    getSearchResults simple_upper simple_upper 100 (lit "o w") 0 demo_world
    = (Ok r1, w1)
    /\ getSearchResults simple_upper simple_upper 100 (lit "o_w") 0 w1
       = (Ok r2, w2)
    /\ field "query" r2 = Some (VStr (lit "o w"))
    /\ field "cached" r2 = Some (VBool true).
Proof. do 4 eexists. repeat split; vm_compute; reflexivity. Qed.


(** ** Read-through on the example data *)

Lemma read_through_cache_witness :
  redis_up demo_world_cached = true
  /\ cache_miss demo_world (createStatsCacheKey 100 (period_string week)) = true
  /\ (exists fresh w',
        getStatsData 100 week demo_world = (Ok fresh, w')
        /\ field "cached" fresh = Some (VBool false)
        /\ redis_store w' !! createStatsCacheKey 100 (period_string week)
           = Some (JSON_stringify fresh, 1201000)).
Proof.
  assert (U : redis_up demo_world_cached = true) by reflexivity.
  assert (Miss : cache_miss demo_world
                   (createStatsCacheKey 100 (period_string week)) = true)
    by reflexivity.
  split; [exact U|]. split; [exact Miss|].
  destruct (read_through_cache simple_upper simple_upper demo_world 100 1 week
              (lit "hello") 0) as (_ & S & _).
  destruct (S Miss) as (tu & tm & w' & _ & _ & G & C & St).
  eexists _, w'. split; [exact G|]. split; [exact C|].
  rewrite St. simpl. now rewrite lookup_insert_eq.
Defined.

(** C3, failing instance of the claim as stated: the user list served
    from the cache is the parsed list as it is, and the one computed on a
    miss is the bare list; neither carries a [cached] mark. *)
Lemma user_list_has_no_cached_mark :
  live_entry demo_world_cached (createUsersListCacheKey 100)
  = Some (Json (VArr [VObj [(lit "user_id", VNum 1);
                            (lit "message_count", VNum 2)]]))
  /\ handleUsersList_users 100 demo_world_cached
     = (Ok (VArr [VObj [(lit "user_id", VNum 1);
                        (lit "message_count", VNum 2)]]), demo_world_cached)
  /\ ~ (forall r w',
          handleUsersList_users 100 demo_world_cached = (Ok r, w') ->
          field "cached" r = Some (VBool true))
  /\ cache_miss demo_world (createUsersListCacheKey 100) = true
  /\ ~ (forall r w',
          handleUsersList_users 100 demo_world = (Ok r, w') ->
          field "cached" r = Some (VBool false)).
Proof.
  split; [vm_compute; reflexivity|]. split; [vm_compute; reflexivity|].
  split; [|split; [vm_compute; reflexivity|]].
  - intros H. specialize (H _ _ eq_refl). vm_compute in H. discriminate H.
  - intros H.
    destruct (handleUsersList_users 100 demo_world) as [[r|e] w'] eqn:E;
      vm_compute in E; [|discriminate E].
    specialize (H _ _ eq_refl). injection E as <- _.
    vm_compute in H. discriminate H.
Qed.

(** ** The [/search] command on the example data *)

Lemma blank_query_gets_usage_witness :
  is_group (chat (demo_command 100 "/search   ")) = Some 100
  /\ command_query (demo_command 100 "/search   ") = []
  /\ sent (snd (handleSearchCommand simple_upper simple_upper
                  (demo_command 100 "/search   ") demo_world))
     = [Usage].
Proof.
  assert (G : is_group (chat (demo_command 100 "/search   ")) = Some 100)
    by reflexivity.
  assert (Q : command_query (demo_command 100 "/search   ") = [])
    by reflexivity.
  split; [exact G|]. split; [exact Q|].
  destruct (blank_query_gets_usage simple_upper simple_upper
              (demo_command 100 "/search   ") 100 demo_world G Q)
    as (H & S & _).
  rewrite H. exact S.
Defined.

(** C8, failing instance of the claim as stated: a search request with a
    blank or empty query does not fail; the query is searched as a
    literal, and finds the messages that contain a space, or all of them. *)
Lemma blank_query_is_searched :
  trim (lit " ") = [] /\ trim [] = []
  /\ (exists r w',
        getSearchResults simple_upper simple_upper 100 (lit " ") 0 demo_world
        = (Ok r, w')
        /\ field "totalResults" r = Some (VNum 2))
  /\ (exists r w',
        getSearchResults simple_upper simple_upper 100 [] 0 demo_world
        = (Ok r, w')
        /\ field "totalResults" r = Some (VNum 3))
  /\ ~ (exists e,
          fst (getSearchResults simple_upper simple_upper 100 (lit " ") 0
                 demo_world) = Throw e).
Proof.
  split; [reflexivity|]. split; [reflexivity|].
  split; [do 2 eexists; split; vm_compute; reflexivity|].
  split; [do 2 eexists; split; vm_compute; reflexivity|].
  intros (e & H). vm_compute in H. discriminate H.
Qed.

(** ** Regular-expression queries on the example data *)

(** C2, evaluation at the failing input: the regular-expression query
    [/hello/] finds "hello world" only, not "Hello again": the store
    matches the pattern with regard to case.  The literal query "hello"
    finds both, and the highlighter, given "Hello again" and [/hello/],
    marks "Hello".  A literal query is a pattern too, for the store: the
    underscore of "h_llo" stands for any unit, so the query finds the two
    greetings, neither of which contains it. *)
Theorem regex_search_regards_case :
  ids_found (Message_searchMessages simple_upper simple_upper 100
               (lit "/hello/") 5 0 demo_world) = Ok [1]
  /\ fst (Message_countSearchResults simple_upper 100 (lit "/hello/") demo_world)
     = Ok 1
  /\ ids_found (Message_searchMessages simple_upper simple_upper 100
                  (lit "hello") 5 0 demo_world) = Ok [2; 1]
  /\ highlightText simple_upper (lit "Hello again") (lit "/hello/") true
     = Ok (lit "**Hello** again")
  /\ ids_found (Message_searchMessages simple_upper simple_upper 100
                  (lit "h_llo") 5 0 demo_world) = Ok [2; 1]
  /\ occurs_fold simple_upper (lit "h_llo") (lit "hello world") = false
  /\ occurs_fold simple_upper (lit "h_llo") (lit "Hello again") = false.
Proof. repeat split; vm_compute; reflexivity. Qed.

(** C4, evaluation at the failing input: the pattern of [/[invalid/] does
    not compile; the highlighter falls back to the text as it is, but the
    statement sent to the store carries the same pattern and is rejected,
    so the read of the page throws and the command answers with the
    failure message. *)
Theorem invalid_regex_aborts_search :
  isRegexQuery (lit "/[invalid/") = true
  /\ compile (slice_1_m1 (lit "/[invalid/")) = None
  /\ highlightText simple_upper (lit "hello world") (lit "/[invalid/") true
     = Ok (lit "hello world")
  /\ getSearchResults simple_upper simple_upper 100 (lit "/[invalid/") 0
       demo_world
     = (Throw InvalidRegularExpression, demo_world)
  /\ sent (snd (handleSearchCommand simple_upper simple_upper
                  (demo_command 100 "/search /[invalid/") demo_world))
     = [Searching; SearchFailed].
Proof. repeat split; vm_compute; reflexivity. Qed.

(** ** The writes and reads of the tables on the example data *)

(** What the store does with the texts it does not take as they are: a
    name of 256 characters is refused and nothing is written, unless the
    last one is a space, which is cut; U+0000 is refused in a name and in
    a text; a surrogate without its pair is stored as U+FFFD.  A message
    whose text is refused is not saved, though its author is, and the
    handler writes the failure to the console. *)
Example store_text_scenarios :
  let user name := {| i_id := 3; i_username := Some name;
                      i_first_name := None; i_last_name := None |} in
  let stored name :=
    match fst (User_createOrUpdate (user name) demo_world) with
    | Ok row => Ok (username row)
    | Throw e => Throw e
    end in
  User_createOrUpdate (user (repeat 97%N 256)) demo_world
  = (Throw StringDataRightTruncation, demo_world)
  /\ stored (repeat 97%N 255 ++ lit " ") = Ok (Some (repeat 97%N 255))
  /\ stored (lit "a" ++ [0%N]) = Throw CharacterNotInRepertoire
  /\ stored (lit "a" ++ [55357%N]) = Ok (Some (lit "a" ++ [65533%N]))
  /\ Message_create {| c_user_id := 1; c_chat_id := 100;
                       c_text := lit "a" ++ [0%N] |} demo_db
     = (Throw CharacterNotInRepertoire, demo_db)
  /\ (let message := {| from_id := 3; from_username := None;
                        from_first_name := lit "Cat"; from_last_name := None;
                        msg_chat := (group, 100);
                        msg_text := lit "a" ++ [0%N] |} in
      let db' := snd (on_text message demo_db) in
      messages (db_world db') = messages demo_world
      /\ List.map u_id (users (db_world db')) = [1; 2; 3]
      /\ head (console (db_world db')) = Some (processing_line message 100)
      /\ last (console (db_world db'))
         = Some (lit "Error processing message:")).
Proof. cbv zeta. repeat split; vm_compute; reflexivity. Qed.

Lemma createOrUpdate_then_findById_witness :
  exists row w',
    User_createOrUpdate {| i_id := 3; i_username := Some (lit "cat");
                           i_first_name := Some (lit "Cat");
                           i_last_name := None |} demo_world
    = (Ok row, w')
    /\ User_findById 3 w' = (Ok (Some row), w')
    /\ username row = Some (lit "cat")
    /\ u_created_at row = 1000.
Proof.
  destruct (createOrUpdate_then_findById
              {| i_id := 3; i_username := Some (lit "cat");
                 i_first_name := Some (lit "Cat"); i_last_name := None |}
              demo_world eq_refl eq_refl eq_refl eq_refl)
    as (row & w' & C & F & _ & U & _ & _ & T & _).
  exists row, w'. split; [exact C|]. split; [exact F|].
  split; [exact U|]. rewrite T. reflexivity.
Defined.

Lemma User_update_changes_given_fields_witness :
  exists u w',
    User_update 1 {| upd_username := None;
                     upd_first_name := Some (lit "Ann");
                     upd_last_name := None |} demo_world
    = (Ok (Some u), w')
    /\ username u = Some (lit "ann")
    /\ first_name u = Some (lit "Ann").
Proof.
  destruct (User_update_changes_given_fields 1
              {| upd_username := None; upd_first_name := Some (lit "Ann");
                 upd_last_name := None |}
              demo_world eq_refl eq_refl eq_refl eq_refl)
    as (r & w' & U & R & _).
  cbn in R. subst r.
  eexists. exists w'. split; [exact U|]. split; reflexivity.
Defined.

Lemma Message_create_respects_schema_witness :
  store_ok demo_db = true
  /\ match Message_create {| c_user_id := 1; c_chat_id := 100;
                             c_text := lit "new" |} demo_db with
     | (Ok row, db') =>
         m_id row = 11 /\ store_ok db' = true
         /\ Message_findById 11 (db_world db') = (Ok (Some row), db_world db')
     | (Throw _, _) => False
     end.
Proof.
  split; [reflexivity|].
  pose proof (Message_create_respects_schema
                {| c_user_id := 1; c_chat_id := 100; c_text := lit "new" |}
                demo_db eq_refl eq_refl eq_refl eq_refl ltac:(cbn; lia)) as H.
  destruct (Message_create {| c_user_id := 1; c_chat_id := 100;
                              c_text := lit "new" |} demo_db)
    as [[row|e] db'] eqn:E.
  - assert (I : m_id row = 11)
      by (vm_compute in E; injection E as <- _; reflexivity).
    destruct H as (_ & K & _ & _ & _ & _ & _ & _ & _ & F).
    rewrite I in F. auto.
  - vm_compute in E. discriminate E.
Defined.

Lemma on_text_saves_the_message_witness :
  let message := {| from_id := 3; from_username := Some (lit "cat");
                    from_first_name := lit "Cat"; from_last_name := None;
                    msg_chat := (supergroup, 100); msg_text := lit "hi all" |} in
  store_ok demo_db = true
  /\ is_group (Some (msg_chat message)) = Some 100
  /\ exists row db',
       on_text message demo_db = (None, db')
       /\ store_ok db' = true
       /\ messages (db_world db') = messages demo_world ++ [row]
       /\ text row = lit "hi all"
       /\ exists logged,
            console (db_world db') = logged
            /\ head logged
               = Some ([55357; 56541]%N
                         ++ lit " Processing message from user 3 (cat) in chat 100")
            /\ last logged
               = Some ([9989%N] ++ lit " Message saved: hi all...").
Proof.
  cbv zeta. split; [reflexivity|]. split; [reflexivity|].
  destruct (on_text_saves_the_message
              {| from_id := 3; from_username := Some (lit "cat");
                 from_first_name := lit "Cat"; from_last_name := None;
                 msg_chat := (supergroup, 100); msg_text := lit "hi all" |}
              demo_db 100 eq_refl eq_refl eq_refl eq_refl eq_refl eq_refl
              eq_refl eq_refl ltac:(cbn; lia))
    as (row & db' & E & K & M & _ & _ & T & (logged & L & First & Last) & _).
  exists row, db'. repeat (split; [assumption|]).
  exists logged. split; [rewrite L; reflexivity|].
  split; [rewrite First | rewrite Last]; reflexivity.
Defined.

Lemma User_delete_cascades_witness :
  store_ok demo_db = true
  /\ exists w',
       User_delete 2 demo_world = (Ok true, w')
       /\ store_ok {| db_world := w'; messages_id_seq := 10 |} = true
       /\ List.map m_id (messages w') = [1; 2; 5; 7; 9].
Proof.
  split; [reflexivity|].
  destruct (User_delete_cascades 2 demo_db eq_refl)
    as (r & w' & E & K & _).
  exists w'. change (db_world demo_db) with demo_world in E.
  assert (X : User_delete 2 demo_world
              = (Ok true, snd (User_delete 2 demo_world))) by reflexivity.
  rewrite X in E. injection E as <- <-.
  split; [reflexivity|]. split; [exact K|]. reflexivity.
Defined.

Lemma findByChatId_pages_witness :
  exists a b,
    Message_findByChatId 7 5 0 demo_world = (Ok a, demo_world)
    /\ Message_findByChatId 7 5 5 demo_world = (Ok b, demo_world)
    /\ List.map m_id (a ++ b) = [10; 9; 8; 7; 6; 5; 4].
Proof.
  destruct (findByChatId_pages 7 5 5 0 demo_world
              ltac:(lia) ltac:(lia) ltac:(lia))
    as (a & b & A & B & _).
  exists a, b. split; [exact A|]. split; [exact B|].
  assert (Ea : a = match fst (Message_findByChatId 7 5 0 demo_world) with
                   | Ok rows => rows
                   | Throw _ => []
                   end) by now rewrite A.
  assert (Eb : b = match fst (Message_findByChatId 7 5 (0 + 5) demo_world) with
                   | Ok rows => rows
                   | Throw _ => []
                   end) by now rewrite B.
  rewrite Ea, Eb. reflexivity.
Defined.

Lemma getUserStats_accounts_for_every_message_witness :
  references_users demo_world = true
  /\ exists stats,
       Message_getUserStats 7 None demo_world = (Ok stats, demo_world)
       /\ counted stats = 7.
Proof.
  split; [reflexivity|].
  destruct (getUserStats_accounts_for_every_message 7 None demo_world eq_refl)
    as (stats & total & S & T & C & _).
  exists stats. split; [exact S|]. rewrite C.
  assert (X : Message_getTotalCount 7 None demo_world = (Ok 7, demo_world))
    by reflexivity.
  congruence.
Defined.

Lemma getTotalCount_grows_with_period_witness :
  exists n1 n2 n,
    Message_getTotalCount 100 (Some 1) demo_world = (Ok n1, demo_world)
    /\ Message_getTotalCount 100 (Some 7) demo_world = (Ok n2, demo_world)
    /\ Message_getTotalCount 100 None demo_world = (Ok n, demo_world)
    /\ 0 <= n1 <= n2 /\ n2 <= n.
Proof.
  destruct (getTotalCount_grows_with_period 100 1 7 demo_world ltac:(lia))
    as (n1 & n2 & n & A & B & C & _ & L).
  exists n1, n2, n. auto.
Defined.


(** ** The keyboards on examples *)

Lemma users_list_buttons_witness :
  let users :=
    List.map (fun i => {| t_user_id := i; t_username := None;
                          t_first_name := None; t_last_name := None;
                          message_count := 1 |}) [11; 12; 13; 14; 15; 16] in
  List.map (fun b => handleStatsCallback_action (callback_data b))
           (buttons (handleUsersList_keyboard users 1))
  = [ShowUserStats (Some 16) (lit "all"); ShowUsersList (Some 0);
     UnknownCommand; ShowStats all].
Proof.
  cbv zeta.
  destruct (users_list_buttons
              (List.map (fun i => {| t_user_id := i; t_username := None;
                                     t_first_name := None; t_last_name := None;
                                     message_count := 1 |})
                        [11; 12; 13; 14; 15; 16]) 1
              ltac:(discriminate)
              ltac:(repeat constructor)
              ltac:(split; [lia | vm_compute; reflexivity]))
    as (_ & E & _).
  cbv zeta in E. rewrite E. reflexivity.
Defined.

Lemma search_buttons_round_trip_witness :
  well_formed (lit "a b:c") = true
  /\ exists keyboard,
       createSearchKeyboard 1 3 (lit "a b:c") = Some keyboard
       /\ List.map (fun b => handleSearchCallback_action (callback_data b))
                   (buttons keyboard)
          = [ShowSearchPage (Some 0) (lit "a b:c"); UnknownSearchCommand;
             ShowSearchPage (Some 2) (lit "a b:c"); NewSearch].
Proof.
  split; [reflexivity|].
  destruct (search_buttons_round_trip 1 3 (lit "a b:c") eq_refl)
    as (keyboard & K & A & _).
  exists keyboard. split; [exact K|]. rewrite A. reflexivity.
Defined.

(** ** A search asked twice, on the example data *)

Lemma repeated_search_fails_witness :
  exists page w1 w2,
    handleSearchCommand simple_upper simple_upper
      (demo_command 7 "/search hi") demo_world = (Ok tt, w1)
    /\ sent w1 = [Searching; ResultPage page]
    /\ handleSearchCommand simple_upper simple_upper
         (demo_command 7 "/search hi") (later 1000 w1) = (Ok tt, w2)
    /\ sent w2 = sent w1 ++ [Searching; SearchFailed].
Proof.
  apply (repeated_search_fails simple_upper simple_upper
           (demo_command 7 "/search hi") 7 (lit "hi") hi_condition 1000
           demo_world);
    try reflexivity; try (vm_compute; discriminate); lia.
Defined.

(** ** Statistics on the example data *)

Lemma getStatsData_fresh_is_consistent_witness :
  exists top total w',
    getStatsData 100 week demo_world
    = (Ok (StatsData_value {| period := week; totalMessages := total;
                              topUsers := top; cached := false |}), w')
    /\ counted top <= total.
Proof.
  destruct (getStatsData_fresh_is_consistent 100 week demo_world
              eq_refl eq_refl)
    as (top & total & w' & G & _ & _ & _ & C & _).
  exists top, total, w'. auto.
Defined.

Lemma getUserStatsData_unknown_user_witness :
  exists w',
    getUserStatsData 100 99 all demo_world = (Throw UserNotFound, w')
    /\ redis_store w' = redis_store demo_world.
Proof.
  destruct (getUserStatsData_unknown_user 100 99 all demo_world
              eq_refl eq_refl) as (w' & G & S & _).
  exists w'. auto.
Defined.

(** ** The analysis on the example data *)

Lemma analysis_entry_points_agree_witness :
  let w := with_users demo_world (users demo_world ++ [demo_user 3 "cat"]) in
  fst (analyze_command {| an_chat := (group, 100);
                          an_text := lit "/analyze @cat";
                          reply_to_message := None |} w)
  = Ok (TooFewMessages (lit "cat"))
  /\ fst (app_api_analyze (Some (lit "cat")) w) = Ok (Status 400)
  /\ fst (pages_api_analyze {| method := lit "POST";
                               body_username := Some (lit "@cat") |} w)
     = Ok (Status 404).
Proof.
  cbv zeta.
  destruct (analysis_entry_points_agree (lit "cat") 100
              (with_users demo_world (users demo_world ++ [demo_user 3 "cat"]))
              ltac:(discriminate)
              ltac:(vm_compute; intuition congruence)
              ltac:(vm_compute; intuition congruence)
              eq_refl eq_refl)
    as (bot & pages & app & B & P & A & H).
  change (lit "/analyze @" ++ lit "cat") with (lit "/analyze @cat") in B.
  change (lit "@" ++ lit "cat") with (lit "@cat") in P.
  assert (X : fst (analyze_command
                     {| an_chat := (group, 100);
                        an_text := lit "/analyze @cat";
                        reply_to_message := None |}
                     (with_users demo_world
                        (users demo_world ++ [demo_user 3 "cat"])))
              = Ok (TooFewMessages (lit "cat")))
    by (vm_compute; reflexivity).
  split; [exact X|].
  rewrite B in X. cbn [fst] in X. injection X as ->.
  destruct H as (_ & -> & u & Fu & Hm).
  rewrite A, P. split; [reflexivity|].
  vm_compute in Fu. injection Fu as <-.
  vm_compute in Hm. now rewrite Hm.
Defined.

Lemma analysis_is_of_recent_messages_witness :
  let message := {| an_chat := (group, 100); an_text := lit "/analyze @ann";
                    reply_to_message := None |} in
  let msgs := [demo_message 1 1 100 "hello world" 1;
               demo_message 2 1 100 "Hello again" 2;
               demo_message 5 1 7 "hi two" 5;
               demo_message 7 1 7 "hi four" 7;
               demo_message 9 1 7 "hi six" 9] in
  analyze_command message demo_world
  = (Ok (Analysis (lit "ann") msgs 5), demo_world)
  /\ exists userId,
       Message_getRecentMessages userId 50 demo_world = (Ok msgs, demo_world)
       /\ 5 = Z.of_nat (List.length
                (List.filter (fun m => user_id m =? userId)
                             (messages demo_world))).
Proof.
  cbv zeta.
  assert (H : analyze_command
                {| an_chat := (group, 100); an_text := lit "/analyze @ann";
                   reply_to_message := None |} demo_world
              = (Ok (Analysis (lit "ann")
                       [demo_message 1 1 100 "hello world" 1;
                        demo_message 2 1 100 "Hello again" 2;
                        demo_message 5 1 7 "hi two" 5;
                        demo_message 7 1 7 "hi four" 7;
                        demo_message 9 1 7 "hi six" 9] 5), demo_world))
    by (vm_compute; reflexivity).
  split; [exact H|].
  destruct (analysis_is_of_recent_messages _ _ _ _ _ _ H)
    as (_ & _ & userId & G & T & _).
  exists userId. auto.
Defined.

(** ** The statistics of a user shown twice, on the example data *)

Lemma repeated_user_stats_witness :
  exists fresh w1 w2,
    handleUserStats 100 1 all demo_world = (Ok (UserStatsShown fresh), w1)
    /\ handleUserStats 100 1 all (later 1000 w1) = (Ok UserStatsFailed, w2).
Proof.
  destruct (repeated_user_stats 100 1 all (demo_user 1 "ann") 1000 demo_world
              eq_refl eq_refl eq_refl ltac:(lia))
    as (fresh & w1 & cached & again & w2 & A & _ & _ & _ & B & E).
  exists fresh, w1, w2. split; [exact A|].
  rewrite B. f_equal. f_equal. exact E.
Defined.

(** ** A literal query on an example *)

